(** * Configuration resolution and tool selection of playwright-mcp

    A shallow embedding of the configuration pipeline ([resolveConfig],
    [configFromCLIOptions], [loadConfig], [createUserDataDir],
    [mergeConfig]) and of the tool selection of [createServer], followed by
    the properties the specification states about them.

    JavaScript objects are finite maps from property names to values; a
    property can be present with the value [undefined], which is different
    from the property being absent, and object spread keeps that difference.
    Asynchronous functions run to completion one after the other, so they
    are state transformers over the host's file system that either return or
    throw. *)

From Stdlib Require Import Strings.Ascii.
From stdpp Require Import base strings gmap list option pretty.

Set Warnings "-register-all".
Set Default Proof Using "Type".

Open Scope string_scope.

(** ** JavaScript values *)

(** Numbers are integers here: the pipeline only copies numbers (ports)
    around and never computes with them. *)
Inductive value : Type :=
  | VUndef
  | VNull
  | VBool (b : bool)
  | VNum (n : Z)
  | VStr (s : string)
  | VArr (l : list value)
  | VObj (m : gmap string value).

(** Thrown exceptions: the [name] and the [message] of the error object
    and, for the errors of Node's own classes whose [toString] shows it
    ([TypeError [ERR_INVALID_ARG_VALUE]: ...]), the error code. *)
Record exn := MkExn {
  exn_name : string;
  exn_message : string;
  exn_code : option string;
}.

(** An error of a standard class: [new Error(message)] and the like. *)
Definition Exn (name message : string) : exn := MkExn name message None.

(** [`${error}`]: the string form of an exception. [Error.prototype.toString]
    gives the name alone when the message is empty, the message alone when
    the name is empty, and [name: message] otherwise; the errors of Node
    that carry a code give [name [code]: message]. *)
Definition exn_to_string (e : exn) : string :=
  match exn_code e with
  | Some code => exn_name e +:+ " [" +:+ code +:+ "]: " +:+ exn_message e
  | None =>
      if String.eqb (exn_name e) "" then exn_message e
      else if String.eqb (exn_message e) "" then exn_name e
      else exn_name e +:+ ": " +:+ exn_message e
  end.

Definition Error (msg : string) : exn := Exn "Error" msg.
Definition TypeError (msg : string) : exn := Exn "TypeError" msg.

Inductive result (A : Type) : Type :=
  | Ok (a : A)
  | Throw (e : exn).
Arguments Ok {A} a.
Arguments Throw {A} e.

#[global] Instance result_ret : MRet result := λ A a, Ok a.
#[global] Instance result_bind : MBind result := λ A B f r,
  match r with
  | Ok a => f a
  | Throw e => Throw e
  end.

(** Whether a computation returned rather than threw, and the value it
    returned ([undefined] when it threw). *)
Definition returns {A} (r : result A) : bool :=
  match r with
  | Ok _ => true
  | Throw _ => false
  end.

Definition returned (r : result value) : value :=
  match r with
  | Ok v => v
  | Throw _ => VUndef
  end.

(** Optional CLI values as JavaScript values: an absent option reads as
    [undefined]. *)
Definition of_opt {A} (f : A → value) (o : option A) : value :=
  match o with
  | Some a => f a
  | None => VUndef
  end.

Definition nullish (v : value) : bool :=
  match v with
  | VUndef | VNull => true
  | _ => false
  end.

Definition truthy (v : value) : bool :=
  match v with
  | VUndef | VNull => false
  | VBool b => b
  | VNum n => negb (n =? 0)%Z
  | VStr s => negb (String.eqb s "")
  | VArr _ | VObj _ => true
  end.

(** The characters of a string, one per byte; for text outside ASCII
    JavaScript has one per UTF-16 code unit instead. Nothing below depends
    on what the characters of such a string are. *)
Definition chars (s : string) : list value :=
  (λ c, VStr (String c EmptyString)) <$> String.list_ascii_of_string s.

Definition indexed (l : list value) : gmap string value :=
  list_to_map (imap (λ i x, (pretty i, x)) l).

(** The own enumerable properties of a value: what object spread copies.
    Arrays and strings have their indices, the other primitives nothing. *)
Definition own_props (v : value) : gmap string value :=
  match v with
  | VObj m => m
  | VArr l => indexed l
  | VStr s => indexed (chars s)
  | _ => ∅
  end.

(** Reading a property that is absent gives [undefined]. Inherited
    properties (methods, [length]) are outside the model; none of the names
    read by the code below is one. *)
Definition prop (v : value) (k : string) : value :=
  default VUndef (own_props v !! k).

Notation "v .@ k" := (prop v k) (at level 19, left associativity, format "v .@ k").

(** [v.k]: a [TypeError] on [undefined] and [null]. *)
Definition get (v : value) (k : string) : result value :=
  if nullish v
  then Throw (TypeError ("Cannot read properties of "
                         +:+ match v with VNull => "null" | _ => "undefined" end
                         +:+ " (reading '" +:+ k +:+ "')"))
  else Ok (v.@k).

(** [v?.k] *)
Definition get_opt (v : value) (k : string) : value :=
  if nullish v then VUndef else v.@k.

(** [has_key v k]: [k] is an own property of [v], whatever its value. *)
Definition has_key (v : value) (k : string) : Prop := is_Some (own_props v !! k).

(** [{...v1, ...v2, ...}]: later operands win; a property whose value is
    [undefined] is copied like any other. *)
Definition spread (vs : list value) : gmap string value :=
  foldl (λ acc v, own_props v ∪ acc) ∅ vs.

(** ** mergeConfig *)

Definition mergeConfig (base overrides : value) : result value :=
  base_browser ← get base "browser";
  overrides_browser ← get overrides "browser";
  let browser := VObj (
    <["contextOptions" := VObj (spread [
        get_opt base_browser "contextOptions";
        get_opt overrides_browser "contextOptions"])]> (
    <["launchOptions" := VObj (spread [
        get_opt base_browser "launchOptions";
        get_opt overrides_browser "launchOptions";
        VObj {[ "assistantMode" := VBool true ]}])]> (
    spread [base_browser; overrides_browser]))) in
  mret (VObj (<["browser" := browser]> (spread [base; overrides]))).

(** ** The host: platform, environment, file system and library tables *)

(** What the pipeline reads from Node and from playwright. [homedir] is
    the outcome of [os.homedir()], which throws when the host cannot tell
    the home directory; [path_join] is Node's [path.join] of the host
    platform, [devices] playwright's table of device presets, [listen] the
    outcome of binding port 0. [parents p] lists the directories above [p]
    on the host's file system, outermost first and without the root, and
    [mkdir_error] says why a missing directory cannot be created, when it
    cannot. *)
Record Host := {
  platform : string;
  env : gmap string string;
  homedir : result string;
  tmpdir : string;
  path_join : list string → string;
  parents : string → list string;
  devices : gmap string value;
  readFile : string → result string;
  JSON_parse : string → result value;
  listen : result Z;
  mkdir_error : string → option exn;
}.

(** The part of the file system the pipeline changes: the directories that
    exist. *)
Abbreviation fs := (gset string).

Definition M (A : Type) : Type := fs → result A * fs.

#[global] Instance M_ret : MRet M := λ A a st, (Ok a, st).
#[global] Instance M_bind : MBind M := λ A B f m st,
  match m st with
  | (Ok a, st') => f a st'
  | (Throw e, st') => (Throw e, st')
  end.

Definition throw {A} (e : exn) : M A := λ st, (Throw e, st).
Definition lift {A} (r : result A) : M A := λ st, (r, st).

(** Creating the directories of a list one after the other, skipping those
    that exist: the first one that cannot be created stops the run, and
    those created before it stay. *)
Fixpoint create_all (h : Host) (ds : list string) : M unit := λ st,
  match ds with
  | [] => (Ok (), st)
  | d :: ds' =>
      if bool_decide (d ∈ st) then create_all h ds' st
      else match mkdir_error h d with
           | Some e => (Throw e, st)
           | None => create_all h ds' ({[ d ]} ∪ st)
           end
  end.

(** [fs.promises.mkdir(p, { recursive: true })]: succeeds when the
    directory is already there; otherwise it creates the missing
    directories above [p], outermost first, and then [p]. *)
Definition mkdir (h : Host) (p : string) : M unit := λ st,
  if bool_decide (p ∈ st) then (Ok (), st)
  else create_all h (parents h p ++ [p]) st.

(** [process.env[name]] when it is set to a string that is not empty: the
    left operand of [process.env[name] || ...] when it decides. *)
Definition env_set (h : Host) (name : string) : option string :=
  match env h !! name with
  | Some s => if String.eqb s "" then None else Some s
  | None => None
  end.

(** ** CLI options *)

Record CLIOptions := {
  browser : option string;
  caps : option string;
  cdpEndpoint : option string;
  executablePath : option string;
  headless : option bool;
  device : option string;
  userDataDir : option string;
  port : option Z;
  host : option string;
  vision : option bool;
  config : option string;
}.

Inductive BrowserName := chromium | firefox | webkit.

#[global] Instance BrowserName_eq_dec : EqDecision BrowserName.
Proof. solve_decision. Defined.

Definition browserName_str (b : BrowserName) : string :=
  match b with
  | chromium => "chromium"
  | firefox => "firefox"
  | webkit => "webkit"
  end.

(** [s.split(sep)] for a one-character separator. *)
Fixpoint split (sep : Ascii.ascii) (s : string) : list string :=
  match s with
  | EmptyString => [EmptyString]
  | String c s' =>
      if Ascii.eqb c sep then EmptyString :: split sep s'
      else match split sep s' with
           | x :: xs => String c x :: xs
           | [] => [String c EmptyString]
           end
  end.

(** Strings are sequences of bytes, the UTF-8 form of the text. The white
    space that [trim] removes is ECMAScript's WhiteSpace and LineTerminator:
    U+0009 to U+000D and U+0020 (one byte each), U+00A0 (two bytes), and
    U+1680, U+2000 to U+200A, U+2028, U+2029, U+202F, U+205F, U+3000 and
    U+FEFF (three bytes each). *)
Definition is_space2 (a b : Ascii.ascii) : bool :=
  (Ascii.N_of_ascii a =? 194)%N && (Ascii.N_of_ascii b =? 160)%N.

Definition is_space3 (a b c : Ascii.ascii) : bool :=
  let a := Ascii.N_of_ascii a in
  let b := Ascii.N_of_ascii b in
  let c := Ascii.N_of_ascii c in
  ((a =? 225) && (b =? 154) && (c =? 128)
   || (a =? 226) && (b =? 128)
      && ((128 <=? c) && (c <=? 138) || (c =? 168) || (c =? 169) || (c =? 175))
   || (a =? 226) && (b =? 129) && (c =? 159)
   || (a =? 227) && (b =? 128) && (c =? 128)
   || (a =? 239) && (b =? 187) && (c =? 191))%N.

(** [s.trimStart()] *)
Fixpoint trim_start (s : string) : string :=
  match s with
  | String a s1 =>
      if Ascii.is_space a then trim_start s1
      else match s1 with
           | String b s2 =>
               if is_space2 a b then trim_start s2
               else match s2 with
                    | String c s3 => if is_space3 a b c then trim_start s3 else s
                    | EmptyString => s
                    end
           | EmptyString => s
           end
  | EmptyString => EmptyString
  end.

(** [s.trimEnd()]: the longest suffix made of white space only is dropped. *)
Fixpoint trim_end (s : string) : string :=
  match s with
  | String a s' =>
      match trim_start s with
      | EmptyString => EmptyString
      | _ => String a (trim_end s')
      end
  | EmptyString => EmptyString
  end.

(** [s.trim()] *)
Definition trim (s : string) : string := trim_end (trim_start s).

Section Pipeline.
Context (h : Host).

Definition defaultConfig : value :=
  VObj {[
    "browser" := VObj (
      <["browserName" := VStr "chromium"]> (
      <["userDataDir" := VStr (tmpdir h)]> (
      <["launchOptions" := VObj (
          <["channel" := VStr "chrome"]>
          {[ "headless" := VBool (String.eqb (platform h) "linux"
                                  && negb (truthy (of_opt VStr (env h !! "DISPLAY")))) ]})]>
      {[ "contextOptions" := VObj {[ "viewport" := VNull ]} ]})))
  ]}.

Definition findFreePort : M Z := lift (listen h).

Definition loadConfig (configFile : option string) : M value :=
  match configFile with
  | None => mret (VObj ∅)
  | Some f =>
      if String.eqb f "" then mret (VObj ∅)
      else
        let failed (error : exn) : M value :=
          throw (Error ("Failed to load config file: " +:+ f +:+ ", " +:+ exn_to_string error)) in
        match readFile h f with
        | Throw error => failed error
        | Ok text =>
            match JSON_parse h text with
            | Throw error => failed error
            | Ok v => mret v
            end
        end
  end.

Definition createUserDataDir (browserName : BrowserName) (channel : option string) : M string :=
  cacheDirectory ← (
    if String.eqb (platform h) "linux"
    then match env_set h "XDG_CACHE_HOME" with
         | Some dir => mret dir
         | None => home ← lift (homedir h); mret (path_join h [home; ".cache"])
         end
    else if String.eqb (platform h) "darwin"
    then home ← lift (homedir h); mret (path_join h [home; "Library"; "Caches"])
    else if String.eqb (platform h) "win32"
    then match env_set h "LOCALAPPDATA" with
         | Some dir => mret dir
         | None => home ← lift (homedir h); mret (path_join h [home; "AppData"; "Local"])
         end
    else throw (Error ("Unsupported platform: " +:+ platform h)));
  let result := path_join h [cacheDirectory; "ms-playwright";
    "mcp-" +:+ default (browserName_str browserName) channel +:+ "-profile"] in
  _ ← mkdir h result;
  mret result.

(** The channel tokens of the first group of cases of the switch. *)
Definition chromium_tokens : list string :=
  ["chrome"; "chrome-beta"; "chrome-canary"; "chrome-dev"; "chromium";
   "msedge"; "msedge-beta"; "msedge-canary"; "msedge-dev"].

(** The switch on [cliOptions.browser]: the browser name and the channel
    it assigns. *)
Definition browser_switch (token : option string) : BrowserName * option string :=
  match token with
  | Some b =>
      if bool_decide (b ∈ chromium_tokens) then (chromium, Some b)
      else if String.eqb b "firefox" then (firefox, None)
      else if String.eqb b "webkit" then (webkit, None)
      else (chromium, Some "chrome")
  | None => (chromium, Some "chrome")
  end.

Definition configFromCLIOptions (cliOptions : CLIOptions) : M value :=
  let '(browserName, channel) := browser_switch (browser cliOptions) in
  let launchOptions : gmap string value :=
    <["headless" := of_opt VBool (headless cliOptions)]> (
    <["executablePath" := of_opt VStr (executablePath cliOptions)]>
    {[ "channel" := of_opt VStr channel ]}) in
  launchOptions ← (
    if bool_decide (browserName = chromium)
    then p ← findFreePort; mret (<["webSocketPort" := VNum p]> launchOptions)
    else mret launchOptions);
  let contextOptions :=
    match device cliOptions with
    | Some d => if String.eqb d "" then VUndef else default VUndef (devices h !! d)
    | None => VUndef
    end in
  userDataDir ← (
    match userDataDir cliOptions with
    | Some d => mret d
    | None => createUserDataDir browserName channel
    end);
  mret (VObj (
    <["vision" := VBool (default false (vision cliOptions))]> (
    <["capabilities" :=
        of_opt (λ c, VArr ((λ c, VStr (trim c)) <$> split ","%char c)) (caps cliOptions)]> (
    <["server" := VObj (
        <["host" := of_opt VStr (host cliOptions)]>
        {[ "port" := of_opt VNum (port cliOptions) ]})]>
    {[ "browser" := VObj (
        <["cdpEndpoint" := of_opt VStr (cdpEndpoint cliOptions)]> (
        <["contextOptions" := contextOptions]> (
        <["launchOptions" := VObj launchOptions]> (
        <["userDataDir" := VStr userDataDir]>
        {[ "browserName" := VStr (browserName_str browserName) ]})))) ]})))).

Definition resolveConfig (cliOptions : CLIOptions) : M value :=
  config ← loadConfig (config cliOptions);
  cliOverrides ← configFromCLIOptions cliOptions;
  lift (merged ← mergeConfig config cliOverrides; mergeConfig defaultConfig merged).

End Pipeline.

(** ** createServer *)

(** [a.includes(x)] for a string [x]: membership in an array, substring of
    a string, and a [TypeError] on anything else that has no such method. *)
Fixpoint is_substring (x s : string) : bool :=
  String.prefix x s ||
  match s with
  | EmptyString => false
  | String _ s' => is_substring x s'
  end.

Definition includes (a : value) (x : string) : result bool :=
  match a with
  | VArr l => Ok (existsb (λ v, match v with VStr s => String.eqb s x | _ => false end) l)
  | VStr s => Ok (is_substring x s)
  | _ => Throw (TypeError "config.capabilities.includes is not a function")
  end.

(** [l.filter(f)] for a callback that can throw. *)
Fixpoint filterM {A} (f : A → result bool) (l : list A) : result (list A) :=
  match l with
  | [] => Ok []
  | x :: l' =>
      keep ← f x;
      rest ← filterM f l';
      mret (if keep : bool then x :: rest else rest)
  end.

Section Registry.
(** The tool modules under [./tools/]: only the capability tag of a tool
    matters here. *)
Context {Tool : Type} (capability : Tool → string).
Context (common dialogs files keyboard navigate tabs : bool → list Tool).
Context (console install network pdf snapshot screen : list Tool).

Definition snapshotTools : list Tool :=
  common true ++ console ++ dialogs true ++ files true ++ install ++
  keyboard true ++ navigate true ++ network ++ pdf ++ snapshot ++ tabs true.

Definition screenshotTools : list Tool :=
  common false ++ console ++ dialogs false ++ files false ++ install ++
  keyboard false ++ navigate false ++ network ++ pdf ++ screen ++ tabs false.

(** The [tools] that [createServer] hands to [createServerWithTools]. *)
Definition createServer (config : value) : result (list Tool) :=
  let config := match config with VUndef => VObj ∅ | _ => config end in
  vision ← get config "vision";
  let allTools := if truthy vision then screenshotTools else snapshotTools in
  filterM (λ tool,
    capabilities ← get config "capabilities";
    if negb (truthy capabilities) then mret true
    else if String.eqb (capability tool) "core" then mret true
    else includes capabilities (capability tool)) allTools.

End Registry.

(** ** The fragment built from the CLI options, as a value *)

(** The [launchOptions] literal. *)
Definition cli_launchOptions (cliOptions : CLIOptions) (channel : option string)
  : gmap string value :=
  <["headless" := of_opt VBool (headless cliOptions)]> (
  <["executablePath" := of_opt VStr (executablePath cliOptions)]>
  {[ "channel" := of_opt VStr channel ]}).

(** The returned object literal, for given launch options and user data
    directory. *)
Definition cli_fragment (h : Host) (cliOptions : CLIOptions) (browserName : BrowserName)
    (launchOptions : gmap string value) (userDataDir : string) : value :=
  VObj (
    <["vision" := VBool (default false (vision cliOptions))]> (
    <["capabilities" :=
        of_opt (λ c, VArr ((λ c, VStr (trim c)) <$> split ","%char c)) (caps cliOptions)]> (
    <["server" := VObj (
        <["host" := of_opt VStr (host cliOptions)]>
        {[ "port" := of_opt VNum (port cliOptions) ]})]>
    {[ "browser" := VObj (
        <["cdpEndpoint" := of_opt VStr (cdpEndpoint cliOptions)]> (
        <["contextOptions" :=
            match device cliOptions with
            | Some d => if String.eqb d "" then VUndef else default VUndef (devices h !! d)
            | None => VUndef
            end]> (
        <["launchOptions" := VObj launchOptions]> (
        <["userDataDir" := VStr userDataDir]>
        {[ "browserName" := VStr (browserName_str browserName) ]})))) ]}))).

(** ** Notions used to state the properties *)

(** The first of [C], [F], [D] that has the key [k] gives its value. *)
Definition first_present (C F D : value) (k : string) : option value :=
  match own_props C !! k with
  | Some x => Some x
  | None =>
      match own_props F !! k with
      | Some x => Some x
      | None => own_props D !! k
      end
  end.

(** The precedence of [C] over [F] over [D] at the key [k] of [r]: a value
    that [C] defines wins; when [C] lacks the key, a value that [F] defines
    wins; when both lack the key, [D]'s value stays. *)
Definition chain_at (C F D r : value) (k : string) : Prop :=
  (C.@k ≠ VUndef → r.@k = C.@k) ∧
  (¬ has_key C k → F.@k ≠ VUndef → r.@k = F.@k) ∧
  (¬ has_key C k → ¬ has_key F k → r.@k = D.@k).

(** The cache directory of the host, when its platform is supported and
    the home directory, where it is needed, is known. *)
Definition cache_directory (h : Host) : result string :=
  if String.eqb (platform h) "linux"
  then match env_set h "XDG_CACHE_HOME" with
       | Some dir => Ok dir
       | None => home ← homedir h; mret (path_join h [home; ".cache"])
       end
  else if String.eqb (platform h) "darwin"
  then home ← homedir h; mret (path_join h [home; "Library"; "Caches"])
  else if String.eqb (platform h) "win32"
  then match env_set h "LOCALAPPDATA" with
       | Some dir => Ok dir
       | None => home ← homedir h; mret (path_join h [home; "AppData"; "Local"])
       end
  else Throw (Error ("Unsupported platform: " +:+ platform h)).

(** The keys [channel ?? browserName] that the switch on the browser token
    can produce. *)
Definition profile_keys : list string :=
  ["chrome"; "chrome-beta"; "chrome-canary"; "chrome-dev"; "chromium";
   "msedge"; "msedge-beta"; "msedge-canary"; "msedge-dev"; "firefox"; "webkit"].

(** The selection as the specification words it: a handler passes when
    there is no allow-list, or its tag is [core], or its tag is in the
    allow-list. *)
Definition allowed (capabilities : option (list string)) (tag : string) : Prop :=
  match capabilities with
  | None => True
  | Some l => tag = "core" ∨ tag ∈ l
  end.

#[global] Instance allowed_dec capabilities tag : Decision (allowed capabilities tag).
Proof. destruct capabilities; apply _. Defined.

(** Pick the registry by the vision flag, keep the handlers that pass, in
    the order of the registry. *)
Definition selectHandlers {Tool} (capability : Tool → string) (vision : bool)
    (capabilities : option (list string))
    (structuralRegistry visualRegistry : list Tool) : list Tool :=
  filter (λ tool, allowed capabilities (capability tool))
         (if vision then visualRegistry else structuralRegistry).

(** ** Sample hosts and inputs *)

(** Only [--config config.json]. *)
Definition config_only : CLIOptions :=
  {| browser := None; caps := None; cdpEndpoint := None; executablePath := None;
     headless := None; device := None; userDataDir := None; port := None;
     host := None; vision := None; config := Some "config.json" |}.

(** [--browser firefox --headless --caps core,tabs] *)
Definition firefox_options : CLIOptions :=
  {| browser := Some "firefox"; caps := Some "core,tabs"; cdpEndpoint := None;
     executablePath := None; headless := Some true; device := None;
     userDataDir := None; port := None; host := None; vision := None;
     config := None |}.

(** [--browser not-a-browser --user-data-dir /tmp/profile] *)
Definition unknown_browser_options : CLIOptions :=
  {| browser := Some "not-a-browser"; caps := None; cdpEndpoint := None;
     executablePath := None; headless := None; device := None;
     userDataDir := Some "/tmp/profile"; port := None; host := None;
     vision := None; config := None |}.

(** What [configFromCLIOptions] returns for [config_only] on [linux_host]
    below. *)
Definition sample_cli_fragment (h : Host) : value :=
  cli_fragment h config_only chromium
    (<["webSocketPort" := VNum 40000]> (cli_launchOptions config_only (Some "chrome")))
    "/home/user/.cache/ms-playwright/mcp-chrome-profile".

(** A config that switches the assistant-mode marker off. *)
Definition marker_off : value :=
  VObj {[ "browser" := VObj {[ "launchOptions" :=
    VObj {[ "assistantMode" := VBool false ]} ]} ]}.

(** A base whose launch options have the marker switched off and an
    executable path, and overrides that set only [headless]. *)
Definition marker_off_base : value :=
  VObj {[ "browser" := VObj {[ "launchOptions" := VObj (
    <["assistantMode" := VBool false]>
    {[ "executablePath" := VStr "/opt/chrome" ]}) ]} ]}.

Definition headless_only : value :=
  VObj {[ "browser" := VObj {[ "launchOptions" :=
    VObj {[ "headless" := VBool true ]} ]} ]}.

(** Two configs with a [server] group. *)
Definition server_base : value :=
  VObj {[ "server" := VObj (<["host" := VStr "localhost"]> {[ "port" := VNum 8080 ]}) ]}.

Definition server_overrides : value :=
  VObj {[ "server" := VObj {[ "port" := VNum 9000 ]} ]}.

(** A file that sets the assistant-mode marker, the headless flag, an
    executable path, the vision flag and a server port. *)
Definition sample_file : value :=
  VObj (
    <["vision" := VBool true]> (
    <["server" := VObj {[ "port" := VNum 8080 ]}]>
    {[ "browser" := VObj {[ "launchOptions" := VObj (
         <["assistantMode" := VBool false]> (
         <["headless" := VBool false]>
         {[ "executablePath" := VStr "/opt/chrome" ]})) ]} ]})).

(** The directories above a path whose separator is the slash, outermost
    first: the prefixes that end before a slash. *)
Fixpoint prefixes_at_slash (seen rest : string) : list string :=
  match rest with
  | EmptyString => []
  | String c rest' =>
      (if Ascii.eqb c "/" && negb (String.eqb seen "") then [seen] else [])
      ++ prefixes_at_slash (seen +:+ String c EmptyString) rest'
  end.

Definition posix_parents (p : string) : list string := prefixes_at_slash "" p.

(** A file that sets the vision flag, an output directory and a launch
    option that neither the CLI fragment nor the default config has. *)
Definition layered_file : value :=
  VObj (
    <["vision" := VBool true]> (
    <["outputDir" := VStr "/srv/out"]>
    {[ "browser" := VObj {[ "launchOptions" := VObj {[ "slowMo" := VNum 50 ]} ]} ]})).

(** A Linux host without a display. Its files are [config.json], which
    parses to [sample_file], and [broken.json], which reads but does not
    parse. *)
Definition linux_host : Host := {|
  platform := "linux";
  env := ∅;
  homedir := Ok "/home/user";
  tmpdir := "/tmp";
  path_join := String.concat "/";
  parents := posix_parents;
  devices := ∅;
  readFile := λ f,
    if String.eqb f "config.json" then Ok "<sample>"
    else if String.eqb f "broken.json" then Ok "{"
    else Throw (Error ("ENOENT: no such file or directory, open '" +:+ f +:+ "'"));
  JSON_parse := λ text,
    if String.eqb text "<sample>" then Ok sample_file
    else Throw (Exn "SyntaxError" "Unexpected end of JSON input");
  listen := Ok 40000%Z;
  mkdir_error := λ _, None;
|}.

(** ** outputFile *)

Section Output.
(** [sanitizeForFilePath] lives in [./tools/utils]; here it is any function
    on strings. *)
Context (h : Host) (sanitizeForFilePath : string → string).

(** [fs.promises.mkdir] and [path.join] accept strings only: on another
    value of a config they throw a [TypeError] (Node's message, abridged
    and without its quotes). *)
Definition outputFile (config : value) (name : string) : M string :=
  outputDir ← lift (get config "outputDir");
  let result := if nullish outputDir then VStr (tmpdir h) else outputDir in
  match result with
  | VStr dir =>
      _ ← mkdir h dir;
      let fileName := sanitizeForFilePath name in
      mret (path_join h [dir; fileName])
  | _ => throw (MkExn "TypeError" "The path argument must be of type string"
                  (Some "ERR_INVALID_ARG_TYPE"))
  end.

End Output.

(** The value that [mergeConfig] returns on operands that are neither
    [undefined] nor [null]. *)
Definition merged (base overrides : value) : value :=
  VObj (<["browser" := VObj (
    <["contextOptions" := VObj (spread [
        base.@"browser".@"contextOptions";
        overrides.@"browser".@"contextOptions"])]> (
    <["launchOptions" := VObj (spread [
        base.@"browser".@"launchOptions";
        overrides.@"browser".@"launchOptions";
        VObj {[ "assistantMode" := VBool true ]}])]> (
    spread [base.@"browser"; overrides.@"browser"])))]> (spread [base; overrides])).

(** The device preset that [--device] selects: nothing for an absent, empty
    or unknown name. *)
Definition device_preset (h : Host) (cliOptions : CLIOptions) : value :=
  match device cliOptions with
  | Some d => if String.eqb d "" then VUndef else default VUndef (devices h !! d)
  | None => VUndef
  end.

(** A host like [linux_host] whose file [null.json] holds the JSON value
    [null]. *)
Definition null_file_host : Host := {|
  platform := "linux";
  env := ∅;
  homedir := Ok "/home/user";
  tmpdir := "/tmp";
  path_join := String.concat "/";
  parents := posix_parents;
  devices := ∅;
  readFile := λ f,
    if String.eqb f "null.json" then Ok "null"
    else Throw (Error ("ENOENT: no such file or directory, open '" +:+ f +:+ "'"));
  JSON_parse := λ text,
    if String.eqb text "null" then Ok VNull
    else Throw (Exn "SyntaxError" "Unexpected end of JSON input");
  listen := Ok 40000%Z;
  mkdir_error := λ _, None;
|}.

(** [--browser firefox --config null.json] *)
Definition null_file_options : CLIOptions :=
  {| browser := Some "firefox"; caps := None; cdpEndpoint := None;
     executablePath := None; headless := None; device := None;
     userDataDir := None; port := None; host := None; vision := None;
     config := Some "null.json" |}.

(** A config file whose groups are not objects. *)
Definition odd_file : value :=
  VObj (<["outputDir" := VStr "/srv/out"]>
        {[ "browser" := VStr "chrome" ]}).

(** A host whose [config.json] parses to [odd_file] and which knows one
    device preset. *)
Definition odd_file_host : Host := {|
  platform := "linux";
  env := {[ "XDG_CACHE_HOME" := "/var/cache" ]};
  homedir := Ok "/home/user";
  tmpdir := "/tmp";
  path_join := String.concat "/";
  parents := posix_parents;
  devices := {[ "Pixel 5" := VObj (<["isMobile" := VBool true]>
                                   {[ "viewport" := VObj (<["width" := VNum 393]>
                                                          {[ "height" := VNum 851 ]}) ]}) ]};
  readFile := λ f,
    if String.eqb f "config.json" then Ok "<odd>"
    else Throw (Error ("ENOENT: no such file or directory, open '" +:+ f +:+ "'"));
  JSON_parse := λ text,
    if String.eqb text "<odd>" then Ok odd_file
    else Throw (Exn "SyntaxError" "Unexpected end of JSON input");
  listen := Throw (Error "listen EMFILE");
  mkdir_error := λ _, None;
|}.

(** [--browser webkit --device <name> --user-data-dir /tmp/profile
    --config config.json] *)
Definition device_options (name : string) : CLIOptions :=
  {| browser := Some "webkit"; caps := None; cdpEndpoint := None;
     executablePath := None; headless := None; device := Some name;
     userDataDir := Some "/tmp/profile"; port := None; host := None;
     vision := None; config := Some "config.json" |}.

(** A host whose platform Node reports as [freebsd]. *)
Definition freebsd_host : Host := {|
  platform := "freebsd";
  env := ∅;
  homedir := Ok "/home/user";
  tmpdir := "/tmp";
  path_join := String.concat "/";
  parents := posix_parents;
  devices := ∅;
  readFile := λ f, Throw (Error ("ENOENT: no such file or directory, open '" +:+ f +:+ "'"));
  JSON_parse := λ text, Throw (Exn "SyntaxError" "Unexpected end of JSON input");
  listen := Ok 40000%Z;
  mkdir_error := λ _, None;
|}.

(** No option at all. *)
Definition bare_options : CLIOptions :=
  {| browser := None; caps := None; cdpEndpoint := None; executablePath := None;
     headless := None; device := None; userDataDir := None; port := None;
     host := None; vision := None; config := None |}.

(** [--user-data-dir /tmp/profile] *)
Definition profile_options : CLIOptions :=
  {| browser := None; caps := None; cdpEndpoint := None; executablePath := None;
     headless := None; device := None; userDataDir := Some "/tmp/profile";
     port := None; host := None; vision := None; config := None |}.

(** The tags of a [--caps] value: [caps.split(',').map(c => c.trim())]. *)
Definition parse_caps (caps : string) : list string :=
  trim <$> split ","%char caps.

(** Whether the character [c] occurs in [s]. *)
Fixpoint occurs (c : Ascii.ascii) (s : string) : bool :=
  match s with
  | EmptyString => false
  | String a s' => Ascii.eqb a c || occurs c s'
  end.

(** How often it does. *)
Fixpoint count_char (c : Ascii.ascii) (s : string) : nat :=
  match s with
  | EmptyString => 0
  | String a s' => (if Ascii.eqb a c then 1 else 0) + count_char c s'
  end.

(** The rest of [s] after the white-space character it starts with, when
    it starts with one. *)
Definition space_rest (s : string) : option string :=
  match s with
  | String a s1 =>
      if Ascii.is_space a then Some s1
      else match s1 with
           | String b s2 =>
               if is_space2 a b then Some s2
               else match s2 with
                    | String c s3 => if is_space3 a b c then Some s3 else None
                    | EmptyString => None
                    end
           | EmptyString => None
           end
  | EmptyString => None
  end.

(** [s] starts with a white-space character. *)
Definition starts_with_space (s : string) : bool :=
  match space_rest s with
  | Some _ => true
  | None => false
  end.

(** [s] ends with a white-space character: one of its suffixes is exactly
    one such character. *)
Fixpoint ends_with_space (s : string) : bool :=
  match s with
  | EmptyString => false
  | String _ s' =>
      match space_rest s with
      | Some EmptyString => true
      | _ => false
      end || ends_with_space s'
  end.

(** [--caps <value> --user-data-dir /tmp/profile] *)
Definition caps_options (value : string) : CLIOptions :=
  {| browser := None; caps := Some value; cdpEndpoint := None; executablePath := None;
     headless := None; device := None; userDataDir := Some "/tmp/profile";
     port := None; host := None; vision := None; config := None |}.

(** A [--caps] value whose first tag is led by a no-break space (U+00A0,
    the bytes 194 and 160) and whose second is followed by a line
    separator (U+2028, the bytes 226, 128 and 168). *)
Definition nbsp_caps : string :=
  String (Ascii.ascii_of_nat 194) (String (Ascii.ascii_of_nat 160) "pdf, tabs")
  +:+ String (Ascii.ascii_of_nat 226) (String (Ascii.ascii_of_nat 128)
        (String (Ascii.ascii_of_nat 168) "")).

(** Three tools in the shape of the real ones: a name and a capability. *)
Definition sample_common (snapshot : bool) : list (string * string) :=
  [("browser_close", "core")].
Definition sample_tabs (snapshot : bool) : list (string * string) :=
  [("browser_tab_list", "tabs")].
Definition sample_pdf : list (string * string) := [("browser_pdf_save", "pdf")].
Definition sample_none (snapshot : bool) : list (string * string) := [].

(** [createServer] over these modules. *)
Definition sample_server : value → result (list (string * string)) :=
  createServer snd sample_common sample_none sample_none sample_none sample_none
    sample_tabs [] [] [] sample_pdf [] [].

(** A stand-in for [sanitizeForFilePath]: every slash becomes a dash. *)
Fixpoint dash_slashes (s : string) : string :=
  match s with
  | EmptyString => EmptyString
  | String c s' => String (if Ascii.eqb c "/" then "-"%char else c) (dash_slashes s')
  end.

(** A host on which nothing can be created under [/srv]. *)
Definition readonly_host : Host := {|
  platform := "linux";
  env := ∅;
  homedir := Ok "/home/user";
  tmpdir := "/tmp";
  path_join := String.concat "/";
  parents := posix_parents;
  devices := ∅;
  readFile := λ f, Throw (Error ("ENOENT: no such file or directory, open '" +:+ f +:+ "'"));
  JSON_parse := λ text, Throw (Exn "SyntaxError" "Unexpected end of JSON input");
  listen := Ok 40000%Z;
  mkdir_error := λ p,
    if String.prefix "/srv" p
    then Some (Error ("EACCES: permission denied, mkdir '" +:+ p +:+ "'"))
    else None;
|}.

(** A Linux host of which Node cannot tell the home directory and which
    sets no [XDG_CACHE_HOME]. *)
Definition homeless_host : Host := {|
  platform := "linux";
  env := ∅;
  homedir := Throw (MkExn "SystemError"
    "A system error occurred: uv_os_homedir returned ENOENT (no such file or directory)"
    (Some "ERR_SYSTEM_ERROR"));
  tmpdir := "/tmp";
  path_join := String.concat "/";
  parents := posix_parents;
  devices := ∅;
  readFile := λ f, Throw (Error ("ENOENT: no such file or directory, open '" +:+ f +:+ "'"));
  JSON_parse := λ text, Throw (Exn "SyntaxError" "Unexpected end of JSON input");
  listen := Ok 40000%Z;
  mkdir_error := λ _, None;
|}.

(** The ports of the two test servers of a worker ([_workerServers] in
    [tests/fixtures.ts]): HTTP and HTTPS. The source computes on doubles;
    for a worker index that is an integer with [0 ≤ workerIndex < 2^50]
    every intermediate result is an integer below [2^53], where the
    arithmetic of doubles is exact and is that of the integers. *)
Definition workerServers_ports (workerIndex : Z) : Z * Z :=
  let port := (8907 + workerIndex * 4)%Z in
  let httpsPort := (port + 1)%Z in
  (port, httpsPort).

(** [--config missing.json] *)
Definition missing_file_options : CLIOptions :=
  {| browser := None; caps := None; cdpEndpoint := None; executablePath := None;
     headless := None; device := None; userDataDir := None; port := None;
     host := None; vision := None; config := Some "missing.json" |}.

(** * Properties *)

(** ** Object spread and property access *)

Lemma own_props_nullish v : nullish v = true → own_props v = ∅.
Proof. by destruct v. Qed.

Lemma get_opt_prop v k : get_opt v k = v.@k.
Proof.
  unfold get_opt, prop. destruct (nullish v) eqn:Hn; [|done].
  by rewrite own_props_nullish.
Qed.

Lemma get_ok v k : nullish v = false → get v k = Ok (v.@k).
Proof. unfold get. by intros ->. Qed.

Lemma get_inv v k r : get v k = Ok r → nullish v = false ∧ r = v.@k.
Proof. unfold get. destruct (nullish v); naive_solver. Qed.

Lemma prop_lookup v k x : own_props v !! k = Some x → v.@k = x.
Proof. unfold prop. by intros ->. Qed.

Lemma prop_absent v k : own_props v !! k = None → v.@k = VUndef.
Proof. unfold prop. by intros ->. Qed.

Lemma prop_defined v k : v.@k ≠ VUndef → own_props v !! k = Some (v.@k).
Proof. unfold prop. by destruct (own_props v !! k). Qed.

Lemma not_has_key v k : ¬ has_key v k ↔ own_props v !! k = None.
Proof. unfold has_key. by rewrite eq_None_not_Some. Qed.

Lemma spread2_lookup a b k :
  spread [a; b] !! k =
  match own_props b !! k with
  | Some x => Some x
  | None => own_props a !! k
  end.
Proof.
  unfold spread; simpl. rewrite (right_id_L ∅ (∪)).
  destruct (own_props b !! k) as [x|] eqn:Hb.
  - by apply lookup_union_Some_l.
  - by rewrite lookup_union_r.
Qed.

Lemma spread3_lookup a b c k :
  spread [a; b; c] !! k =
  match own_props c !! k with
  | Some x => Some x
  | None => spread [a; b] !! k
  end.
Proof.
  unfold spread; simpl.
  destruct (own_props c !! k) as [x|] eqn:Hc.
  - by apply lookup_union_Some_l.
  - by rewrite lookup_union_r.
Qed.

(** ** What mergeConfig returns *)

(** [mergeConfig] returns whenever neither operand is [undefined] or
    [null], and then the four groups of its result are these spreads. *)
Lemma mergeConfig_spec base overrides :
  nullish base = false → nullish overrides = false →
  ∃ r, mergeConfig base overrides = Ok r ∧ nullish r = false ∧
    (∀ k, k ≠ "browser" → own_props r !! k = spread [base; overrides] !! k) ∧
    (∀ k, k ≠ "launchOptions" → k ≠ "contextOptions" →
       own_props (r.@"browser") !! k
       = spread [base.@"browser"; overrides.@"browser"] !! k) ∧
    own_props (r.@"browser".@"launchOptions")
    = spread [base.@"browser".@"launchOptions";
              overrides.@"browser".@"launchOptions";
              VObj {[ "assistantMode" := VBool true ]}] ∧
    own_props (r.@"browser".@"contextOptions")
    = spread [base.@"browser".@"contextOptions";
              overrides.@"browser".@"contextOptions"].
Proof.
  intros Hb Ho. unfold mergeConfig.
  rewrite (get_ok base) by done. rewrite (get_ok overrides) by done. simpl.
  rewrite !get_opt_prop.
  eexists; split; [reflexivity|]. split; [done|].
  split; [|split; [|split]].
  - intros k Hk. simpl. by rewrite lookup_insert_ne.
  - intros k Hl Hc. unfold prop at 1. simpl. rewrite lookup_insert_eq. simpl.
    by rewrite !lookup_insert_ne.
  - unfold prop at 1 2. simpl. rewrite lookup_insert_eq. simpl.
    rewrite lookup_insert_ne by done. by rewrite lookup_insert_eq.
  - unfold prop at 1 2. simpl. rewrite lookup_insert_eq. simpl.
    by rewrite lookup_insert_eq.
Qed.

Lemma mergeConfig_inv base overrides r :
  mergeConfig base overrides = Ok r →
  nullish base = false ∧ nullish overrides = false.
Proof.
  unfold mergeConfig, get.
  destruct (nullish base); [done|]. by destruct (nullish overrides).
Qed.

Lemma mergeConfig_marker base overrides r :
  mergeConfig base overrides = Ok r →
  r.@"browser".@"launchOptions".@"assistantMode" = VBool true.
Proof.
  intros Hr. destruct (mergeConfig_inv _ _ _ Hr) as [Hb Ho].
  destruct (mergeConfig_spec base overrides Hb Ho) as (r' & Hr' & _ & _ & _ & Hl & _).
  assert (r' = r) as -> by congruence.
  apply prop_lookup. rewrite Hl, spread3_lookup. simpl.
  by rewrite lookup_singleton_eq.
Qed.

(** ** How resolveConfig is put together *)

Lemma resolveConfig_inv h cliOptions st cfg st' :
  resolveConfig h cliOptions st = (Ok cfg, st') →
  ∃ file st1 cli merged,
    loadConfig h (config cliOptions) st = (Ok file, st1) ∧
    configFromCLIOptions h cliOptions st1 = (Ok cli, st') ∧
    mergeConfig file cli = Ok merged ∧
    mergeConfig (defaultConfig h) merged = Ok cfg.
Proof.
  unfold resolveConfig, mbind, M_bind, lift.
  destruct (loadConfig h (config cliOptions) st) as [[file|e] st1]; [|done].
  destruct (configFromCLIOptions h cliOptions st1) as [[cli|e] st2] eqn:Hc; [|done].
  destruct (mergeConfig file cli) as [merged|e] eqn:Hm; simpl; [|done].
  intros [= Hd <-]. by exists file, st1, cli, merged.
Qed.

Lemma resolveConfig_ok h cliOptions st file st1 cli st2 :
  loadConfig h (config cliOptions) st = (Ok file, st1) →
  configFromCLIOptions h cliOptions st1 = (Ok cli, st2) →
  resolveConfig h cliOptions st
  = (merged ← mergeConfig file cli; mergeConfig (defaultConfig h) merged, st2).
Proof.
  intros Hl Hc. unfold resolveConfig, mbind at 1 2, M_bind, lift.
  by rewrite Hl, Hc.
Qed.

Lemma resolveConfig_load_throws h cliOptions st e st1 :
  loadConfig h (config cliOptions) st = (Throw e, st1) →
  resolveConfig h cliOptions st = (Throw e, st1).
Proof. intros Hl. unfold resolveConfig, mbind, M_bind. by rewrite Hl. Qed.

(** ** The forced assistant-mode marker *)

(** C2. For all configs [base] and [overrides] (any values other than
    [undefined] and [null], on which reading [.browser] throws),
    [mergeConfig] returns a config whose
    [browser.launchOptions.assistantMode] is [true], also when an operand
    sets it to [false]; and so is it in every config that [resolveConfig]
    returns. *)
Theorem assistantMode_forced :
  (∀ base overrides, nullish base = false → nullish overrides = false →
     ∃ r, mergeConfig base overrides = Ok r ∧
          r.@"browser".@"launchOptions".@"assistantMode" = VBool true) ∧
  (∀ h cliOptions st cfg st',
     resolveConfig h cliOptions st = (Ok cfg, st') →
     cfg.@"browser".@"launchOptions".@"assistantMode" = VBool true).
Proof.
  split.
  - intros base overrides Hb Ho.
    destruct (mergeConfig_spec base overrides Hb Ho) as (r & Hr & _).
    exists r. split; [done|]. by eapply mergeConfig_marker.
  - intros h cliOptions st cfg st' Hres.
    apply resolveConfig_inv in Hres as (file & st1 & cli & merged & _ & _ & _ & Hd).
    by eapply mergeConfig_marker.
Qed.

(** Both operands set the marker to [false]; on the sample host the file
    sets it to [false] as well. *)
Lemma assistantMode_forced_witness :
  (∃ r, mergeConfig marker_off marker_off = Ok r ∧
        r.@"browser".@"launchOptions".@"assistantMode" = VBool true) ∧
  ∃ cfg st',
    resolveConfig linux_host config_only ∅ = (Ok cfg, st') ∧
    cfg.@"browser".@"launchOptions".@"assistantMode" = VBool true.
Proof.
  split.
  - apply (proj1 assistantMode_forced marker_off marker_off); reflexivity.
  - destruct (resolveConfig linux_host config_only ∅) as [[cfg|e] st'] eqn:Hres.
    + exists cfg, st'. split; [reflexivity|].
      exact (proj2 assistantMode_forced _ _ _ _ _ Hres).
    + exfalso. assert (returns (resolveConfig linux_host config_only ∅).1 = true) as Hok
        by (vm_compute; reflexivity).
      rewrite Hres in Hok. discriminate Hok.
Defined.

(** ** The precedence chain *)

Lemma chain_of_first_present C F D r k :
  own_props r !! k = first_present C F D k → chain_at C F D r k.
Proof.
  unfold first_present, chain_at. intros Hr. repeat split.
  - intros HC%prop_defined. rewrite HC in Hr. by apply prop_lookup.
  - intros HC%not_has_key HF%prop_defined. rewrite HC, HF in Hr.
    by apply prop_lookup.
  - intros HC%not_has_key HF%not_has_key. rewrite HC, HF in Hr.
    unfold prop. by rewrite Hr.
Qed.

(** The two merges of [resolveConfig] on any three fragments: group by
    group, every key of the result comes from the first fragment that has
    it, except [browser.launchOptions.assistantMode]. *)
Lemma merge_chain D F C :
  nullish D = false → nullish F = false → nullish C = false →
  ∃ r, (merged ← mergeConfig F C; mergeConfig D merged) = Ok r ∧
    (∀ k, k ≠ "browser" → own_props r !! k = first_present C F D k) ∧
    (∀ k, k ≠ "launchOptions" → k ≠ "contextOptions" →
       own_props (r.@"browser") !! k
       = first_present (C.@"browser") (F.@"browser") (D.@"browser") k) ∧
    (∀ k, k ≠ "assistantMode" →
       own_props (r.@"browser".@"launchOptions") !! k
       = first_present (C.@"browser".@"launchOptions")
           (F.@"browser".@"launchOptions") (D.@"browser".@"launchOptions") k) ∧
    (∀ k, own_props (r.@"browser".@"contextOptions") !! k
       = first_present (C.@"browser".@"contextOptions")
           (F.@"browser".@"contextOptions") (D.@"browser".@"contextOptions") k).
Proof.
  intros HD HF HC.
  destruct (mergeConfig_spec F C HF HC) as (m & Hm & Hmn & Hm1 & Hm2 & Hm3 & Hm4).
  destruct (mergeConfig_spec D m HD Hmn) as (r & Hr & _ & Hr1 & Hr2 & Hr3 & Hr4).
  exists r. rewrite Hm. split; [done|]. unfold first_present.
  split; [|split; [|split]].
  - intros k Hk. rewrite Hr1, spread2_lookup, Hm1, spread2_lookup by done.
    by destruct (own_props C !! k).
  - intros k Hl Hc. rewrite Hr2, spread2_lookup, Hm2, spread2_lookup by done.
    by destruct (own_props (C.@"browser") !! k).
  - intros k Hk. rewrite Hr3, spread3_lookup, spread2_lookup, Hm3. simpl.
    rewrite !lookup_singleton_ne by done.
    rewrite spread3_lookup, spread2_lookup. simpl.
    rewrite lookup_singleton_ne by done.
    by destruct (own_props (C.@"browser".@"launchOptions") !! k).
  - intros k. rewrite Hr4, spread2_lookup, Hm4, spread2_lookup.
    by destruct (own_props (C.@"browser".@"contextOptions") !! k).
Qed.

(** ** The fragment built from the CLI options *)

(** [configFromCLIOptions] step by step: the port for chromium, then the
    user data directory, then the literal. *)
Lemma configFromCLIOptions_eq h cliOptions st :
  configFromCLIOptions h cliOptions st =
  let browserName := (browser_switch (browser cliOptions)).1 in
  let channel := (browser_switch (browser cliOptions)).2 in
  let launchOptions := cli_launchOptions cliOptions channel in
  match (if bool_decide (browserName = chromium)
         then p ← listen h; mret (<["webSocketPort" := VNum p]> launchOptions)
         else Ok launchOptions) with
  | Throw e => (Throw e, st)
  | Ok launchOptions =>
      match userDataDir cliOptions with
      | Some d => (Ok (cli_fragment h cliOptions browserName launchOptions d), st)
      | None =>
          match createUserDataDir h browserName channel st with
          | (Ok d, st') => (Ok (cli_fragment h cliOptions browserName launchOptions d), st')
          | (Throw e, st') => (Throw e, st')
          end
      end
  end.
Proof.
  unfold configFromCLIOptions.
  destruct (browser_switch (browser cliOptions)) as [browserName channel]. simpl.
  unfold mbind at 1, M_bind, findFreePort, lift.
  destruct (bool_decide (browserName = chromium)).
  - unfold mbind at 1, M_bind. destruct (listen h) as [p|e]; simpl; [|done].
    unfold mbind, M_bind. destruct (userDataDir cliOptions) as [d|]; [done|].
    by destruct (createUserDataDir h browserName channel st) as [[d|e] st'].
  - simpl. unfold mbind, M_bind. destruct (userDataDir cliOptions) as [d|]; [done|].
    by destruct (createUserDataDir h browserName channel st) as [[d|e] st'].
Qed.

(** A fragment that [configFromCLIOptions] returns is the literal; its
    launch options have the reserved port exactly for chromium. *)
Lemma configFromCLIOptions_inv h cliOptions st C st' :
  configFromCLIOptions h cliOptions st = (Ok C, st') →
  let browserName := (browser_switch (browser cliOptions)).1 in
  let channel := (browser_switch (browser cliOptions)).2 in
  ∃ launchOptions d,
    C = cli_fragment h cliOptions browserName launchOptions d ∧
    ((browserName = chromium ∧ ∃ p, listen h = Ok p ∧
        launchOptions = <["webSocketPort" := VNum p]> (cli_launchOptions cliOptions channel)) ∨
     (browserName ≠ chromium ∧ launchOptions = cli_launchOptions cliOptions channel)) ∧
    ((userDataDir cliOptions = Some d ∧ st' = st) ∨
     (userDataDir cliOptions = None ∧
      createUserDataDir h browserName channel st = (Ok d, st'))).
Proof.
  rewrite configFromCLIOptions_eq. simpl.
  set (browserName := (browser_switch (browser cliOptions)).1).
  set (channel := (browser_switch (browser cliOptions)).2).
  intros H.
  assert (∃ launchOptions,
    (if bool_decide (browserName = chromium)
     then p ← listen h; mret (<["webSocketPort" := VNum p]> (cli_launchOptions cliOptions channel))
     else Ok (cli_launchOptions cliOptions channel)) = Ok launchOptions ∧
    ((browserName = chromium ∧ ∃ p, listen h = Ok p ∧
        launchOptions = <["webSocketPort" := VNum p]> (cli_launchOptions cliOptions channel)) ∨
     (browserName ≠ chromium ∧ launchOptions = cli_launchOptions cliOptions channel)))
    as (launchOptions & Hlo & Hshape).
  { case_bool_decide as Hb.
    - destruct (listen h) as [p|e]; [|done]. eexists; split; [done|]. left. eauto.
    - eexists; split; [done|]. by right. }
  rewrite Hlo in H.
  destruct (userDataDir cliOptions) as [d|].
  - injection H as <- <-. exists launchOptions, d. eauto.
  - destruct (createUserDataDir h browserName channel st) as [[d|e] st2] eqn:Hd; [|done].
    injection H as <- <-. exists launchOptions, d. eauto.
Qed.

(** C1, as amended. [resolveConfig] returns
    [mergeConfig(defaultConfig, mergeConfig(file, cli))], and on any three
    fragments [D], [F], [C] that chain gives, for every key of the four
    objects that [mergeConfig] merges key by key (the top level without
    [browser], [browser] without its two nested groups,
    [browser.launchOptions] without the forced [assistantMode], and
    [browser.contextOptions]): [C]'s value when [C] defines one; [F]'s
    value when [C] lacks the key and [F] defines one; [D]'s value when [C]
    and [F] both lack the key. A field inside any other value, such as
    [server.port], is not merged on its own: [server] is one key of the top
    level and its value is taken whole. (A key that [C] or [F] holds with
    the value [undefined] is not covered.) *)
Theorem precedence_chain :
  (∀ h cliOptions st F st1 C st2,
     loadConfig h (config cliOptions) st = (Ok F, st1) →
     configFromCLIOptions h cliOptions st1 = (Ok C, st2) →
     resolveConfig h cliOptions st
     = (merged ← mergeConfig F C; mergeConfig (defaultConfig h) merged, st2)) ∧
  (∀ D F C, nullish D = false → nullish F = false → nullish C = false →
     ∃ r, (merged ← mergeConfig F C; mergeConfig D merged) = Ok r ∧
       (∀ k, k ≠ "browser" → chain_at C F D r k) ∧
       (∀ k, k ≠ "launchOptions" → k ≠ "contextOptions" →
          chain_at (C.@"browser") (F.@"browser") (D.@"browser") (r.@"browser") k) ∧
       (∀ k, k ≠ "assistantMode" →
          chain_at (C.@"browser".@"launchOptions") (F.@"browser".@"launchOptions")
            (D.@"browser".@"launchOptions") (r.@"browser".@"launchOptions") k) ∧
       (∀ k, chain_at (C.@"browser".@"contextOptions") (F.@"browser".@"contextOptions")
            (D.@"browser".@"contextOptions") (r.@"browser".@"contextOptions") k)).
Proof.
  split; [apply resolveConfig_ok|].
  intros D F C HD HF HC.
  destruct (merge_chain D F C HD HF HC) as (r & Hr & H1 & H2 & H3 & H4).
  exists r. split; [done|].
  split; [|split; [|split]]; intros; apply chain_of_first_present; auto.
Qed.

(** The chain on the sample host, with the fragment of
    [--config config.json], and the three cases on a file that sets an
    output directory: [vision] and the reserved port come from the CLI
    fragment, which defines them; [outputDir] and [slowMo] from the file,
    since the CLI fragment lacks these keys; the viewport from the default
    config, since both lack it. *)
Lemma precedence_chain_witness :
  (∃ st2, resolveConfig linux_host config_only ∅
     = (merged ← mergeConfig sample_file (sample_cli_fragment linux_host);
        mergeConfig (defaultConfig linux_host) merged, st2)) ∧
  ∃ r, (merged ← mergeConfig layered_file (sample_cli_fragment linux_host);
        mergeConfig (defaultConfig linux_host) merged) = Ok r ∧
    r.@"vision" = VBool false ∧
    r.@"browser".@"browserName" = VStr "chromium" ∧
    r.@"browser".@"launchOptions".@"webSocketPort" = VNum 40000 ∧
    r.@"outputDir" = VStr "/srv/out" ∧
    r.@"browser".@"launchOptions".@"slowMo" = VNum 50 ∧
    r.@"browser".@"contextOptions".@"viewport" = VNull.
Proof.
  split.
  - assert (loadConfig linux_host (config config_only) ∅ = (Ok sample_file, ∅)) as Hfile
      by (vm_compute; reflexivity).
    assert ((configFromCLIOptions linux_host config_only ∅).1
            = Ok (sample_cli_fragment linux_host)) as Hfragment
      by (vm_compute; reflexivity).
    destruct (configFromCLIOptions linux_host config_only ∅) as [C st2] eqn:Hcli.
    simpl in Hfragment. subst C. exists st2.
    exact (proj1 precedence_chain _ _ _ _ _ _ _ Hfile Hcli).
  - destruct (proj2 precedence_chain (defaultConfig linux_host) layered_file
                (sample_cli_fragment linux_host)) as (r & Hr & Htop & Hb & Hlo & Hco);
      [reflexivity..|].
    exists r. split; [done|].
    split; [|split; [|split; [|split; [|split]]]].
    + destruct (Htop "vision") as (HC & _ & _); [discriminate|].
      rewrite HC; [reflexivity|]. intros H. vm_compute in H. discriminate H.
    + destruct (Hb "browserName") as (HC & _ & _); [discriminate..|].
      rewrite HC; [reflexivity|]. intros H. vm_compute in H. discriminate H.
    + destruct (Hlo "webSocketPort") as (HC & _ & _); [discriminate|].
      rewrite HC; [reflexivity|]. intros H. vm_compute in H. discriminate H.
    + destruct (Htop "outputDir") as (_ & HF & _); [discriminate|].
      rewrite HF; [reflexivity| |].
      * apply not_has_key. vm_compute. reflexivity.
      * intros H. vm_compute in H. discriminate H.
    + destruct (Hlo "slowMo") as (_ & HF & _); [discriminate|].
      rewrite HF; [reflexivity| |].
      * apply not_has_key. vm_compute. reflexivity.
      * intros H. vm_compute in H. discriminate H.
    + destruct (Hco "viewport") as (_ & _ & HD).
      rewrite HD; [reflexivity| |]; apply not_has_key; vm_compute; reflexivity.
Defined.

(** C1, as stated, fails. When the default, the file and the CLI fragment
    all set [browser.launchOptions.assistantMode] to [false], the chain
    yields [true], not the CLI fragment's value. On the sample host with
    [--config config.json], the file sets that field to [false] and the CLI
    fragment does not define it, yet the resolved value is [true]; and the
    file sets [browser.launchOptions.headless] to [false] while the CLI
    fragment holds the key with the value [undefined]: the resolved value
    is [undefined], not the file's. And a scalar below a group that is not
    merged key by key does not follow the chain: when the default holds
    [server.host] and [server.port], the file is empty and the CLI fragment
    holds a [server] with a port only, neither the CLI fragment nor the
    file defines [server.host], yet the result has no [server.host]
    instead of the default's. *)
Lemma precedence_chain_counterexample :
  (marker_off.@"browser".@"launchOptions".@"assistantMode" = VBool false ∧
   returns (merged ← mergeConfig marker_off marker_off;
            mergeConfig marker_off merged) = true ∧
   (returned (merged ← mergeConfig marker_off marker_off;
              mergeConfig marker_off merged))
     .@"browser".@"launchOptions".@"assistantMode" = VBool true) ∧
  returns (resolveConfig linux_host config_only ∅).1 = true ∧
  ((returned (configFromCLIOptions linux_host config_only ∅).1)
     .@"browser".@"launchOptions".@"assistantMode" = VUndef ∧
   (returned (loadConfig linux_host (config config_only) ∅).1)
     .@"browser".@"launchOptions".@"assistantMode" = VBool false ∧
   (returned (resolveConfig linux_host config_only ∅).1)
     .@"browser".@"launchOptions".@"assistantMode" = VBool true) ∧
  ((returned (configFromCLIOptions linux_host config_only ∅).1)
     .@"browser".@"launchOptions".@"headless" = VUndef ∧
   (returned (loadConfig linux_host (config config_only) ∅).1)
     .@"browser".@"launchOptions".@"headless" = VBool false ∧
   (returned (resolveConfig linux_host config_only ∅).1)
     .@"browser".@"launchOptions".@"headless" = VUndef) ∧
  (own_props (server_overrides.@"server") !! "host" = None ∧
   own_props ((VObj ∅).@"server") !! "host" = None ∧
   server_base.@"server".@"host" = VStr "localhost" ∧
   returns (merged ← mergeConfig (VObj ∅) server_overrides;
            mergeConfig server_base merged) = true ∧
   (returned (merged ← mergeConfig (VObj ∅) server_overrides;
              mergeConfig server_base merged))
     .@"server".@"host" = VUndef).
Proof. vm_compute. repeat split; reflexivity. Qed.

(** ** Nested groups and the server group *)

(** C5, as amended. When [overrides.browser.launchOptions] has only the
    key [headless], [mergeConfig] keeps every key of
    [base.browser.launchOptions] other than [headless] and the forced
    [assistantMode] as it is, and sets [headless] to the overriding value;
    [contextOptions] is merged key by key: the overriding value where
    [overrides] has the key, [base]'s otherwise. *)
Theorem nested_merge_isolation base overrides headless_value :
  nullish base = false → nullish overrides = false →
  own_props (overrides.@"browser".@"launchOptions") = {[ "headless" := headless_value ]} →
  ∃ r, mergeConfig base overrides = Ok r ∧
    (∀ k, k ≠ "headless" → k ≠ "assistantMode" →
       own_props (r.@"browser".@"launchOptions") !! k
       = own_props (base.@"browser".@"launchOptions") !! k) ∧
    r.@"browser".@"launchOptions".@"headless" = headless_value ∧
    (∀ k, own_props (r.@"browser".@"contextOptions") !! k
       = match own_props (overrides.@"browser".@"contextOptions") !! k with
         | Some x => Some x
         | None => own_props (base.@"browser".@"contextOptions") !! k
         end).
Proof.
  intros Hb Ho Hlo.
  destruct (mergeConfig_spec base overrides Hb Ho) as (r & Hr & _ & _ & _ & Hl & Hc).
  exists r. split; [done|]. split; [|split].
  - intros k Hh Ha. rewrite Hl, spread3_lookup, spread2_lookup, Hlo. simpl.
    by rewrite !lookup_singleton_ne.
  - apply prop_lookup. rewrite Hl, spread3_lookup, spread2_lookup, Hlo. simpl.
    rewrite lookup_singleton_ne by done. by rewrite lookup_singleton_eq.
  - intros k. by rewrite Hc, spread2_lookup.
Qed.

Lemma nested_merge_isolation_witness :
  ∃ r, mergeConfig marker_off_base headless_only = Ok r ∧
    r.@"browser".@"launchOptions".@"executablePath" = VStr "/opt/chrome" ∧
    r.@"browser".@"launchOptions".@"headless" = VBool true.
Proof.
  destruct (nested_merge_isolation marker_off_base headless_only (VBool true))
    as (r & Hr & Hkeep & Hh & _); [reflexivity..|].
  exists r. split; [done|]. split; [|done].
  apply prop_lookup. by rewrite Hkeep.
Defined.

(** C5, as stated, fails: the overrides set only [headless], and the key
    [assistantMode] of the base's launch options changes from [false] to
    [true]. *)
Lemma nested_merge_isolation_counterexample :
  own_props (headless_only.@"browser".@"launchOptions") = {[ "headless" := VBool true ]} ∧
  marker_off_base.@"browser".@"launchOptions".@"assistantMode" = VBool false ∧
  returns (mergeConfig marker_off_base headless_only) = true ∧
  (returned (mergeConfig marker_off_base headless_only))
    .@"browser".@"launchOptions".@"assistantMode" = VBool true.
Proof. vm_compute. repeat split; reflexivity. Qed.

(** C6. When [overrides.server] is defined, the result's [server] is
    [overrides.server] itself: nothing of [base.server] is merged into it. *)
Theorem server_replaced_wholesale base overrides server :
  nullish base = false →
  get overrides "server" = Ok server → server ≠ VUndef →
  ∃ r, mergeConfig base overrides = Ok r ∧ r.@"server" = server.
Proof.
  intros Hb [Ho ->]%get_inv Hdef.
  destruct (mergeConfig_spec base overrides Hb Ho) as (r & Hr & _ & Htop & _).
  exists r. split; [done|]. apply prop_lookup.
  rewrite Htop, spread2_lookup by done. by rewrite (prop_defined _ _ Hdef).
Qed.

(** The base's [host] does not survive an override that sets only [port]. *)
Lemma server_replaced_wholesale_witness :
  ∃ r, mergeConfig server_base server_overrides = Ok r ∧
    r.@"server" = VObj {[ "port" := VNum 9000 ]} ∧
    r.@"server".@"host" = VUndef.
Proof.
  destruct (server_replaced_wholesale server_base server_overrides
              (VObj {[ "port" := VNum 9000 ]})) as (r & Hr & Hs);
    [reflexivity | reflexivity | discriminate |].
  exists r. split; [done|]. split; [done|]. by rewrite Hs.
Defined.

(** ** Loading the config file *)

Lemma loadConfig_failure h path error st :
  path ≠ "" →
  (readFile h path = Throw error ∨
   ∃ text, readFile h path = Ok text ∧ JSON_parse h text = Throw error) →
  loadConfig h (Some path) st
  = (Throw (Error ("Failed to load config file: " +:+ path +:+ ", "
                   +:+ exn_to_string error)), st).
Proof.
  intros Hpath Hfail. unfold loadConfig.
  destruct (String.eqb_spec path "") as [->|_]; [done|].
  destruct Hfail as [-> | (text & -> & ->)]; done.
Qed.

(** C10. Without a path (and with the empty string, which the test
    [!configFile] treats alike) [loadConfig] returns the empty fragment and
    changes nothing. With a path, a failure of the read or of the parse
    makes [loadConfig] throw an [Error] whose message holds the path and
    the string form of the cause, and [resolveConfig] throws that same
    error: it returns no config. *)
Theorem loadConfig_errors h st :
  loadConfig h None st = (Ok (VObj ∅), st) ∧
  loadConfig h (Some "") st = (Ok (VObj ∅), st) ∧
  (∀ path error, path ≠ "" →
     (readFile h path = Throw error ∨
      ∃ text, readFile h path = Ok text ∧ JSON_parse h text = Throw error) →
     ∃ e, exn_message e = "Failed to load config file: " +:+ path +:+ ", "
                          +:+ exn_to_string error ∧
       loadConfig h (Some path) st = (Throw e, st) ∧
       ∀ cliOptions, config cliOptions = Some path →
         resolveConfig h cliOptions st = (Throw e, st)).
Proof.
  split; [done|]. split; [done|].
  intros path error Hpath Hfail.
  exists (Error ("Failed to load config file: " +:+ path +:+ ", "
                 +:+ exn_to_string error)).
  split; [|split].
  - reflexivity.
  - by apply loadConfig_failure.
  - intros cliOptions Hc. apply resolveConfig_load_throws. rewrite Hc.
    by apply loadConfig_failure.
Qed.

(** A file that does not parse and a file that is not there. *)
Lemma loadConfig_errors_witness :
  (∃ e, exn_message e
        = "Failed to load config file: broken.json, SyntaxError: Unexpected end of JSON input" ∧
     loadConfig linux_host (Some "broken.json") ∅ = (Throw e, ∅)) ∧
  (∃ e, exn_message e
        = "Failed to load config file: missing.json, Error: ENOENT: no such file or directory, open 'missing.json'" ∧
     loadConfig linux_host (Some "missing.json") ∅ = (Throw e, ∅)).
Proof.
  split.
  - destruct (proj2 (proj2 (loadConfig_errors linux_host ∅)) "broken.json"
                (Exn "SyntaxError" "Unexpected end of JSON input"))
      as (e & Hmsg & Hload & _); [discriminate | right; by exists "{" |].
    by exists e.
  - destruct (proj2 (proj2 (loadConfig_errors linux_host ∅)) "missing.json"
                (Error "ENOENT: no such file or directory, open 'missing.json'"))
      as (e & Hmsg & Hload & _); [discriminate | by left |].
    by exists e.
Defined.

(** ** The browser token *)

Lemma browser_switch_cases token :
  (∃ b, token = Some b ∧ b ∈ chromium_tokens ∧ browser_switch token = (chromium, Some b)) ∨
  browser_switch token = (firefox, None) ∨
  browser_switch token = (webkit, None) ∨
  browser_switch token = (chromium, Some "chrome").
Proof.
  unfold browser_switch. destruct token as [b|]; [|auto].
  case_bool_decide; [left; eauto|].
  destruct (String.eqb b "firefox"); [auto|].
  destruct (String.eqb b "webkit"); auto.
Qed.

Lemma cli_fragment_browserName h cliOptions b lo d :
  (cli_fragment h cliOptions b lo d).@"browser".@"browserName" = VStr (browserName_str b).
Proof. reflexivity. Qed.

Lemma cli_fragment_launchOptions h cliOptions b lo d :
  (cli_fragment h cliOptions b lo d).@"browser".@"launchOptions" = VObj lo.
Proof. reflexivity. Qed.

(** C9. The switch sends the chrome and msedge channel tokens (and
    [chromium]) to chromium with the token as channel, [firefox] and
    [webkit] to themselves without a channel, and every other token, or
    none, to chromium with the channel [chrome]. The fragment that
    [configFromCLIOptions] returns carries that browser name, one of the
    three, and that channel; and [configFromCLIOptions] throws only what
    the port allocation or the creation of the profile directory throws,
    so it returns once these succeed. *)
Theorem browser_token_mapping h cliOptions st :
  (∀ b, b ∈ ["chrome"; "chrome-beta"; "chrome-canary"; "chrome-dev"; "chromium";
             "msedge"; "msedge-beta"; "msedge-canary"; "msedge-dev"] →
     browser_switch (Some b) = (chromium, Some b)) ∧
  browser_switch (Some "firefox") = (firefox, None) ∧
  browser_switch (Some "webkit") = (webkit, None) ∧
  (∀ b, b ∉ chromium_tokens → b ≠ "firefox" → b ≠ "webkit" →
     browser_switch (Some b) = (chromium, Some "chrome")) ∧
  browser_switch None = (chromium, Some "chrome") ∧
  (∀ C st', configFromCLIOptions h cliOptions st = (Ok C, st') →
     C.@"browser".@"browserName"
     = VStr (browserName_str (browser_switch (browser cliOptions)).1) ∧
     C.@"browser".@"browserName" ∈ [VStr "chromium"; VStr "firefox"; VStr "webkit"] ∧
     C.@"browser".@"launchOptions".@"channel"
     = of_opt VStr (browser_switch (browser cliOptions)).2) ∧
  (∀ e st', configFromCLIOptions h cliOptions st = (Throw e, st') →
     listen h = Throw e ∨
     createUserDataDir h (browser_switch (browser cliOptions)).1
       (browser_switch (browser cliOptions)).2 st = (Throw e, st')) ∧
  (∀ p d, listen h = Ok p → userDataDir cliOptions = Some d →
     ∃ C, configFromCLIOptions h cliOptions st = (Ok C, st)).
Proof.
  split; [|split; [|split; [|split; [|split; [|split; [|split]]]]]].
  - intros b Hb. unfold browser_switch. by rewrite bool_decide_eq_true_2.
  - reflexivity.
  - reflexivity.
  - intros b Hb Hf Hw. unfold browser_switch. rewrite bool_decide_eq_false_2 by done.
    destruct (String.eqb_spec b "firefox"); [done|].
    by destruct (String.eqb_spec b "webkit").
  - reflexivity.
  - intros C st' HC.
    apply configFromCLIOptions_inv in HC as (lo & d & -> & Hlo & _).
    rewrite cli_fragment_browserName, cli_fragment_launchOptions.
    split; [done|]. split.
    + destruct (browser_switch (browser cliOptions)).1; simpl;
        rewrite !elem_of_cons; auto.
    + destruct Hlo as [(_ & p & _ & ->) | (_ & ->)]; apply prop_lookup; simpl;
        unfold cli_launchOptions; simplify_map_eq; done.
  - intros e st'. rewrite configFromCLIOptions_eq. simpl.
    destruct (bool_decide _).
    + destruct (listen h) as [p|e']; simpl; [|intros [= -> _]; by left].
      destruct (userDataDir cliOptions); [done|].
      destruct (createUserDataDir _ _ _ _) as [[d|e'] st2]; [done|].
      intros [= -> ->]. by right.
    + destruct (userDataDir cliOptions); [done|].
      destruct (createUserDataDir _ _ _ _) as [[d|e'] st2]; [done|].
      intros [= -> ->]. by right.
  - intros p d Hp Hd. rewrite configFromCLIOptions_eq. simpl. rewrite Hp, Hd.
    destruct (bool_decide _); simpl; eauto.
Qed.

(** [--browser not-a-browser] is not an error: chromium with the channel
    [chrome]. *)
Lemma browser_token_mapping_witness :
  browser_switch (Some "not-a-browser") = (chromium, Some "chrome") ∧
  browser_switch (Some "msedge-beta") = (chromium, Some "msedge-beta") ∧
  ∃ C, configFromCLIOptions linux_host unknown_browser_options ∅ = (Ok C, ∅) ∧
    C.@"browser".@"browserName" = VStr "chromium" ∧
    C.@"browser".@"launchOptions".@"channel" = VStr "chrome".
Proof.
  pose proof (browser_token_mapping linux_host unknown_browser_options ∅)
    as (Hchannel & _ & _ & Hother & _ & Hfragment & _ & Hreturns).
  split; [|split].
  - apply Hother; [compute_done | discriminate | discriminate].
  - apply Hchannel. compute_done.
  - destruct (Hreturns 40000%Z "/tmp/profile") as [C HC]; [reflexivity..|].
    exists C. split; [done|].
    destruct (Hfragment C ∅ HC) as (Hname & _ & Hch). by split.
Defined.

(** ** What the CLI fragment does to the file *)

Lemma first_present_C C F D k x :
  own_props C !! k = Some x → first_present C F D k = Some x.
Proof. unfold first_present. by intros ->. Qed.

(** A config that [resolveConfig] returns is the chain of the default
    config, the loaded file and the CLI fragment. *)
Lemma resolveConfig_chain h cliOptions st cfg st' :
  resolveConfig h cliOptions st = (Ok cfg, st') →
  ∃ F st1 C,
    loadConfig h (config cliOptions) st = (Ok F, st1) ∧
    configFromCLIOptions h cliOptions st1 = (Ok C, st') ∧
    (∀ k, k ≠ "browser" → own_props cfg !! k = first_present C F (defaultConfig h) k) ∧
    (∀ k, k ≠ "launchOptions" → k ≠ "contextOptions" →
       own_props (cfg.@"browser") !! k
       = first_present (C.@"browser") (F.@"browser") ((defaultConfig h).@"browser") k) ∧
    (∀ k, k ≠ "assistantMode" →
       own_props (cfg.@"browser".@"launchOptions") !! k
       = first_present (C.@"browser".@"launchOptions") (F.@"browser".@"launchOptions")
           ((defaultConfig h).@"browser".@"launchOptions") k).
Proof.
  intros (F & st1 & C & merged & HF & HC & Hm & Hd)%resolveConfig_inv.
  destruct (mergeConfig_inv _ _ _ Hm) as [HFn HCn].
  destruct (merge_chain (defaultConfig h) F C) as (r & Hr & H1 & H2 & H3 & _);
    [done..|].
  rewrite Hm in Hr. simpl in Hr. assert (r = cfg) as -> by congruence.
  by exists F, st1, C.
Qed.

Lemma cli_launchOptions_keys h cliOptions st C st' :
  configFromCLIOptions h cliOptions st = (Ok C, st') →
  own_props (C.@"browser".@"launchOptions") !! "executablePath"
  = Some (of_opt VStr (executablePath cliOptions)) ∧
  own_props (C.@"browser".@"launchOptions") !! "headless"
  = Some (of_opt VBool (headless cliOptions)) ∧
  own_props (C.@"browser".@"launchOptions") !! "channel"
  = Some (of_opt VStr (browser_switch (browser cliOptions)).2) ∧
  (is_Some (own_props (C.@"browser".@"launchOptions") !! "webSocketPort")
   ↔ (browser_switch (browser cliOptions)).1 = chromium).
Proof.
  intros (lo & d & -> & Hlo & _)%configFromCLIOptions_inv.
  rewrite cli_fragment_launchOptions. simpl.
  destruct Hlo as [(Hb & p & _ & ->) | (Hb & ->)]; unfold cli_launchOptions;
    simplify_map_eq; repeat split; try done;
    try (intros _; by eexists); try (by intros [? ?]).
Qed.

(** C3. The fragment that [configFromCLIOptions] returns always has the
    keys [vision], [server], [capabilities] and, in its launch options,
    [executablePath], [headless] and [channel]: [capabilities],
    [executablePath], [headless] and the [port] and [host] of [server] hold
    [undefined] when their CLI option is absent ([vision] is then [false],
    and [channel] is what the switch on the browser token assigns,
    [undefined] for firefox and webkit). Spread copies a key whose value is
    [undefined]. So in every config that [resolveConfig] returns, whatever
    the file holds, [vision] is [!!cliOptions.vision], [server] is
    [{port: cliOptions.port, host: cliOptions.host}], and without the CLI
    option [executablePath] the launch options hold [executablePath] with
    the value [undefined]. *)
Theorem cli_fragment_shadows_file h cliOptions st :
  (∀ C st', configFromCLIOptions h cliOptions st = (Ok C, st') →
     (has_key C "vision" ∧ has_key C "server" ∧ has_key C "capabilities" ∧
      has_key (C.@"browser".@"launchOptions") "executablePath" ∧
      has_key (C.@"browser".@"launchOptions") "headless" ∧
      has_key (C.@"browser".@"launchOptions") "channel") ∧
     C.@"capabilities"
     = of_opt (λ c, VArr ((λ c, VStr (trim c)) <$> split ","%char c)) (caps cliOptions) ∧
     C.@"browser".@"launchOptions".@"executablePath"
     = of_opt VStr (executablePath cliOptions) ∧
     C.@"browser".@"launchOptions".@"headless" = of_opt VBool (headless cliOptions) ∧
     C.@"server".@"port" = of_opt VNum (port cliOptions) ∧
     C.@"server".@"host" = of_opt VStr (host cliOptions) ∧
     C.@"vision" = VBool (default false (vision cliOptions)) ∧
     C.@"browser".@"launchOptions".@"channel"
     = of_opt VStr (browser_switch (browser cliOptions)).2) ∧
  (∀ a b k, own_props b !! k = Some VUndef → spread [a; b] !! k = Some VUndef) ∧
  (∀ cfg st', resolveConfig h cliOptions st = (Ok cfg, st') →
     cfg.@"vision" = VBool (default false (vision cliOptions)) ∧
     cfg.@"server" = VObj (<["host" := of_opt VStr (host cliOptions)]>
                           {[ "port" := of_opt VNum (port cliOptions) ]}) ∧
     (executablePath cliOptions = None →
        has_key (cfg.@"browser".@"launchOptions") "executablePath" ∧
        cfg.@"browser".@"launchOptions".@"executablePath" = VUndef)).
Proof.
  split; [|split].
  - intros C st' HC.
    destruct (cli_launchOptions_keys _ _ _ _ _ HC) as (He & Hh & Hc & _).
    unfold has_key. rewrite He, Hh, Hc.
    rewrite (prop_lookup _ _ _ He), (prop_lookup _ _ _ Hh), (prop_lookup _ _ _ Hc).
    apply configFromCLIOptions_inv in HC as (lo & d & -> & _).
    repeat split; try done; by eexists.
  - intros a b k Hb. by rewrite spread2_lookup, Hb.
  - intros cfg st' (F & st1 & C & _ & HC & Htop & _ & Hlo)%resolveConfig_chain.
    destruct (cli_launchOptions_keys _ _ _ _ _ HC) as (He & _).
    apply configFromCLIOptions_inv in HC as (lo & d & -> & _).
    split; [|split].
    + apply prop_lookup. rewrite Htop by done. by apply first_present_C.
    + apply prop_lookup. rewrite Htop by done. by apply first_present_C.
    + intros Hnone. rewrite Hnone in He.
      assert (own_props (cfg.@"browser".@"launchOptions") !! "executablePath"
              = Some VUndef) as Hcfg.
      { rewrite Hlo by done. by apply first_present_C. }
      split; [by eexists | by apply prop_lookup].
Qed.

(** On the sample host the file sets [vision], a [server] port and an
    executable path; none of them reaches the resolved config. *)
Lemma cli_fragment_shadows_file_witness :
  sample_file.@"vision" = VBool true ∧
  sample_file.@"server".@"port" = VNum 8080 ∧
  sample_file.@"browser".@"launchOptions".@"executablePath" = VStr "/opt/chrome" ∧
  ∃ cfg st', resolveConfig linux_host config_only ∅ = (Ok cfg, st') ∧
    cfg.@"vision" = VBool false ∧
    cfg.@"server".@"port" = VUndef ∧
    cfg.@"browser".@"launchOptions".@"executablePath" = VUndef.
Proof.
  split; [reflexivity|]. split; [reflexivity|]. split; [reflexivity|].
  destruct (resolveConfig linux_host config_only ∅) as [[cfg|e] st'] eqn:Hres.
  - exists cfg, st'. split; [reflexivity|].
    destruct (proj2 (proj2 (cli_fragment_shadows_file linux_host config_only ∅))
                cfg st' Hres) as (Hv & Hs & He).
    split; [done|]. split; [by rewrite Hs|]. by apply He.
  - exfalso. assert (returns (resolveConfig linux_host config_only ∅).1 = true) as Hok
      by (vm_compute; reflexivity).
    rewrite Hres in Hok. discriminate Hok.
Defined.

(** ** The firefox scenario *)

Lemma firefox_fragment h st d st' :
  createUserDataDir h firefox None st = (Ok d, st') →
  configFromCLIOptions h firefox_options st
  = (Ok (cli_fragment h firefox_options firefox
           (cli_launchOptions firefox_options None) d), st').
Proof.
  intros Hd. rewrite configFromCLIOptions_eq.
  change (browser_switch (browser firefox_options)) with (firefox, @None string).
  simpl. by rewrite Hd.
Qed.

(** C8. With no config file and the CLI options
    [{browser: 'firefox', headless: true, caps: 'core,tabs'}],
    [resolveConfig] returns, once the profile directory of firefox is
    created, a config whose browser name is [firefox], without a channel
    (no [channel] key in [browser]; [launchOptions.channel] is
    [undefined]), without [webSocketPort] in its launch options, with
    [headless] and [assistantMode] both [true] and with the capabilities
    [['core', 'tabs']]. In general the fragment of the CLI options has
    [webSocketPort] exactly when the browser name is chromium. *)
Theorem firefox_scenario h :
  (∀ st d st', createUserDataDir h firefox None st = (Ok d, st') →
     ∃ cfg, resolveConfig h firefox_options st = (Ok cfg, st') ∧
       cfg.@"browser".@"browserName" = VStr "firefox" ∧
       ¬ has_key (cfg.@"browser") "channel" ∧
       cfg.@"browser".@"launchOptions".@"channel" = VUndef ∧
       ¬ has_key (cfg.@"browser".@"launchOptions") "webSocketPort" ∧
       cfg.@"browser".@"launchOptions".@"headless" = VBool true ∧
       cfg.@"browser".@"launchOptions".@"assistantMode" = VBool true ∧
       cfg.@"capabilities" = VArr [VStr "core"; VStr "tabs"]) ∧
  (∀ cliOptions st C st', configFromCLIOptions h cliOptions st = (Ok C, st') →
     has_key (C.@"browser".@"launchOptions") "webSocketPort"
     ↔ (browser_switch (browser cliOptions)).1 = chromium).
Proof.
  split.
  - intros st d st' Hd.
    pose proof (firefox_fragment h st d st' Hd) as Hcli.
    set (C := cli_fragment h firefox_options firefox
                (cli_launchOptions firefox_options None) d) in *.
    assert (loadConfig h (config firefox_options) st = (Ok (VObj ∅), st)) as Hfile
      by reflexivity.
    rewrite (resolveConfig_ok _ _ _ _ _ _ _ Hfile Hcli).
    destruct (merge_chain (defaultConfig h) (VObj ∅) C) as (r & Hr & H1 & H2 & H3 & _);
      [reflexivity..|].
    exists r. split; [by rewrite Hr|].
    destruct (mergeConfig (VObj ∅) C) as [merged|e] eqn:Hmerged; [|done].
    repeat split.
    + apply prop_lookup. by rewrite H2.
    + apply not_has_key. by rewrite H2.
    + apply prop_lookup. by rewrite H3.
    + apply not_has_key. by rewrite H3.
    + apply prop_lookup. by rewrite H3.
    + by eapply mergeConfig_marker.
    + apply prop_lookup. by rewrite H1.
  - intros cliOptions st C st' HC. by apply (cli_launchOptions_keys _ _ _ _ _ HC).
Qed.

Lemma firefox_scenario_witness :
  ∃ cfg st', resolveConfig linux_host firefox_options ∅ = (Ok cfg, st') ∧
    cfg.@"browser".@"browserName" = VStr "firefox" ∧
    cfg.@"browser".@"launchOptions".@"headless" = VBool true ∧
    cfg.@"capabilities" = VArr [VStr "core"; VStr "tabs"].
Proof.
  destruct (createUserDataDir linux_host firefox None ∅) as [[d|e] st'] eqn:Hd.
  - destruct (proj1 (firefox_scenario linux_host) ∅ d st' Hd)
      as (cfg & Hres & Hname & _ & _ & _ & Hheadless & _ & Hcaps).
    by exists cfg, st'.
  - exfalso.
    assert (returns (createUserDataDir linux_host firefox None ∅).1 = true) as Hok
      by (vm_compute; reflexivity).
    rewrite Hd in Hok. discriminate Hok.
Defined.

(** ** The profile directory *)

Lemma createUserDataDir_eq h browserName channel st :
  createUserDataDir h browserName channel st =
  match cache_directory h with
  | Throw e => (Throw e, st)
  | Ok dir =>
      let result := path_join h [dir; "ms-playwright";
        "mcp-" +:+ default (browserName_str browserName) channel +:+ "-profile"] in
      match mkdir h result st with
      | (Ok _, st') => (Ok result, st')
      | (Throw e, st') => (Throw e, st')
      end
  end.
Proof.
  unfold createUserDataDir, cache_directory, mbind, M_bind, result_bind, lift.
  destruct (String.eqb (platform h) "linux"); simpl.
  { destruct (env_set h _); simpl; [|destruct (homedir h); simpl; [|done]];
      by destruct (mkdir h _ st) as [[[]|e] st']. }
  destruct (String.eqb (platform h) "darwin"); simpl.
  { destruct (homedir h); simpl; [|done].
    by destruct (mkdir h _ st) as [[[]|e] st']. }
  destruct (String.eqb (platform h) "win32"); simpl; [|done].
  destruct (env_set h _); simpl; [|destruct (homedir h); simpl; [|done]];
    by destruct (mkdir h _ st) as [[[]|e] st'].
Qed.

Lemma createUserDataDir_inv h browserName channel st d st' :
  createUserDataDir h browserName channel st = (Ok d, st') →
  ∃ dir, cache_directory h = Ok dir ∧
    d = path_join h [dir; "ms-playwright";
          "mcp-" +:+ default (browserName_str browserName) channel +:+ "-profile"] ∧
    mkdir h d st = (Ok (), st').
Proof.
  rewrite createUserDataDir_eq. destruct (cache_directory h) as [dir|]; [|done].
  simpl. destruct (mkdir h _ st) as [[[]|e] st2] eqn:Hm; [|done].
  intros [= <- <-]. by exists dir.
Qed.

(** [create_all] removes nothing and adds only directories of its list;
    when it returns, all of them exist. *)
Lemma create_all_state h ds st r st' :
  create_all h ds st = (r, st') →
  st ⊆ st' ∧ ∀ x, x ∈ st' → x ∈ st ∨ x ∈ ds.
Proof.
  revert st. induction ds as [|d ds IH]; intros st; simpl.
  { intros [= <- <-]. split; [done|]. intros x Hx. by left. }
  case_bool_decide as Hin.
  - intros [Hsub Hadd]%IH. split; [done|].
    intros x [Hx|Hx]%Hadd; [by left|]. right. by apply list_elem_of_further.
  - destruct (mkdir_error h d) as [e|].
    + intros [= <- <-]. split; [done|]. intros x Hx. by left.
    + intros [Hsub Hadd]%IH. split.
      * intros x Hx. apply Hsub, elem_of_union. by right.
      * intros x [[->%elem_of_singleton|Hx]%elem_of_union|Hx]%Hadd.
        -- right. apply list_elem_of_here.
        -- by left.
        -- right. by apply list_elem_of_further.
Qed.

Lemma create_all_creates h ds st st' :
  create_all h ds st = (Ok (), st') → ∀ x, x ∈ ds → x ∈ st'.
Proof.
  revert st. induction ds as [|d ds IH]; intros st; simpl.
  { intros _ x Hx. by apply elem_of_nil in Hx. }
  case_bool_decide as Hin.
  - intros Hc x [->|Hx]%elem_of_cons; [|by eapply IH].
    by apply (create_all_state _ _ _ _ _ Hc).
  - destruct (mkdir_error h d) as [e|]; [done|].
    intros Hc x [->|Hx]%elem_of_cons; [|by eapply IH].
    apply (create_all_state _ _ _ _ _ Hc), elem_of_union. left.
    by apply elem_of_singleton.
Qed.

(** It returns when every directory of the list exists or can be created. *)
Lemma create_all_returns h ds st :
  (∀ x, x ∈ ds → mkdir_error h x = None) →
  ∃ st', create_all h ds st = (Ok (), st').
Proof.
  revert st. induction ds as [|d ds IH]; intros st Hds; simpl; [by eexists|].
  assert (∀ x, x ∈ ds → mkdir_error h x = None) as Hds'.
  { intros x Hx. by apply Hds, list_elem_of_further. }
  case_bool_decide as Hin; [by apply IH|].
  rewrite (Hds d) by apply list_elem_of_here. by apply IH.
Qed.

(** What it throws is the error of a missing directory of the list. *)
Lemma create_all_throws h ds st e st' :
  create_all h ds st = (Throw e, st') →
  ∃ d, d ∈ ds ∧ (d ∉ st') ∧ mkdir_error h d = Some e.
Proof.
  revert st. induction ds as [|d ds IH]; intros st; simpl; [done|].
  case_bool_decide as Hin.
  - intros (x & Hx & Hm)%IH. exists x. split; [by apply list_elem_of_further|done].
  - destruct (mkdir_error h d) as [e'|] eqn:He.
    + intros [= <- <-]. exists d. split; [apply list_elem_of_here|done].
    + intros (x & Hx & Hm)%IH. exists x. split; [by apply list_elem_of_further|done].
Qed.

Lemma mkdir_creates h p st st' : mkdir h p st = (Ok (), st') → p ∈ st'.
Proof.
  unfold mkdir. case_bool_decide as Hin; [by intros [= <-]|].
  intros Hc. apply (create_all_creates _ _ _ _ Hc), elem_of_app. right.
  apply list_elem_of_here.
Qed.

(** [mkdir] removes nothing; what it adds is the directory or one above
    it. *)
Lemma mkdir_state h p st r st' :
  mkdir h p st = (r, st') →
  st ⊆ st' ∧ ∀ x, x ∈ st' → x ∈ st ∨ x = p ∨ x ∈ parents h p.
Proof.
  unfold mkdir. case_bool_decide as Hin.
  { intros [= <- <-]. split; [done|]. intros x Hx. by left. }
  intros [Hsub Hadd]%create_all_state. split; [done|].
  intros x [Hx|[Hx|Hx%list_elem_of_singleton]%elem_of_app]%Hadd; auto.
Qed.

(** It returns when the directory exists, or when it and the directories
    above it can be created. *)
Lemma mkdir_returns h p st :
  p ∈ st ∨ (∀ x, x ∈ parents h p ∨ x = p → mkdir_error h x = None) →
  ∃ st', mkdir h p st = (Ok (), st').
Proof.
  unfold mkdir. intros [Hin|Hall].
  { rewrite bool_decide_eq_true_2 by done. by eexists. }
  case_bool_decide as Hin; [by eexists|].
  apply create_all_returns. intros x [Hx|Hx%list_elem_of_singleton]%elem_of_app;
    apply Hall; auto.
Qed.

(** What it throws is the error of creating the directory or one above
    it, which is still missing afterwards. *)
Lemma mkdir_throws h p st e st' :
  mkdir h p st = (Throw e, st') →
  (p ∉ st) ∧ ∃ d, (d = p ∨ d ∈ parents h p) ∧ (d ∉ st') ∧ mkdir_error h d = Some e.
Proof.
  unfold mkdir. case_bool_decide as Hin; [done|].
  intros (d & [Hd|Hd%list_elem_of_singleton]%elem_of_app & Hm)%create_all_throws;
    (split; [done|]); exists d; auto.
Qed.

Lemma mkdir_existing h p st : p ∈ st → mkdir h p st = (Ok (), st).
Proof. intros Hin. unfold mkdir. by rewrite bool_decide_eq_true_2. Qed.

(** Under directories that exist, a missing directory that cannot be
    created makes it throw and change nothing. *)
Lemma create_all_existing h ds st :
  (∀ x, x ∈ ds → x ∈ st) → create_all h ds st = (Ok (), st).
Proof.
  induction ds as [|d ds IH]; intros Hds; simpl; [done|].
  rewrite bool_decide_eq_true_2 by apply Hds, list_elem_of_here.
  apply IH. intros x Hx. by apply Hds, list_elem_of_further.
Qed.

Lemma create_all_app h ds1 ds2 st :
  create_all h (ds1 ++ ds2) st
  = match create_all h ds1 st with
    | (Ok _, st1) => create_all h ds2 st1
    | (Throw e, st1) => (Throw e, st1)
    end.
Proof.
  revert st. induction ds1 as [|d ds1 IH]; intros st; simpl; [done|].
  case_bool_decide; [apply IH|]. destruct (mkdir_error h d); [done|apply IH].
Qed.

Lemma mkdir_denied h p st e :
  (p ∉ st) → (∀ x, x ∈ parents h p → x ∈ st) → mkdir_error h p = Some e →
  mkdir h p st = (Throw e, st).
Proof.
  intros Hin Hparents He. unfold mkdir. rewrite bool_decide_eq_false_2 by done.
  rewrite create_all_app, create_all_existing by done. simpl.
  rewrite bool_decide_eq_false_2 by done. by rewrite He.
Qed.

(** Distinct outcomes of the switch have distinct keys, all of them known. *)
Lemma browser_switch_key t :
  default (browserName_str (browser_switch t).1) (browser_switch t).2 ∈ profile_keys.
Proof.
  destruct (browser_switch_cases t) as [(b & _ & Hb & ->) | [-> | [-> | ->]]]; simpl;
    [|compute_done..].
  change profile_keys with (chromium_tokens ++ ["firefox"; "webkit"])%list.
  apply elem_of_app. by left.
Qed.

Lemma browser_switch_key_inj t1 t2 :
  default (browserName_str (browser_switch t1).1) (browser_switch t1).2
  = default (browserName_str (browser_switch t2).1) (browser_switch t2).2 →
  browser_switch t1 = browser_switch t2.
Proof.
  assert (∀ b, b ∈ chromium_tokens → b ≠ "firefox" ∧ b ≠ "webkit") as Htok.
  { assert ("firefox" ∉ chromium_tokens) by compute_done.
    assert ("webkit" ∉ chromium_tokens) by compute_done.
    intros b Hb. split; by intros ->. }
  destruct (browser_switch_cases t1) as [(b1 & _ & Hb1 & ->) | [-> | [-> | ->]]];
  destruct (browser_switch_cases t2) as [(b2 & _ & Hb2 & ->) | [-> | [-> | ->]]];
    simpl; intros Heq; try done; try by subst.
  - subst b1. by destruct (Htok _ Hb1).
  - subst b1. by destruct (Htok _ Hb1).
  - subst b2. by destruct (Htok _ Hb2).
  - subst b2. by destruct (Htok _ Hb2).
Qed.

(** C7, as amended. [createUserDataDir] is stable: called again with the
    same browser name and channel after it returned, it returns the same
    path and does not throw. The path is keyed by [channel ?? browserName]
    alone: two pairs with the same key get the same path. The pairs that
    the switch on the browser token produces have distinct keys, so, as
    long as [path.join] keeps the profile names of these keys apart, two
    distinct such pairs never share a path. *)
Theorem createUserDataDir_profiles h :
  (∀ browserName channel st d st',
     createUserDataDir h browserName channel st = (Ok d, st') →
     createUserDataDir h browserName channel st' = (Ok d, st')) ∧
  (∀ b1 c1 b2 c2 st1 d1 st1' st2 d2 st2',
     default (browserName_str b1) c1 = default (browserName_str b2) c2 →
     createUserDataDir h b1 c1 st1 = (Ok d1, st1') →
     createUserDataDir h b2 c2 st2 = (Ok d2, st2') →
     d1 = d2) ∧
  ((∀ dir x y, x ∈ profile_keys → y ∈ profile_keys →
      path_join h [dir; "ms-playwright"; "mcp-" +:+ x +:+ "-profile"]
      = path_join h [dir; "ms-playwright"; "mcp-" +:+ y +:+ "-profile"] →
      x = y) →
   ∀ t1 t2 st1 d1 st1' st2 d2 st2',
     browser_switch t1 ≠ browser_switch t2 →
     createUserDataDir h (browser_switch t1).1 (browser_switch t1).2 st1 = (Ok d1, st1') →
     createUserDataDir h (browser_switch t2).1 (browser_switch t2).2 st2 = (Ok d2, st2') →
     d1 ≠ d2).
Proof.
  split; [|split].
  - intros b c st d st' Hd.
    pose proof Hd as (dir & Hdir & Hpath & Hmk)%createUserDataDir_inv.
    rewrite createUserDataDir_eq, Hdir. simpl. rewrite <- Hpath.
    by rewrite (mkdir_existing h d st' (mkdir_creates _ _ _ _ Hmk)).
  - intros b1 c1 b2 c2 st1 d1 st1' st2 d2 st2' Hkey
      (dir1 & Hdir1 & -> & _)%createUserDataDir_inv
      (dir2 & Hdir2 & -> & _)%createUserDataDir_inv.
    rewrite Hkey. congruence.
  - intros Hjoin t1 t2 st1 d1 st1' st2 d2 st2' Hne
      (dir1 & Hdir1 & -> & _)%createUserDataDir_inv
      (dir2 & Hdir2 & -> & _)%createUserDataDir_inv Heq.
    assert (dir2 = dir1) as -> by congruence.
    apply Hne, browser_switch_key_inj.
    eapply Hjoin; [apply browser_switch_key..|done].
Qed.

(** Joining with [/] keeps the profile names apart. *)
Lemma concat_profiles_apart dir x y :
  x ∈ profile_keys → y ∈ profile_keys →
  String.concat "/" [dir; "ms-playwright"; "mcp-" +:+ x +:+ "-profile"]
  = String.concat "/" [dir; "ms-playwright"; "mcp-" +:+ y +:+ "-profile"] →
  x = y.
Proof.
  intros Hx Hy Heq. simpl in Heq. apply (inj (String.app dir)) in Heq.
  unfold profile_keys in *. rewrite !elem_of_cons, elem_of_nil in *.
  destruct Hx as [->|[->|[->|[->|[->|[->|[->|[->|[->|[->|[->|[]]]]]]]]]]]];
  destruct Hy as [->|[->|[->|[->|[->|[->|[->|[->|[->|[->|[->|[]]]]]]]]]]]];
    first [reflexivity | discriminate Heq].
Qed.

(** On the sample host: a second call returns the same path, and chrome
    and msedge get different profiles. *)
Lemma createUserDataDir_profiles_witness :
  (∃ d st', createUserDataDir linux_host chromium (Some "chrome") ∅ = (Ok d, st') ∧
            createUserDataDir linux_host chromium (Some "chrome") st' = (Ok d, st')) ∧
  ∃ d1 st1 d2 st2,
    createUserDataDir linux_host chromium (Some "chrome") ∅ = (Ok d1, st1) ∧
    createUserDataDir linux_host chromium (Some "msedge") ∅ = (Ok d2, st2) ∧
    d1 ≠ d2.
Proof.
  assert (returns (createUserDataDir linux_host chromium (Some "chrome") ∅).1 = true) as Hok1
    by (vm_compute; reflexivity).
  assert (returns (createUserDataDir linux_host chromium (Some "msedge") ∅).1 = true) as Hok2
    by (vm_compute; reflexivity).
  destruct (createUserDataDir linux_host chromium (Some "chrome") ∅)
    as [[d1|e] st1] eqn:H1; [|discriminate Hok1].
  destruct (createUserDataDir linux_host chromium (Some "msedge") ∅)
    as [[d2|e] st2] eqn:H2; [|discriminate Hok2].
  split.
  - exists d1, st1. split; [reflexivity|].
    exact (proj1 (createUserDataDir_profiles linux_host) _ _ _ _ _ H1).
  - exists d1, st1, d2, st2. split; [reflexivity|]. split; [reflexivity|].
    exact (proj2 (proj2 (createUserDataDir_profiles linux_host))
             concat_profiles_apart (Some "chrome") (Some "msedge") _ _ _ _ _ _
             ltac:(discriminate) H1 H2).
Defined.

(** C7, as stated, fails: chromium and firefox with the channel [chrome]
    are distinct pairs with the same profile directory. *)
Lemma createUserDataDir_profiles_counterexample :
  (chromium, Some "chrome") ≠ (firefox, Some "chrome") ∧
  (createUserDataDir linux_host chromium (Some "chrome") ∅).1
  = Ok "/home/user/.cache/ms-playwright/mcp-chrome-profile" ∧
  (createUserDataDir linux_host firefox (Some "chrome") ∅).1
  = Ok "/home/user/.cache/ms-playwright/mcp-chrome-profile".
Proof. split; [discriminate|]. split; vm_compute; reflexivity. Qed.

(** ** Tool selection *)

Lemma filterM_filter {A} (P : A → Prop) `{!∀ x, Decision (P x)} f (l : list A) :
  (∀ x, f x = Ok (bool_decide (P x))) →
  filterM f l = Ok (filter P l).
Proof.
  intros Hf. induction l as [|x l IH]; [done|].
  simpl. rewrite Hf, IH. simpl. rewrite filter_cons.
  case_bool_decide; [by rewrite decide_True | by rewrite decide_False].
Qed.

Lemma includes_strings l x :
  includes (VArr (VStr <$> l)) x = Ok (bool_decide (x ∈ l)).
Proof.
  unfold includes. f_equal. induction l as [|y l IH]; [done|].
  rewrite fmap_cons. cbn [existsb]. rewrite IH.
  destruct (String.eqb_spec y x) as [->|Hne]; simpl.
  - symmetry. apply bool_decide_eq_true_2. by left.
  - apply bool_decide_ext. rewrite elem_of_cons.
    split; [by right | by intros [->|?]].
Qed.

(** [createServer()] is [createServer({})]. *)
Lemma createServer_default {Tool} (capability : Tool → string)
    common dialogs files keyboard navigate tabs console install network pdf snapshot screen :
  createServer capability common dialogs files keyboard navigate tabs
    console install network pdf snapshot screen VUndef
  = createServer capability common dialogs files keyboard navigate tabs
      console install network pdf snapshot screen (VObj ∅).
Proof. reflexivity. Qed.

Section Selection.
Context {Tool : Type} (capability : Tool → string).
Context (common dialogs files keyboard navigate tabs : bool → list Tool).
Context (console install network pdf snapshot screen : list Tool).

Local Abbreviation structural :=
  (snapshotTools common dialogs files keyboard navigate tabs
     console install network pdf snapshot).
Local Abbreviation visual :=
  (screenshotTools common dialogs files keyboard navigate tabs
     console install network pdf screen).
Local Abbreviation server :=
  (createServer capability common dialogs files keyboard navigate tabs
     console install network pdf snapshot screen).

(** C4. For a config whose [capabilities] is [undefined] or an array of
    tags, the tools of [createServer] are those of one registry,
    [screenshotTools] when [config.vision] is true and [snapshotTools]
    otherwise, filtered in the order of that registry: a tool of it is
    kept exactly when [capabilities] is [undefined], or its tag is
    [core], or its tag is in [capabilities]. Every tool exposed is thus
    one of the chosen registry; a tool that is only in the other registry
    never appears (the modules [console], [install], [network] and [pdf]
    are spread into both). *)
Theorem createServer_selection (config : value) (capabilities : option (list string)) :
  nullish config = false →
  config.@"capabilities" = of_opt (λ l, VArr (VStr <$> l)) capabilities →
  let registry := if truthy (config.@"vision") then visual else structural in
  ∃ tools, server config = Ok tools ∧
    tools = selectHandlers capability (truthy (config.@"vision")) capabilities
              structural visual ∧
    sublist tools registry ∧
    (∀ tool, tool ∈ tools ↔
       tool ∈ registry ∧
       (capabilities = None ∨ capability tool = "core" ∨
        ∃ l, capabilities = Some l ∧ capability tool ∈ l)).
Proof using Type.
  intros Hconfig Hcaps registry. eexists. split; [|split; [reflexivity|split]].
  - unfold createServer.
    assert (match config with VUndef => VObj ∅ | _ => config end = config) as ->
      by by destruct config.
    rewrite !get_ok by done. simpl.
    unfold selectHandlers.
    change (if truthy (config.@"vision") then visual else structural) with registry.
    apply filterM_filter. intros tool. rewrite Hcaps.
    destruct capabilities as [l|]; [|done].
    cbn [of_opt truthy negb].
    destruct (String.eqb_spec (capability tool) "core") as [Hcore|Hcore].
    + apply (f_equal Ok). symmetry. apply bool_decide_eq_true_2. by left.
    + rewrite includes_strings. apply (f_equal Ok), bool_decide_ext.
      split; [by right | by intros [?|?]].
  - apply sublist_filter.
  - intros tool. unfold selectHandlers.
    change (if truthy (config.@"vision") then visual else structural) with registry.
    rewrite list_elem_of_filter. unfold allowed.
    destruct capabilities as [l|].
    + split.
      * intros [[Hcore|Hin] Hreg]; split; [done | eauto | done | eauto].
      * intros [Hreg [Hnone|[Hcore|(l' & [= <-] & Hin)]]]; [done | auto..].
    + split; [intros [_ Hreg] | intros [Hreg _]]; auto.
Qed.

End Selection.

(** A registry in the shape of the specification's example: handlers tagged
    [core], [console] and [network]; with the allow-list [['console']] the
    [network] handler is left out. *)
Lemma createServer_selection_witness :
  createServer (λ tool : string * string, tool.2)
    (λ _, [("browser_close", "core")]) (λ _, []) (λ _, []) (λ _, []) (λ _, []) (λ _, [])
    [("browser_console_messages", "console")] [] [("browser_network_requests", "network")]
    [] [] []
    (VObj {[ "capabilities" := VArr [VStr "console"] ]})
  = Ok [("browser_close", "core"); ("browser_console_messages", "console")].
Proof.
  destruct (createServer_selection (λ tool : string * string, tool.2)
    (λ _, [("browser_close", "core")]) (λ _, []) (λ _, []) (λ _, []) (λ _, []) (λ _, [])
    [("browser_console_messages", "console")] [] [("browser_network_requests", "network")]
    [] [] []
    (VObj {[ "capabilities" := VArr [VStr "console"] ]}) (Some ["console"]))
    as (tools & Htools & -> & _); [reflexivity..|].
  exact Htools.
Defined.

(** * Further properties of the configuration module *)

(** ** mergeConfig as an operation *)

Lemma mergeConfig_merged base overrides :
  nullish base = false → nullish overrides = false →
  mergeConfig base overrides = Ok (merged base overrides).
Proof.
  intros Hb Ho. unfold mergeConfig.
  rewrite (get_ok base), (get_ok overrides) by done. simpl.
  by rewrite !get_opt_prop.
Qed.

Lemma spread2_eq a b : spread [a; b] = own_props b ∪ own_props a.
Proof. unfold spread; simpl. by rewrite (right_id_L ∅ (∪)). Qed.

Lemma spread3_eq a b c : spread [a; b; c] = own_props c ∪ (own_props b ∪ own_props a).
Proof. unfold spread; simpl. by rewrite (right_id_L ∅ (∪)). Qed.

Lemma merged_browser base overrides :
  (merged base overrides).@"browser" = VObj (
    <["contextOptions" := VObj (spread [
        base.@"browser".@"contextOptions";
        overrides.@"browser".@"contextOptions"])]> (
    <["launchOptions" := VObj (spread [
        base.@"browser".@"launchOptions";
        overrides.@"browser".@"launchOptions";
        VObj {[ "assistantMode" := VBool true ]}])]> (
    spread [base.@"browser"; overrides.@"browser"]))).
Proof. unfold merged, prop at 1. simpl. by rewrite lookup_insert_eq. Qed.

Lemma merged_launchOptions base overrides :
  (merged base overrides).@"browser".@"launchOptions"
  = VObj (spread [base.@"browser".@"launchOptions";
                  overrides.@"browser".@"launchOptions";
                  VObj {[ "assistantMode" := VBool true ]}]).
Proof.
  rewrite merged_browser. unfold prop at 1. simpl.
  rewrite lookup_insert_ne by done. by rewrite lookup_insert_eq.
Qed.

Lemma merged_contextOptions base overrides :
  (merged base overrides).@"browser".@"contextOptions"
  = VObj (spread [base.@"browser".@"contextOptions";
                  overrides.@"browser".@"contextOptions"]).
Proof.
  rewrite merged_browser. unfold prop at 1. simpl. by rewrite lookup_insert_eq.
Qed.

(** Left-biased union, key by key. *)
Lemma lookup_union_first (m1 m2 : gmap string value) k :
  (m1 ∪ m2) !! k = match m1 !! k with Some x => Some x | None => m2 !! k end.
Proof.
  destruct (m1 !! k) as [x|] eqn:H1.
  - by apply lookup_union_Some_l.
  - by rewrite lookup_union_r.
Qed.

(** X1. Merging is associative: on three configs,
    [mergeConfig(D, mergeConfig(F, C))] and
    [mergeConfig(mergeConfig(D, F), C)] are the same config. *)
Theorem mergeConfig_assoc D F C :
  nullish D = false → nullish F = false → nullish C = false →
  (merged_FC ← mergeConfig F C; mergeConfig D merged_FC)
  = (merged_DF ← mergeConfig D F; mergeConfig merged_DF C).
Proof.
  intros HD HF HC.
  rewrite (mergeConfig_merged F C), (mergeConfig_merged D F) by done. simpl.
  rewrite !mergeConfig_merged by done. f_equal.
  unfold merged at 1 3.
  rewrite !merged_launchOptions, !merged_contextOptions, !merged_browser.
  rewrite !spread3_eq, !spread2_eq. simpl.
  f_equal. apply map_eq. intros k.
  destruct (decide (k = "browser")) as [->|Hk].
  - rewrite !lookup_insert_eq. do 2 f_equal. apply map_eq. intros j.
    destruct (decide (j = "contextOptions")) as [->|Hc].
    { rewrite !lookup_insert_eq. do 2 f_equal. by rewrite (assoc_L (∪)). }
    rewrite (lookup_insert_ne _ "contextOptions" j) by done.
    rewrite (lookup_insert_ne _ "contextOptions" j) by done.
    destruct (decide (j = "launchOptions")) as [->|Hl].
    { rewrite !lookup_insert_eq. do 2 f_equal. apply map_eq. intros i.
      rewrite !lookup_union_first.
      destruct (decide (i = "assistantMode")) as [->|Hi].
      - by rewrite lookup_singleton_eq.
      - rewrite !lookup_singleton_ne by done.
        by destruct (own_props (C.@"browser".@"launchOptions") !! i). }
    rewrite (lookup_insert_ne _ "launchOptions" j) by done.
    rewrite (lookup_insert_ne _ "launchOptions" j) by done.
    rewrite !lookup_union_first.
    rewrite !lookup_insert_ne by done. rewrite !lookup_union_first.
    by destruct (own_props (C.@"browser") !! j).
  - rewrite !lookup_insert_ne by done. rewrite !lookup_union_first.
    unfold merged. simpl. rewrite !lookup_insert_ne by done.
    rewrite !spread2_eq, !lookup_union_first.
    by destruct (own_props C !! k).
Qed.

Lemma mergeConfig_assoc_witness :
  (merged_FC ← mergeConfig sample_file headless_only;
   mergeConfig marker_off_base merged_FC)
  = (merged_DF ← mergeConfig marker_off_base sample_file;
     mergeConfig merged_DF headless_only).
Proof. apply (mergeConfig_assoc marker_off_base sample_file headless_only); reflexivity. Defined.

Lemma merged_empty_r base overrides :
  merged (merged base overrides) (VObj ∅) = merged base overrides.
Proof.
  set (r := merged base overrides).
  unfold merged at 1.
  change ((VObj ∅).@"browser") with VUndef.
  change (VUndef.@"contextOptions") with VUndef.
  change (VUndef.@"launchOptions") with VUndef.
  subst r. rewrite merged_launchOptions, merged_contextOptions, merged_browser.
  rewrite !spread3_eq, !spread2_eq. simpl. rewrite !(left_id_L ∅ (∪)).
  unfold merged. f_equal. rewrite !spread3_eq, !spread2_eq. simpl.
  apply map_eq. intros k.
  destruct (decide (k = "browser")) as [->|Hk].
  - rewrite !lookup_insert_eq. do 2 f_equal. apply map_eq. intros j.
    destruct (decide (j = "contextOptions")) as [->|Hc].
    { by rewrite !lookup_insert_eq. }
    rewrite !(lookup_insert_ne _ "contextOptions" j) by done.
    destruct (decide (j = "launchOptions")) as [->|Hl].
    { rewrite !lookup_insert_eq. do 2 f_equal. apply map_eq. intros i.
      rewrite !lookup_union_first.
      by destruct ({[ "assistantMode" := VBool true ]} !! i). }
    rewrite !(lookup_insert_ne _ "launchOptions" j) by done.
    by rewrite !lookup_insert_ne by done.
  - by rewrite !lookup_insert_ne by done.
Qed.

Lemma merged_empty_l base overrides :
  merged (VObj ∅) (merged base overrides) = merged base overrides.
Proof.
  set (r := merged base overrides).
  unfold merged at 1.
  change ((VObj ∅).@"browser") with VUndef.
  change (VUndef.@"contextOptions") with VUndef.
  change (VUndef.@"launchOptions") with VUndef.
  subst r. rewrite merged_launchOptions, merged_contextOptions, merged_browser.
  rewrite !spread3_eq, !spread2_eq. simpl. rewrite !(right_id_L ∅ (∪)).
  unfold merged. f_equal. rewrite !spread3_eq, !spread2_eq. simpl.
  apply map_eq. intros k.
  destruct (decide (k = "browser")) as [->|Hk].
  - rewrite !lookup_insert_eq. do 2 f_equal. apply map_eq. intros j.
    destruct (decide (j = "contextOptions")) as [->|Hc].
    { by rewrite !lookup_insert_eq. }
    rewrite !(lookup_insert_ne _ "contextOptions" j) by done.
    destruct (decide (j = "launchOptions")) as [->|Hl].
    { rewrite !lookup_insert_eq. do 2 f_equal. apply map_eq. intros i.
      rewrite !lookup_union_first.
      by destruct ({[ "assistantMode" := VBool true ]} !! i). }
    rewrite !(lookup_insert_ne _ "launchOptions" j) by done.
    by rewrite !lookup_insert_ne by done.
  - by rewrite !lookup_insert_ne by done.
Qed.

(** X2. A config that [mergeConfig] returned is left as it is by a further
    merge with the empty config, on either side: the marker and the two
    nested groups are added once. *)
Theorem mergeConfig_empty_unit base overrides r :
  mergeConfig base overrides = Ok r →
  mergeConfig r (VObj ∅) = Ok r ∧ mergeConfig (VObj ∅) r = Ok r.
Proof.
  intros Hr. destruct (mergeConfig_inv _ _ _ Hr) as [Hb Ho].
  rewrite mergeConfig_merged in Hr by done. injection Hr as <-.
  rewrite !mergeConfig_merged by done.
  by rewrite merged_empty_r, merged_empty_l.
Qed.

Lemma mergeConfig_empty_unit_witness :
  mergeConfig (merged sample_file headless_only) (VObj ∅)
  = Ok (merged sample_file headless_only).
Proof.
  apply (mergeConfig_empty_unit sample_file headless_only). reflexivity.
Defined.

(** ** What resolveConfig returns and when it throws *)

Lemma resolveConfig_merged h cliOptions st cfg st' :
  resolveConfig h cliOptions st = (Ok cfg, st') →
  ∃ F st1 C,
    loadConfig h (config cliOptions) st = (Ok F, st1) ∧
    configFromCLIOptions h cliOptions st1 = (Ok C, st') ∧
    nullish F = false ∧
    cfg = merged (defaultConfig h) (merged F C).
Proof.
  intros (F & st1 & C & m & HF & HC & Hm & Hd)%resolveConfig_inv.
  destruct (mergeConfig_inv _ _ _ Hm) as [HFn HCn].
  rewrite mergeConfig_merged in Hm by done. injection Hm as <-.
  rewrite mergeConfig_merged in Hd by done. injection Hd as <-.
  by exists F, st1, C.
Qed.

(** X3. A config file whose content is [null] (or any file for which
    [loadConfig] returns [null] or [undefined]) makes [resolveConfig] throw
    the [TypeError] of reading [.browser], and only after the CLI fragment
    has been built: the state is the one [configFromCLIOptions] left, with
    the profile directory created. *)
Theorem resolveConfig_null_file h cliOptions st F st1 C st2 :
  loadConfig h (config cliOptions) st = (Ok F, st1) →
  nullish F = true →
  configFromCLIOptions h cliOptions st1 = (Ok C, st2) →
  resolveConfig h cliOptions st
  = (Throw (TypeError ("Cannot read properties of "
                       +:+ match F with VNull => "null" | _ => "undefined" end
                       +:+ " (reading 'browser')")), st2) ∧
  (userDataDir cliOptions = None →
   ∃ d, C.@"browser".@"userDataDir" = VStr d ∧ d ∈ st2).
Proof.
  intros HF Hnull HC. split.
  - rewrite (resolveConfig_ok _ _ _ _ _ _ _ HF HC).
    unfold mergeConfig, get. by rewrite Hnull.
  - intros Hnone.
    apply configFromCLIOptions_inv in HC as (lo & d & -> & _ & [[Hd _]|[_ Hd]]);
      [congruence|].
    exists d. split; [done|].
    apply createUserDataDir_inv in Hd as (dir & _ & _ & Hmk).
    by eapply mkdir_creates.
Qed.

Lemma resolveConfig_null_file_witness :
  ∃ st2, resolveConfig null_file_host null_file_options ∅
         = (Throw (TypeError "Cannot read properties of null (reading 'browser')"), st2) ∧
         "/home/user/.cache/ms-playwright/mcp-firefox-profile" ∈ st2.
Proof.
  assert (loadConfig null_file_host (config null_file_options) ∅ = (Ok VNull, ∅)) as HF
    by (vm_compute; reflexivity).
  assert ((configFromCLIOptions null_file_host null_file_options ∅).1
          = Ok (cli_fragment null_file_host null_file_options firefox
                  (cli_launchOptions null_file_options None)
                  "/home/user/.cache/ms-playwright/mcp-firefox-profile")) as HC1
    by (vm_compute; reflexivity).
  destruct (configFromCLIOptions null_file_host null_file_options ∅) as [C st2] eqn:HC.
  simpl in HC1. subst C. exists st2.
  destruct (resolveConfig_null_file _ _ _ _ _ _ _ HF eq_refl HC) as [Hres Hdir].
  split; [exact Hres|].
  destruct (Hdir eq_refl) as (d & Hd & Hin).
  injection Hd as <-. exact Hin.
Defined.

(** X4. In every config that [resolveConfig] returns, [browser],
    [browser.launchOptions] and [browser.contextOptions] are objects,
    whatever the config file holds under these names (a string, a number,
    [null], nothing). *)
Theorem resolveConfig_groups_are_objects h cliOptions st cfg st' :
  resolveConfig h cliOptions st = (Ok cfg, st') →
  ∃ top browser launchOptions contextOptions,
    cfg = VObj top ∧
    cfg.@"browser" = VObj browser ∧
    cfg.@"browser".@"launchOptions" = VObj launchOptions ∧
    cfg.@"browser".@"contextOptions" = VObj contextOptions.
Proof.
  intros (F & st1 & C & _ & _ & _ & ->)%resolveConfig_merged.
  eexists _, _, _, _. split; [reflexivity|].
  rewrite merged_launchOptions, merged_contextOptions, merged_browser. done.
Qed.

Lemma resolveConfig_groups_are_objects_witness :
  odd_file.@"browser" = VStr "chrome" ∧
  ∃ cfg st' launchOptions,
    resolveConfig odd_file_host (device_options "Pixel 5") ∅ = (Ok cfg, st') ∧
    cfg.@"browser".@"launchOptions" = VObj launchOptions.
Proof.
  split; [reflexivity|].
  destruct (resolveConfig odd_file_host (device_options "Pixel 5") ∅)
    as [[cfg|e] st'] eqn:Hres.
  - destruct (resolveConfig_groups_are_objects _ _ _ _ _ Hres)
      as (top & b & lo & co & _ & _ & Hlo & _).
    by exists cfg, st', lo.
  - exfalso.
    assert (returns (resolveConfig odd_file_host (device_options "Pixel 5") ∅).1 = true)
      as Hok by (vm_compute; reflexivity).
    rewrite Hres in Hok. discriminate Hok.
Defined.

Lemma cli_fragment_contextOptions h cliOptions b lo d :
  (cli_fragment h cliOptions b lo d).@"browser".@"contextOptions"
  = device_preset h cliOptions.
Proof. reflexivity. Qed.

(** X5. The resolved [browser.contextOptions] takes each key from the
    device preset of [--device] when the preset has it, else from the
    config file's [contextOptions] when that has it, and is otherwise
    [{viewport: null}]. An absent, empty or unknown device name contributes
    nothing: it is not an error. *)
Theorem resolveConfig_contextOptions h cliOptions st cfg st' :
  resolveConfig h cliOptions st = (Ok cfg, st') →
  ∃ F st1, loadConfig h (config cliOptions) st = (Ok F, st1) ∧
    (∀ k, own_props (cfg.@"browser".@"contextOptions") !! k
          = first_present (device_preset h cliOptions) (F.@"browser".@"contextOptions")
              (VObj {[ "viewport" := VNull ]}) k) ∧
    ((device cliOptions = None ∨ device cliOptions = Some "" ∨
      ∃ d, device cliOptions = Some d ∧ devices h !! d = None) →
     ∀ k, own_props (cfg.@"browser".@"contextOptions") !! k
          = first_present VUndef (F.@"browser".@"contextOptions")
              (VObj {[ "viewport" := VNull ]}) k).
Proof.
  intros (F & st1 & C & HF & HC & _ & ->)%resolveConfig_merged.
  exists F, st1. split; [done|].
  apply configFromCLIOptions_inv in HC as (lo & d & -> & _).
  assert (∀ k, own_props ((merged (defaultConfig h)
                 (merged F (cli_fragment h cliOptions
                    (browser_switch (browser cliOptions)).1 lo d)))
                 .@"browser".@"contextOptions") !! k
          = first_present (device_preset h cliOptions) (F.@"browser".@"contextOptions")
              (VObj {[ "viewport" := VNull ]}) k) as Hkeys.
  { intros k. rewrite !merged_contextOptions, cli_fragment_contextOptions.
    simpl. rewrite !spread2_eq. simpl. rewrite !lookup_union_first.
    unfold first_present. simpl.
    by destruct (own_props (device_preset h cliOptions) !! k). }
  split; [done|].
  intros Hdev k. rewrite Hkeys. f_equal. unfold device_preset.
  destruct Hdev as [-> | [-> | (name & -> & Hname)]]; [done..|].
  rewrite Hname. simpl. by destruct (String.eqb name "").
Qed.

Lemma resolveConfig_contextOptions_witness :
  (∃ cfg st', resolveConfig odd_file_host (device_options "Pixel 5") ∅ = (Ok cfg, st') ∧
     cfg.@"browser".@"contextOptions".@"isMobile" = VBool true) ∧
  (∃ cfg st', resolveConfig odd_file_host (device_options "No Such Phone") ∅ = (Ok cfg, st') ∧
     cfg.@"browser".@"contextOptions".@"viewport" = VNull ∧
     cfg.@"browser".@"contextOptions".@"isMobile" = VUndef).
Proof.
  split.
  - destruct (resolveConfig odd_file_host (device_options "Pixel 5") ∅)
      as [[cfg|e] st'] eqn:Hres.
    + destruct (resolveConfig_contextOptions _ _ _ _ _ Hres) as (F & st1 & HF & Hkeys & _).
      exists cfg, st'. split; [reflexivity|].
      apply prop_lookup. by rewrite Hkeys.
    + exfalso.
      assert (returns (resolveConfig odd_file_host (device_options "Pixel 5") ∅).1 = true)
        as Hok by (vm_compute; reflexivity).
      rewrite Hres in Hok. discriminate Hok.
  - destruct (resolveConfig odd_file_host (device_options "No Such Phone") ∅)
      as [[cfg|e] st'] eqn:Hres.
    + destruct (resolveConfig_contextOptions _ _ _ _ _ Hres) as (F & st1 & HF & _ & Hnone).
      assert ((loadConfig odd_file_host (config (device_options "No Such Phone")) ∅).1
              = Ok odd_file) as HF1 by (vm_compute; reflexivity).
      rewrite HF in HF1. simpl in HF1. injection HF1 as ->.
      exists cfg, st'. split; [reflexivity|].
      assert (device (device_options "No Such Phone") = None ∨
              device (device_options "No Such Phone") = Some "" ∨
              ∃ d, device (device_options "No Such Phone") = Some d ∧
                   devices odd_file_host !! d = None) as Hdev.
      { right. right. exists "No Such Phone". split; reflexivity. }
      split; [apply prop_lookup | apply prop_absent]; by rewrite (Hnone Hdev).
    + exfalso.
      assert (returns (resolveConfig odd_file_host (device_options "No Such Phone") ∅).1
              = true) as Hok by (vm_compute; reflexivity).
      rewrite Hres in Hok. discriminate Hok.
Defined.

Lemma cli_fragment_top h cliOptions b lo d k :
  k ≠ "browser" → k ≠ "server" → k ≠ "capabilities" → k ≠ "vision" →
  own_props (cli_fragment h cliOptions b lo d) !! k = None.
Proof. intros. unfold cli_fragment. simpl. by simplify_map_eq. Qed.

Lemma cli_fragment_browser_keys h cliOptions b lo d k :
  k ≠ "browserName" → k ≠ "userDataDir" → k ≠ "launchOptions" →
  k ≠ "contextOptions" → k ≠ "cdpEndpoint" →
  own_props ((cli_fragment h cliOptions b lo d).@"browser") !! k = None.
Proof. intros. unfold cli_fragment, prop. simpl. by simplify_map_eq. Qed.

Lemma defaultConfig_top h k : k ≠ "browser" → own_props (defaultConfig h) !! k = None.
Proof. intros. unfold defaultConfig. simpl. by simplify_map_eq. Qed.

(** X6. What the config file alone decides. A top-level key other than
    [browser], [server], [capabilities] and [vision] (such as [outputDir])
    reaches the resolved config exactly as the file holds it, and is absent
    when the file lacks it; so does a key of the file's [browser] other
    than the five that the CLI fragment writes (the default config has no
    other either). *)
Theorem resolveConfig_file_keys h cliOptions st cfg st' :
  resolveConfig h cliOptions st = (Ok cfg, st') →
  ∃ F st1, loadConfig h (config cliOptions) st = (Ok F, st1) ∧
    (∀ k, k ≠ "browser" → k ≠ "server" → k ≠ "capabilities" → k ≠ "vision" →
       own_props cfg !! k = own_props F !! k) ∧
    (∀ k, k ≠ "browserName" → k ≠ "userDataDir" → k ≠ "launchOptions" →
          k ≠ "contextOptions" → k ≠ "cdpEndpoint" →
       own_props (cfg.@"browser") !! k = own_props (F.@"browser") !! k).
Proof.
  intros (F & st1 & C & HF & HC & Htop & Hb & _)%resolveConfig_chain.
  exists F, st1. split; [done|].
  apply configFromCLIOptions_inv in HC as (lo & d & -> & _).
  split.
  - intros k ? ? ? ?. rewrite Htop by done. unfold first_present.
    rewrite cli_fragment_top, defaultConfig_top by done.
    by destruct (own_props F !! k).
  - intros k ? ? ? ? ?. rewrite Hb by done. unfold first_present.
    rewrite cli_fragment_browser_keys by done.
    destruct (own_props (F.@"browser") !! k); [done|].
    unfold defaultConfig, prop. simpl. by simplify_map_eq.
Qed.

Lemma resolveConfig_file_keys_witness :
  ∃ cfg st', resolveConfig odd_file_host (device_options "Pixel 5") ∅ = (Ok cfg, st') ∧
    cfg.@"outputDir" = VStr "/srv/out" ∧
    ¬ has_key cfg "saveTrace".
Proof.
  destruct (resolveConfig odd_file_host (device_options "Pixel 5") ∅)
    as [[cfg|e] st'] eqn:Hres.
  - destruct (resolveConfig_file_keys _ _ _ _ _ Hres) as (F & st1 & HF & Htop & _).
    assert ((loadConfig odd_file_host (config (device_options "Pixel 5")) ∅).1
            = Ok odd_file) as HF1 by (vm_compute; reflexivity).
    rewrite HF in HF1. simpl in HF1. injection HF1 as ->.
    exists cfg, st'. split; [reflexivity|]. split.
    + apply prop_lookup. by rewrite Htop.
    + apply not_has_key. by rewrite Htop.
  - exfalso.
    assert (returns (resolveConfig odd_file_host (device_options "Pixel 5") ∅).1 = true)
      as Hok by (vm_compute; reflexivity).
    rewrite Hres in Hok. discriminate Hok.
Defined.

Lemma cli_fragment_userDataDir h cliOptions b lo d :
  own_props ((cli_fragment h cliOptions b lo d).@"browser") !! "userDataDir"
  = Some (VStr d).
Proof. reflexivity. Qed.

Lemma cli_fragment_browser_scalars h cliOptions b lo d :
  own_props ((cli_fragment h cliOptions b lo d).@"browser") !! "browserName"
  = Some (VStr (browserName_str b)) ∧
  own_props ((cli_fragment h cliOptions b lo d).@"browser") !! "cdpEndpoint"
  = Some (of_opt VStr (cdpEndpoint cliOptions)).
Proof. split; reflexivity. Qed.

(** X7. What the CLI options alone decide. In every config that
    [resolveConfig] returns, the browser name and
    [launchOptions.channel] are those of the switch on [--browser],
    [launchOptions.headless] is the [--headless] option and [cdpEndpoint]
    the [--cdp-endpoint] option, each [undefined] when the option is
    absent; [capabilities] is the list of the trimmed pieces of [--caps],
    [undefined] without the option; and [userDataDir] is the
    [--user-data-dir] option when given and otherwise the profile
    directory under the cache directory of the host. Neither the config
    file nor the default config (its [headless] on a display-less Linux,
    its [userDataDir]) has a say. *)
Theorem resolveConfig_cli_keys h cliOptions st cfg st' :
  resolveConfig h cliOptions st = (Ok cfg, st') →
  cfg.@"browser".@"browserName"
  = VStr (browserName_str (browser_switch (browser cliOptions)).1) ∧
  cfg.@"browser".@"launchOptions".@"channel"
  = of_opt VStr (browser_switch (browser cliOptions)).2 ∧
  cfg.@"browser".@"launchOptions".@"headless" = of_opt VBool (headless cliOptions) ∧
  cfg.@"browser".@"cdpEndpoint" = of_opt VStr (cdpEndpoint cliOptions) ∧
  cfg.@"capabilities"
  = of_opt (λ c, VArr ((λ c, VStr (trim c)) <$> split ","%char c)) (caps cliOptions) ∧
  match userDataDir cliOptions with
  | Some d => cfg.@"browser".@"userDataDir" = VStr d
  | None =>
      ∃ dir, cache_directory h = Ok dir ∧
        cfg.@"browser".@"userDataDir"
        = VStr (path_join h [dir; "ms-playwright";
             "mcp-" +:+ default (browserName_str (browser_switch (browser cliOptions)).1)
                          (browser_switch (browser cliOptions)).2 +:+ "-profile"])
  end.
Proof.
  intros (F & st1 & C & _ & HC & Htop & Hb & Hlo)%resolveConfig_chain.
  destruct (cli_launchOptions_keys _ _ _ _ _ HC) as (_ & Hh & Hc & _).
  apply configFromCLIOptions_inv in HC as (lo & d & -> & _ & Hd).
  destruct (cli_fragment_browser_scalars h cliOptions
              (browser_switch (browser cliOptions)).1 lo d) as [Hname Hcdp].
  assert (cfg.@"browser".@"userDataDir" = VStr d) as Hcfg.
  { apply prop_lookup. rewrite Hb by done.
    apply first_present_C, cli_fragment_userDataDir. }
  split; [|split; [|split; [|split; [|split]]]].
  - apply prop_lookup. rewrite Hb by done. by apply first_present_C.
  - apply prop_lookup. rewrite Hlo by done. by apply first_present_C.
  - apply prop_lookup. rewrite Hlo by done. by apply first_present_C.
  - apply prop_lookup. rewrite Hb by done. by apply first_present_C.
  - apply prop_lookup. rewrite Htop by done. by apply first_present_C.
  - destruct Hd as [[-> _]|[-> Hd]]; [done|].
    apply createUserDataDir_inv in Hd as (dir & Hdir & Hpath & _).
    exists dir. split; [done|]. by rewrite Hcfg, Hpath.
Qed.

(** The default config of the sample host says [headless: true] and
    [userDataDir: '/tmp']; without options the resolved config holds
    neither, and with [--caps] the tags lose the white space around them,
    the no-break space included. *)
Lemma resolveConfig_cli_keys_witness :
  (defaultConfig linux_host).@"browser".@"launchOptions".@"headless" = VBool true ∧
  (defaultConfig linux_host).@"browser".@"userDataDir" = VStr "/tmp" ∧
  (∃ cfg st', resolveConfig linux_host bare_options ∅ = (Ok cfg, st') ∧
    cfg.@"browser".@"launchOptions".@"headless" = VUndef ∧
    cfg.@"browser".@"browserName" = VStr "chromium" ∧
    cfg.@"browser".@"userDataDir"
    = VStr "/home/user/.cache/ms-playwright/mcp-chrome-profile") ∧
  (∃ cfg st', resolveConfig linux_host (caps_options nbsp_caps) ∅ = (Ok cfg, st') ∧
    cfg.@"capabilities" = VArr [VStr "pdf"; VStr "tabs"] ∧
    cfg.@"browser".@"userDataDir" = VStr "/tmp/profile").
Proof.
  split; [reflexivity|]. split; [reflexivity|]. split.
  - destruct (resolveConfig linux_host bare_options ∅) as [[cfg|e] st'] eqn:Hres.
    + destruct (resolveConfig_cli_keys _ _ _ _ _ Hres) as (Hname & _ & Hh & _ & _ & Hd).
      exists cfg, st'. split; [reflexivity|]. split; [done|]. split; [done|].
      destruct Hd as (dir & Hdir & ->).
      assert (dir = "/home/user/.cache") as -> by (by injection Hdir as <-).
      reflexivity.
    + exfalso.
      assert (returns (resolveConfig linux_host bare_options ∅).1 = true)
        as Hok by (vm_compute; reflexivity).
      rewrite Hres in Hok. discriminate Hok.
  - destruct (resolveConfig linux_host (caps_options nbsp_caps) ∅)
      as [[cfg|e] st'] eqn:Hres.
    + destruct (resolveConfig_cli_keys _ _ _ _ _ Hres) as (_ & _ & _ & _ & Hcaps & Hd).
      exists cfg, st'. split; [reflexivity|]. split; [|done].
      rewrite Hcaps. reflexivity.
    + exfalso.
      assert (returns (resolveConfig linux_host (caps_options nbsp_caps) ∅).1 = true)
        as Hok by (vm_compute; reflexivity).
      rewrite Hres in Hok. discriminate Hok.
Defined.

(** ** The file system and the failures of resolveConfig *)

Lemma loadConfig_state h configFile st r st1 :
  loadConfig h configFile st = (r, st1) → st1 = st.
Proof.
  unfold loadConfig. destruct configFile as [f|]; [|by intros [= _ <-]].
  destruct (String.eqb f ""); [by intros [= _ <-]|].
  destruct (readFile h f) as [text|e]; [|by intros [= _ <-]].
  destruct (JSON_parse h text); by intros [= _ <-].
Qed.

(** X8. What a [resolveConfig] that returns does to the file system. With
    [--user-data-dir] it leaves the directories as it found them (the
    directory named is not created) and the resolved [userDataDir] is the
    option. Without, the resolved [userDataDir] is the profile directory
    of the browser, which exists afterwards; no directory is removed, and
    every directory added is the profile directory or one above it. *)
Theorem resolveConfig_userDataDir h cliOptions st cfg st' :
  resolveConfig h cliOptions st = (Ok cfg, st') →
  match userDataDir cliOptions with
  | Some d => cfg.@"browser".@"userDataDir" = VStr d ∧ st' = st
  | None =>
      ∃ d, cfg.@"browser".@"userDataDir" = VStr d ∧ d ∈ st' ∧ st ⊆ st' ∧
           (∀ x, x ∈ st' → x ∈ st ∨ x = d ∨ x ∈ parents h d) ∧
           createUserDataDir h (browser_switch (browser cliOptions)).1
             (browser_switch (browser cliOptions)).2 st = (Ok d, st')
  end.
Proof.
  intros (F & st1 & C & HF & HC & _ & Hb & _)%resolveConfig_chain.
  apply loadConfig_state in HF as ->.
  apply configFromCLIOptions_inv in HC as (lo & d & -> & _ & Hd).
  assert (cfg.@"browser".@"userDataDir" = VStr d) as Hcfg.
  { apply prop_lookup. rewrite Hb by done.
    apply first_present_C, cli_fragment_userDataDir. }
  destruct Hd as [[-> ->]|[-> Hd]]; [done|].
  exists d. split; [done|].
  pose proof Hd as (dir & _ & _ & Hmk)%createUserDataDir_inv.
  split; [by eapply mkdir_creates|].
  destruct (mkdir_state _ _ _ _ _ Hmk) as [Hsub Hadd]. done.
Qed.

(** On the sample host, from an empty file system: nothing is created with
    [--user-data-dir]; without it the profile directory exists afterwards
    and so do the four directories above it, and nothing else. *)
Lemma resolveConfig_userDataDir_witness :
  (∃ cfg, resolveConfig linux_host profile_options ∅ = (Ok cfg, ∅) ∧
          cfg.@"browser".@"userDataDir" = VStr "/tmp/profile") ∧
  (∃ cfg st', resolveConfig linux_host bare_options ∅ = (Ok cfg, st') ∧
     "/home/user/.cache/ms-playwright/mcp-chrome-profile" ∈ st' ∧
     "/home/user/.cache" ∈ st' ∧
     size st' = 5 ∧
     ∀ x, x ∈ st' →
       x = "/home/user/.cache/ms-playwright/mcp-chrome-profile" ∨
       x ∈ posix_parents "/home/user/.cache/ms-playwright/mcp-chrome-profile").
Proof.
  split.
  - destruct (resolveConfig linux_host profile_options ∅) as [[cfg|e] st'] eqn:Hres.
    + destruct (resolveConfig_userDataDir _ _ _ _ _ Hres) as [Hd ->]. by exists cfg.
    + exfalso.
      assert (returns (resolveConfig linux_host profile_options ∅).1 = true)
        as Hok by (vm_compute; reflexivity).
      rewrite Hres in Hok. discriminate Hok.
  - destruct (resolveConfig linux_host bare_options ∅) as [[cfg|e] st'] eqn:Hres.
    + destruct (resolveConfig_userDataDir _ _ _ _ _ Hres)
        as (d & Hcfg & Hin & Hsub & Hadd & Hd).
      apply createUserDataDir_inv in Hd as (dir & Hdir & Hpath & _).
      assert (dir = "/home/user/.cache") as -> by (by injection Hdir as <-).
      assert (d = "/home/user/.cache/ms-playwright/mcp-chrome-profile") as ->
        by (rewrite Hpath; reflexivity).
      exists cfg, st'. split; [reflexivity|]. split; [done|].
      assert (bool_decide ("/home/user/.cache"
                ∈ (resolveConfig linux_host bare_options ∅).2) = true) as Hc
        by (vm_compute; reflexivity).
      assert (size (resolveConfig linux_host bare_options ∅).2 = 5) as Hsize
        by (vm_compute; reflexivity).
      rewrite Hres in Hc, Hsize. simpl in Hc, Hsize.
      apply bool_decide_eq_true in Hc.
      split; [done|]. split; [done|].
      intros x Hx. destruct (Hadd x Hx) as [Hx'|[->|Hx']]; [|by left|by right].
      by apply elem_of_empty in Hx'.
    + exfalso.
      assert (returns (resolveConfig linux_host bare_options ∅).1 = true)
        as Hok by (vm_compute; reflexivity).
      rewrite Hres in Hok. discriminate Hok.
Defined.

Lemma cache_directory_unsupported h :
  platform h ≠ "linux" → platform h ≠ "darwin" → platform h ≠ "win32" →
  cache_directory h = Throw (Error ("Unsupported platform: " +:+ platform h)).
Proof.
  intros Hl Hd Hw. unfold cache_directory.
  destruct (String.eqb_spec (platform h) "linux"); [done|].
  destruct (String.eqb_spec (platform h) "darwin"); [done|].
  by destruct (String.eqb_spec (platform h) "win32").
Qed.

(** X9. The platform check comes last and only without
    [--user-data-dir]. On a platform other than [linux], [darwin] and
    [win32], once the config file has loaded and the port (for the chromium
    family) has been found: without [--user-data-dir], [resolveConfig]
    throws [Unsupported platform: <platform>] and creates nothing; with
    [--user-data-dir] and a file that did not parse to [null], the platform
    is never looked at and it returns, creating nothing. *)
Theorem resolveConfig_unsupported_platform h cliOptions st F st1 :
  platform h ≠ "linux" → platform h ≠ "darwin" → platform h ≠ "win32" →
  loadConfig h (config cliOptions) st = (Ok F, st1) →
  ((browser_switch (browser cliOptions)).1 = chromium → ∃ p, listen h = Ok p) →
  (userDataDir cliOptions = None →
   resolveConfig h cliOptions st
   = (Throw (Error ("Unsupported platform: " +:+ platform h)), st)) ∧
  (∀ d, userDataDir cliOptions = Some d → nullish F = false →
   ∃ cfg, resolveConfig h cliOptions st = (Ok cfg, st)).
Proof.
  intros Hl Hd Hw HF Hport. pose proof (loadConfig_state _ _ _ _ _ HF) as ->.
  assert (∃ lo, (if bool_decide ((browser_switch (browser cliOptions)).1 = chromium)
                 then p ← listen h;
                      mret (<["webSocketPort" := VNum p]>
                              (cli_launchOptions cliOptions
                                 (browser_switch (browser cliOptions)).2))
                 else Ok (cli_launchOptions cliOptions
                            (browser_switch (browser cliOptions)).2)) = Ok lo)
    as [lo Hlo].
  { case_bool_decide as Hb; [|by eexists].
    destruct (Hport Hb) as [p ->]. by eexists. }
  split.
  - intros Hnone. unfold resolveConfig, mbind at 1 2, M_bind. rewrite HF.
    rewrite configFromCLIOptions_eq. simpl. rewrite Hlo, Hnone.
    rewrite createUserDataDir_eq, cache_directory_unsupported by done. done.
  - intros d Hsome HFn.
    assert (configFromCLIOptions h cliOptions st
            = (Ok (cli_fragment h cliOptions (browser_switch (browser cliOptions)).1 lo d),
               st)) as HC.
    { rewrite configFromCLIOptions_eq. simpl. by rewrite Hlo, Hsome. }
    rewrite (resolveConfig_ok _ _ _ _ _ _ _ HF HC).
    rewrite mergeConfig_merged by done. simpl.
    rewrite mergeConfig_merged by done. by eexists.
Qed.

Lemma resolveConfig_unsupported_platform_witness :
  resolveConfig freebsd_host bare_options ∅
  = (Throw (Error "Unsupported platform: freebsd"), ∅) ∧
  ∃ cfg, resolveConfig freebsd_host profile_options ∅ = (Ok cfg, ∅).
Proof.
  split.
  - apply (proj1 (resolveConfig_unsupported_platform freebsd_host bare_options ∅
                    (VObj ∅) ∅ ltac:(discriminate) ltac:(discriminate)
                    ltac:(discriminate) eq_refl (λ _, ex_intro _ 40000%Z eq_refl))).
    reflexivity.
  - apply (proj2 (resolveConfig_unsupported_platform freebsd_host profile_options ∅
                    (VObj ∅) ∅ ltac:(discriminate) ltac:(discriminate)
                    ltac:(discriminate) eq_refl (λ _, ex_intro _ 40000%Z eq_refl))
             "/tmp/profile"); reflexivity.
Defined.



(** ** The capability list of the CLI *)

(** White space and [trim]. *)

Lemma trim_start_unfold s :
  trim_start s = match space_rest s with Some r => trim_start r | None => s end.
Proof.
  destruct s as [|a [|b [|c s]]]; simpl; try done.
  - by destruct (Ascii.is_space a).
  - destruct (Ascii.is_space a); [done|]. by destruct (is_space2 a b).
  - destruct (Ascii.is_space a); [done|]. destruct (is_space2 a b); [done|].
    by destruct (is_space3 a b c).
Qed.

Lemma space_rest_length s r :
  space_rest s = Some r → (String.length r < String.length s)%nat.
Proof.
  destruct s as [|a [|b [|c s]]]; simpl; try done.
  - destruct (Ascii.is_space a); [|done]. intros [= <-]. simpl. lia.
  - destruct (Ascii.is_space a); [intros [= <-]; simpl; lia|].
    destruct (is_space2 a b); [|done]. intros [= <-]. simpl. lia.
  - destruct (Ascii.is_space a); [intros [= <-]; simpl; lia|].
    destruct (is_space2 a b); [intros [= <-]; simpl; lia|].
    destruct (is_space3 a b c); [|done]. intros [= <-]. simpl. lia.
Qed.

Lemma space_rest_suffix s r : space_rest s = Some r → ∃ w, s = w +:+ r.
Proof.
  destruct s as [|a [|b [|c s]]]; simpl; try done.
  - destruct (Ascii.is_space a); [|done]. intros [= <-]. by exists (String a "").
  - destruct (Ascii.is_space a); [intros [= <-]; by exists (String a "")|].
    destruct (is_space2 a b); [|done]. intros [= <-]. by exists (String a (String b "")).
  - destruct (Ascii.is_space a); [intros [= <-]; by exists (String a "")|].
    destruct (is_space2 a b); [intros [= <-]; by exists (String a (String b ""))|].
    destruct (is_space3 a b c); [|done]. intros [= <-].
    by exists (String a (String b (String c ""))).
Qed.

Lemma space_rest_app p r v :
  space_rest p = Some r → space_rest (p +:+ v) = Some (r +:+ v).
Proof.
  destruct p as [|a [|b [|c p]]]; simpl; try done.
  - destruct (Ascii.is_space a); [|done]. by intros [= <-].
  - destruct (Ascii.is_space a); [by intros [= <-]|].
    destruct (is_space2 a b); [|done]. by intros [= <-].
  - destruct (Ascii.is_space a); [by intros [= <-]|].
    destruct (is_space2 a b); [by intros [= <-]|].
    destruct (is_space3 a b c); [|done]. by intros [= <-].
Qed.

Lemma string_length_ind (P : string → Prop) :
  (∀ s, (∀ r, (String.length r < String.length s)%nat → P r) → P s) → ∀ s, P s.
Proof.
  intros HP s. remember (String.length s) as n eqn:Hn.
  revert s Hn. induction n as [n IH] using lt_wf_ind. intros s ->.
  apply HP. intros r Hr. by eapply IH.
Qed.

Lemma append_assoc (u v w : string) : (u +:+ v) +:+ w = u +:+ (v +:+ w).
Proof.
  induction u as [|a u IH]; [done|].
  change (String a ((u +:+ v) +:+ w) = String a (u +:+ (v +:+ w))). by rewrite IH.
Qed.

Lemma trim_start_suffix s : ∃ u, s = u +:+ trim_start s.
Proof.
  induction s as [s IH] using string_length_ind.
  rewrite trim_start_unfold. destruct (space_rest s) as [r|] eqn:Hr; [|by exists ""].
  destruct (IH r (space_rest_length _ _ Hr)) as [u Hu].
  destruct (space_rest_suffix _ _ Hr) as [w ->].
  exists (w +:+ u). rewrite Hu at 1. by rewrite append_assoc.
Qed.

Lemma trim_start_no_space s : space_rest (trim_start s) = None.
Proof.
  induction s as [s IH] using string_length_ind.
  rewrite trim_start_unfold. destruct (space_rest s) as [r|] eqn:Hr; [|done].
  apply IH. by eapply space_rest_length.
Qed.

Lemma trim_end_prefix s : ∃ v, s = trim_end s +:+ v ∧ trim_start v = "".
Proof.
  induction s as [|a s IH]; [by exists ""|].
  cbn [trim_end]. destruct (trim_start (String a s)) as [|b t] eqn:Ht.
  - by exists (String a s).
  - destruct IH as (v & Hv & Hs). exists v. split; [|done].
    change (String a s = String a (trim_end s +:+ v)). by rewrite <- Hv.
Qed.

Lemma trim_end_no_lead t : space_rest t = None → space_rest (trim_end t) = None.
Proof.
  intros Ht. destruct (trim_end_prefix t) as (v & Hv & _).
  destruct (space_rest (trim_end t)) as [r|] eqn:Hr; [|done].
  apply (space_rest_app _ _ v) in Hr. rewrite <- Hv in Hr. congruence.
Qed.

Lemma trim_end_no_space t : ends_with_space (trim_end t) = false.
Proof.
  induction t as [|a t IH]; [done|].
  cbn [trim_end]. destruct (trim_start (String a t)) as [|b u] eqn:Ht; [done|].
  cbn [ends_with_space]. rewrite IH, orb_false_r.
  destruct (space_rest (String a (trim_end t))) as [[|c r]|] eqn:Hr; [|done..].
  destruct (trim_end_prefix t) as (v & Hv & Hs).
  apply (space_rest_app _ _ v) in Hr.
  change (space_rest (String a (trim_end t +:+ v)) = Some v) in Hr.
  rewrite <- Hv in Hr. rewrite trim_start_unfold, Hr, Hs in Ht. done.
Qed.

Lemma ends_with_space_app w r :
  ends_with_space r = true → ends_with_space (w +:+ r) = true.
Proof.
  intros Hr. induction w as [|a w IH]; [done|].
  change (String a w +:+ r) with (String a (w +:+ r)).
  cbn [ends_with_space]. rewrite IH. apply orb_true_r.
Qed.

Lemma all_space_ends s : trim_start s = "" → s ≠ "" → ends_with_space s = true.
Proof.
  induction s as [s IH] using string_length_ind. intros Hs Hne.
  rewrite trim_start_unfold in Hs.
  destruct (space_rest s) as [r|] eqn:Hr; [|done].
  destruct r as [|c r].
  - destruct s as [|a s]; [done|]. cbn [ends_with_space]. by rewrite Hr.
  - destruct (space_rest_suffix _ _ Hr) as [w ->].
    apply ends_with_space_app, IH; [by eapply space_rest_length|done|done].
Qed.

Lemma trim_end_fixed s : ends_with_space s = false → trim_end s = s.
Proof.
  induction s as [|a s IH]; [done|]. intros Hs.
  cbn [trim_end]. destruct (trim_start (String a s)) as [|b u] eqn:Ht.
  - rewrite all_space_ends in Hs; done.
  - cbn [ends_with_space] in Hs. apply orb_false_iff in Hs as [_ Hs].
    by rewrite IH.
Qed.

Lemma trim_fixed s :
  starts_with_space s = false → ends_with_space s = false → trim s = s.
Proof.
  unfold starts_with_space, trim. intros Hs He.
  rewrite trim_start_unfold. destruct (space_rest s); [done|]. by apply trim_end_fixed.
Qed.

Lemma trim_trimmed s :
  starts_with_space (trim s) = false ∧ ends_with_space (trim s) = false.
Proof.
  unfold starts_with_space, trim. split; [|apply trim_end_no_space].
  by rewrite trim_end_no_lead by apply trim_start_no_space.
Qed.

Lemma occurs_app c u v : occurs c (u +:+ v) = occurs c u || occurs c v.
Proof.
  induction u as [|a u IH]; [done|].
  change (String a u +:+ v) with (String a (u +:+ v)).
  cbn [occurs]. by rewrite IH, orb_assoc.
Qed.

Lemma occurs_trim c s : occurs c s = false → occurs c (trim s) = false.
Proof.
  intros Hs. unfold trim.
  destruct (trim_start_suffix s) as [u Hu].
  destruct (trim_end_prefix (trim_start s)) as (v & Hv & _).
  rewrite Hu, Hv, !occurs_app in Hs.
  apply orb_false_iff in Hs as [_ Hs]. by apply orb_false_iff in Hs as [Hs _].
Qed.

Lemma split_nonempty sep s : split sep s ≠ [].
Proof.
  destruct s as [|c s]; simpl; [done|].
  destruct (Ascii.eqb c sep); [done|]. by destruct (split sep s).
Qed.

Lemma split_length sep s : length (split sep s) = S (count_char sep s).
Proof.
  induction s as [|c s IH]; simpl; [done|].
  destruct (Ascii.eqb c sep); simpl; [by rewrite IH|].
  pose proof (split_nonempty sep s).
  destruct (split sep s) as [|x xs]; [done|]. exact IH.
Qed.

Lemma split_no_sep sep s x : x ∈ split sep s → occurs sep x = false.
Proof.
  revert x. induction s as [|c s IH]; simpl; intros x.
  - rewrite list_elem_of_singleton. by intros ->.
  - destruct (Ascii.eqb c sep) eqn:Hc.
    + rewrite elem_of_cons. intros [->|Hx]; [done|]. by apply IH.
    + pose proof (split_nonempty sep s).
      destruct (split sep s) as [|y ys]; [done|].
      rewrite elem_of_cons. intros [->|Hx].
      * simpl. rewrite Hc. simpl. apply IH. by left.
      * apply IH. by right.
Qed.

Lemma split_concat sep s : String.concat (String sep "") (split sep s) = s.
Proof.
  induction s as [|c s IH]; simpl; [done|].
  pose proof (split_nonempty sep s) as Hne.
  destruct (Ascii.eqb_spec c sep) as [->|Hc].
  - destruct (split sep s) as [|y ys]; [done|].
    change (String.concat (String sep "") ("" :: y :: ys))
      with (String sep (String.concat (String sep "") (y :: ys))).
    by rewrite IH.
  - destruct (split sep s) as [|y ys]; [done|].
    destruct ys as [|z zs].
    + simpl in *. by rewrite IH.
    + change (String.concat (String sep "") (String c y :: z :: zs))
        with (String c (String.concat (String sep "") (y :: z :: zs))).
      by rewrite IH.
Qed.

Lemma split_plain sep x : occurs sep x = false → split sep x = [x].
Proof.
  induction x as [|c x IH]; simpl; [done|].
  destruct (Ascii.eqb c sep); [done|]. simpl. intros Hx. by rewrite IH.
Qed.

Lemma split_app sep x rest :
  occurs sep x = false →
  split sep (x +:+ String sep rest) = x :: split sep rest.
Proof.
  induction x as [|c x IH].
  - intros _. change ("" +:+ String sep rest) with (String sep rest).
    cbn [split]. by rewrite Ascii.eqb_refl.
  - cbn [occurs]. intros Hx.
    change (String c x +:+ String sep rest) with (String c (x +:+ String sep rest)).
    cbn [split]. destruct (Ascii.eqb c sep); [done|]. by rewrite IH.
Qed.

Lemma split_join sep l :
  l ≠ [] → (∀ x, x ∈ l → occurs sep x = false) →
  split sep (String.concat (String sep "") l) = l.
Proof.
  induction l as [|x l IH]; [done|]. intros _ Hl.
  destruct l as [|y l].
  - simpl. apply split_plain, Hl. by left.
  - change (String.concat (String sep "") (x :: y :: l))
      with (x +:+ String sep (String.concat (String sep "") (y :: l))).
    rewrite split_app by (apply Hl; by left).
    f_equal. apply IH; [done|]. intros z Hz. apply Hl. by right.
Qed.

Lemma cli_fragment_capabilities h cliOptions b lo d :
  (cli_fragment h cliOptions b lo d).@"capabilities"
  = of_opt (λ c, VArr (VStr <$> parse_caps c)) (caps cliOptions).
Proof.
  unfold cli_fragment, prop, parse_caps. simpl. simplify_map_eq.
  destruct (caps cliOptions) as [c|]; simpl; [|done].
  by rewrite <- list_fmap_compose.
Qed.

(** X11. The capability list that [configFromCLIOptions] builds from
    [--caps]: it is never empty (the empty string gives the one tag
    [''], not an absent list), it has one tag more than the value has
    commas, no tag of the list contains a comma, and joining the tags
    with commas gives the value back when none of the pieces between the
    commas starts or ends with a white-space character. *)
Theorem caps_parsed h cliOptions st C st' c :
  configFromCLIOptions h cliOptions st = (Ok C, st') →
  caps cliOptions = Some c →
  C.@"capabilities" = VArr (VStr <$> parse_caps c) ∧
  parse_caps c ≠ [] ∧
  length (parse_caps c) = S (count_char "," c) ∧
  (∀ tag, tag ∈ parse_caps c → occurs "," tag = false) ∧
  ((∀ piece, piece ∈ split ","%char c →
      starts_with_space piece = false ∧ ends_with_space piece = false) →
   String.concat "," (parse_caps c) = c).
Proof.
  intros (lo & d & -> & _)%configFromCLIOptions_inv Hc.
  rewrite cli_fragment_capabilities, Hc. simpl. unfold parse_caps.
  split; [done|]. split; [|split; [|split]].
  - pose proof (split_nonempty "," c). by destruct (split "," c).
  - by rewrite length_fmap, split_length.
  - intros tag (piece & -> & Hpiece)%list_elem_of_fmap.
    by eapply occurs_trim, split_no_sep.
  - intros Htrim.
    assert (trim <$> split "," c = split "," c) as ->.
    { rewrite <- (list_fmap_id (split "," c)) at 2.
      apply list_fmap_ext. intros i x Hx.
      apply list_elem_of_lookup_2, Htrim in Hx as [Hs He]. by apply trim_fixed. }
    apply split_concat.
Qed.

Lemma caps_parsed_witness :
  parse_caps "core, tabs ,pdf" = ["core"; "tabs"; "pdf"] ∧
  parse_caps nbsp_caps = ["pdf"; "tabs"] ∧
  ∃ C, configFromCLIOptions linux_host (caps_options "") ∅ = (Ok C, ∅) ∧
       C.@"capabilities" = VArr [VStr ""].
Proof.
  split; [reflexivity|]. split; [reflexivity|].
  assert ((configFromCLIOptions linux_host (caps_options "") ∅).1
          = Ok (cli_fragment linux_host (caps_options "") chromium
                  (<["webSocketPort" := VNum 40000]>
                     (cli_launchOptions (caps_options "") (Some "chrome")))
                  "/tmp/profile")) as HC1 by (vm_compute; reflexivity).
  assert ((configFromCLIOptions linux_host (caps_options "") ∅).2 = ∅) as HC2
    by (vm_compute; reflexivity).
  destruct (configFromCLIOptions linux_host (caps_options "") ∅) as [r st'] eqn:HC.
  simpl in HC1, HC2. subst r st'.
  eexists. split; [reflexivity|].
  by destruct (caps_parsed _ _ _ _ _ "" HC eq_refl) as (Hcaps & _).
Defined.

(** X12. Parsing undoes joining: for a non-empty list of tags none of
    which contains a comma, starts with a white-space character or ends
    with one, [--caps] with their comma-joined string yields exactly these
    tags. *)
Theorem caps_round_trip h cliOptions st C st' tags :
  configFromCLIOptions h cliOptions st = (Ok C, st') →
  tags ≠ [] →
  (∀ tag, tag ∈ tags →
     occurs "," tag = false ∧
     starts_with_space tag = false ∧ ends_with_space tag = false) →
  caps cliOptions = Some (String.concat "," tags) →
  C.@"capabilities" = VArr (VStr <$> tags).
Proof.
  intros (lo & d & -> & _)%configFromCLIOptions_inv Hne Htags Hc.
  rewrite cli_fragment_capabilities, Hc. simpl. unfold parse_caps.
  rewrite split_join; [|done|by intros x Hx; apply Htags].
  do 2 f_equal. rewrite <- (list_fmap_id tags) at 2.
  apply list_fmap_ext. intros i x Hx.
  apply list_elem_of_lookup_2, Htags in Hx as (_ & Hs & He). by apply trim_fixed.
Qed.

Lemma caps_round_trip_witness :
  ∃ C, configFromCLIOptions linux_host (caps_options "core,tabs,pdf") ∅ = (Ok C, ∅) ∧
       C.@"capabilities" = VArr [VStr "core"; VStr "tabs"; VStr "pdf"].
Proof.
  assert ((configFromCLIOptions linux_host (caps_options "core,tabs,pdf") ∅).1
          = Ok (cli_fragment linux_host (caps_options "core,tabs,pdf") chromium
                  (<["webSocketPort" := VNum 40000]>
                     (cli_launchOptions (caps_options "core,tabs,pdf") (Some "chrome")))
                  "/tmp/profile")) as HC1 by (vm_compute; reflexivity).
  assert ((configFromCLIOptions linux_host (caps_options "core,tabs,pdf") ∅).2 = ∅) as HC2
    by (vm_compute; reflexivity).
  destruct (configFromCLIOptions linux_host (caps_options "core,tabs,pdf") ∅)
    as [r st'] eqn:HC.
  simpl in HC1, HC2. subst r st'.
  eexists. split; [reflexivity|].
  apply (caps_round_trip _ _ _ _ _ ["core"; "tabs"; "pdf"] HC); [done| |reflexivity].
  intros tag. rewrite !elem_of_cons, elem_of_nil.
  intros [->|[->|[->|[]]]]; (split; [|split]); reflexivity.
Defined.

(** ** Tool selection on any config *)

Lemma filterM_inv {A} (f : A → result bool) (l l' : list A) :
  filterM f l = Ok l' →
  sublist l' l ∧ ∀ x, x ∈ l → f x = Ok true → x ∈ l'.
Proof.
  revert l'. induction l as [|x l IH]; simpl; intros l'.
  - intros [= <-]. split; [done|]. by intros x Hx%elem_of_nil.
  - destruct (f x) as [keep|e] eqn:Hx; simpl; [|done].
    destruct (filterM f l) as [rest|e]; simpl; [|done].
    destruct (IH rest eq_refl) as [Hsub Hin].
    intros [= <-]. split.
    + destruct keep; by constructor.
    + intros y. rewrite elem_of_cons. intros [->|Hy] Hfy.
      * rewrite Hx in Hfy. injection Hfy as ->. by left.
      * destruct keep; [right|]; by apply Hin.
Qed.

Lemma filterM_throws {A} (f : A → result bool) (l : list A) e :
  filterM f l = Throw e → ∃ x, x ∈ l ∧ f x = Throw e.
Proof.
  induction l as [|x l IH]; simpl; [done|].
  destruct (f x) as [keep|e'] eqn:Hx; simpl.
  - destruct (filterM f l) as [rest|e']; simpl; [done|].
    intros [= ->]. destruct (IH eq_refl) as (y & Hy & Hfy).
    exists y. split; [by right|done].
  - intros [= ->]. exists x. split; [by left|done].
Qed.

Lemma filterM_throws_intro {A} (f : A → result bool) (l : list A) :
  (∃ x, x ∈ l ∧ ∃ e, f x = Throw e) → ∃ e, filterM f l = Throw e.
Proof.
  induction l as [|x l IH]; simpl.
  - by intros (x & Hx%elem_of_nil & _).
  - intros (y & Hy & e & Hfy). apply elem_of_cons in Hy as [->|Hy].
    + rewrite Hfy. by eexists.
    + destruct (f x) as [keep|e']; simpl; [|by eexists].
      destruct IH as [e' ->]; [by eauto|]. by eexists.
Qed.

Lemma resolved_vision_caps h cliOptions st cfg st' :
  resolveConfig h cliOptions st = (Ok cfg, st') →
  cfg.@"vision" = VBool (default false (vision cliOptions)) ∧
  cfg.@"capabilities" = of_opt (λ c, VArr (VStr <$> parse_caps c)) (caps cliOptions).
Proof.
  intros (F & st1 & C & _ & HC & Htop & _)%resolveConfig_chain.
  apply configFromCLIOptions_inv in HC as (lo & d & -> & _).
  split.
  - apply prop_lookup. rewrite Htop by done. by apply first_present_C.
  - rewrite <- (cli_fragment_capabilities h cliOptions
                  (browser_switch (browser cliOptions)).1 lo d).
    unfold prop at 1. rewrite Htop by done. unfold first_present, prop.
    unfold cli_fragment. simpl. by simplify_map_eq.
Qed.

Section AnyConfig.
Context {Tool : Type} (capability : Tool → string).
Context (common dialogs files keyboard navigate tabs : bool → list Tool).
Context (console install network pdf snapshot screen : list Tool).

Local Abbreviation structural :=
  (snapshotTools common dialogs files keyboard navigate tabs
     console install network pdf snapshot).
Local Abbreviation visual :=
  (screenshotTools common dialogs files keyboard navigate tabs
     console install network pdf screen).
Local Abbreviation server :=
  (createServer capability common dialogs files keyboard navigate tabs
     console install network pdf snapshot screen).

(** X13. Core tools cannot be gated. Whatever value the config is, when
    [createServer] returns, its tools are a sublist of the registry that
    the truthiness of [config.vision] selects, and every tool of that
    registry tagged [core] is among them: also with an empty capability
    list, or with a [capabilities] that is a string or not a list at all. *)
Theorem createServer_core_kept (config : value) (tools : list Tool) :
  server config = Ok tools →
  let config' := match config with VUndef => VObj ∅ | _ => config end in
  let registry := if truthy (config'.@"vision") then visual else structural in
  sublist tools registry ∧
  ∀ tool, tool ∈ registry → capability tool = "core" → tool ∈ tools.
Proof using Type.
  intros Hserver config' registry. unfold createServer in Hserver.
  fold config' in Hserver.
  destruct (get config' "vision") as [vision|e] eqn:Hvision; simpl in Hserver; [|done].
  apply get_inv in Hvision as [Hnull ->]. fold registry in Hserver.
  apply filterM_inv in Hserver as [Hsub Hkeep]. split; [done|].
  intros tool Hin Hcore. apply Hkeep; [done|].
  rewrite get_ok by done. simpl.
  destruct (truthy (config'.@"capabilities")); simpl; [|done].
  by rewrite Hcore.
Qed.

(** X14. When the tool selection of [createServer] throws. Reading
    [config.vision] and filtering the registry, which is all that
    [createServer] does before it hands the tools to
    [createServerWithTools], throws exactly when the config is [null], or
    [config.capabilities] is truthy without being an array or a string (a
    number, [true], an object) while the selected registry has a tool that
    is not tagged [core]; what is thrown there is a [TypeError]. *)
Theorem createServer_throws (config : value) :
  ((∃ e, server config = Throw e) ↔
   (config = VNull ∨
    ∃ tool, tool ∈ (if truthy (config.@"vision") then visual else structural) ∧
            capability tool ≠ "core" ∧
            truthy (config.@"capabilities") = true ∧
            (∀ l, config.@"capabilities" ≠ VArr l) ∧
            (∀ s, config.@"capabilities" ≠ VStr s))) ∧
  (∀ e, server config = Throw e → exn_name e = "TypeError").
Proof using Type.
  unfold createServer.
  assert (∀ c e, nullish c = false →
    filterM (λ tool, capabilities ← get c "capabilities";
               if negb (truthy capabilities) then mret true
               else if String.eqb (capability tool) "core" then mret true
               else includes capabilities (capability tool))
      (if truthy (c.@"vision") then visual else structural) = Throw e →
    exn_name e = "TypeError" ∧
    ∃ tool, tool ∈ (if truthy (c.@"vision") then visual else structural) ∧
            capability tool ≠ "core" ∧ truthy (c.@"capabilities") = true ∧
            (∀ l, c.@"capabilities" ≠ VArr l) ∧ (∀ s, c.@"capabilities" ≠ VStr s))
    as Hfilter.
  { intros c e Hc (tool & Hin & Htool)%filterM_throws.
    rewrite get_ok in Htool by done. simpl in Htool.
    destruct (truthy (c.@"capabilities")) eqn:Htruthy; simpl in Htool; [|done].
    destruct (String.eqb_spec (capability tool) "core") as [|Hcore]; [done|].
    destruct (c.@"capabilities") eqn:Hcaps; simpl in Htool; try done;
      injection Htool as <-; (split; [done|]); exists tool; by rewrite ?Hcaps. }
  assert (∀ c, nullish c = false →
    (∃ tool, tool ∈ (if truthy (c.@"vision") then visual else structural) ∧
            capability tool ≠ "core" ∧ truthy (c.@"capabilities") = true ∧
            (∀ l, c.@"capabilities" ≠ VArr l) ∧ (∀ s, c.@"capabilities" ≠ VStr s)) →
    ∃ e, filterM (λ tool, capabilities ← get c "capabilities";
               if negb (truthy capabilities) then mret true
               else if String.eqb (capability tool) "core" then mret true
               else includes capabilities (capability tool))
      (if truthy (c.@"vision") then visual else structural) = Throw e)
    as Hthrow.
  { intros c Hc (tool & Hin & Hcore & Htruthy & Harr & Hstr).
    apply filterM_throws_intro. exists tool. split; [done|].
    rewrite get_ok by done. simpl. rewrite Htruthy. simpl.
    destruct (String.eqb_spec (capability tool) "core"); [done|].
    destruct (c.@"capabilities") eqn:Hcaps; simpl; eauto.
    - by destruct (Hstr s).
    - by destruct (Harr l). }
  destruct config.
  - (* undefined: the default parameter *)
    simpl. split; [split|].
    + intros [e (tool & _ & ?)%filterM_throws]. done.
    + intros [?|(tool & _ & _ & ? & _)]; done.
    + intros e (tool & _ & ?)%filterM_throws. done.
  - split; [split|].
    + by left.
    + intros _. by eexists.
    + intros e. simpl. by intros [= <-].
  - split; [split|].
    + intros [e He]. right. by apply (Hfilter (VBool b) e eq_refl).
    + intros [?|Htool]; [done|]. by apply (Hthrow (VBool b) eq_refl).
    + intros e He. by apply (Hfilter (VBool b) e eq_refl).
  - split; [split|].
    + intros [e He]. right. by apply (Hfilter (VNum n) e eq_refl).
    + intros [?|Htool]; [done|]. by apply (Hthrow (VNum n) eq_refl).
    + intros e He. by apply (Hfilter (VNum n) e eq_refl).
  - split; [split|].
    + intros [e He]. right. by apply (Hfilter (VStr s) e eq_refl).
    + intros [?|Htool]; [done|]. by apply (Hthrow (VStr s) eq_refl).
    + intros e He. by apply (Hfilter (VStr s) e eq_refl).
  - split; [split|].
    + intros [e He]. right. by apply (Hfilter (VArr l) e eq_refl).
    + intros [?|Htool]; [done|]. by apply (Hthrow (VArr l) eq_refl).
    + intros e He. by apply (Hfilter (VArr l) e eq_refl).
  - split; [split|].
    + intros [e He]. right. by apply (Hfilter (VObj m) e eq_refl).
    + intros [?|Htool]; [done|]. by apply (Hthrow (VObj m) eq_refl).
    + intros e He. by apply (Hfilter (VObj m) e eq_refl).
Qed.

(** X15. From the CLI options to the tools: on a config that
    [resolveConfig] returned, [createServer] returns the registry selected
    by [--vision], filtered by the tags of [--caps] (all of it without
    [--caps]). The config file has no influence on the tools. *)
Theorem createServer_resolved h cliOptions st cfg st' :
  resolveConfig h cliOptions st = (Ok cfg, st') →
  server cfg
  = Ok (selectHandlers capability (default false (vision cliOptions))
          (parse_caps <$> caps cliOptions) structural visual).
Proof using Type.
  intros Hres.
  pose proof Hres as (F & st1 & C & _ & _ & _ & ->)%resolveConfig_merged.
  destruct (resolved_vision_caps h cliOptions st _ st' Hres) as [Hvision Hcaps].
  set (cfg := merged (defaultConfig h) (merged F C)) in *.
  unfold createServer.
  assert (match cfg with VUndef => VObj ∅ | _ => cfg end = cfg) as -> by done.
  rewrite !get_ok by done. simpl. rewrite Hvision. simpl.
  unfold selectHandlers. apply filterM_filter. intros tool. rewrite Hcaps.
  destruct (caps cliOptions) as [c|]; [|done].
  cbn [of_opt truthy negb fmap option_fmap option_map].
  destruct (String.eqb_spec (capability tool) "core") as [Hcore|Hcore].
  - apply (f_equal Ok). symmetry. apply bool_decide_eq_true_2. by left.
  - rewrite includes_strings. apply (f_equal Ok), bool_decide_ext.
    split; [by right | by intros [?|?]].
Qed.

End AnyConfig.

Lemma createServer_core_kept_witness :
  ∃ tools, sample_server (VObj {[ "capabilities" := VArr [] ]}) = Ok tools ∧
           ("browser_close", "core") ∈ tools.
Proof.
  destruct (sample_server (VObj {[ "capabilities" := VArr [] ]})) as [tools|e] eqn:Hserver.
  - exists tools. split; [reflexivity|].
    unfold sample_server in Hserver.
    apply (createServer_core_kept _ _ _ _ _ _ _ _ _ _ _ _ _ _ _ Hserver);
      [compute_done | reflexivity].
  - vm_compute in Hserver. discriminate Hserver.
Defined.

(** A config whose [capabilities] is the number 1: the selection throws a
    [TypeError], since the registry has a tool tagged [tabs]. *)
Lemma createServer_throws_witness :
  ∃ e, sample_server (VObj {[ "capabilities" := VNum 1 ]}) = Throw e ∧
       exn_name e = "TypeError".
Proof.
  unfold sample_server.
  destruct (createServer_throws snd sample_common sample_none sample_none sample_none
              sample_none sample_tabs [] [] [] sample_pdf [] []
              (VObj {[ "capabilities" := VNum 1 ]})) as [[_ Hthrows] Htype].
  destruct Hthrows as [e He].
  { right. exists ("browser_tab_list", "tabs").
    split; [compute_done|]. split; [discriminate|]. split; [reflexivity|].
    split; intros ?; discriminate. }
  exists e. split; [exact He|exact (Htype e He)].
Defined.

(** With [--caps tabs] the pdf tool is dropped; with a [--caps] value
    whose tags carry a no-break space and a line separator around them,
    both tools are kept. *)
Lemma createServer_resolved_witness :
  (∃ cfg st', resolveConfig linux_host (caps_options "tabs") ∅ = (Ok cfg, st') ∧
     sample_server cfg = Ok [("browser_close", "core"); ("browser_tab_list", "tabs")]) ∧
  (∃ cfg st', resolveConfig linux_host (caps_options nbsp_caps) ∅ = (Ok cfg, st') ∧
     sample_server cfg = Ok [("browser_close", "core"); ("browser_pdf_save", "pdf");
                             ("browser_tab_list", "tabs")]).
Proof.
  split.
  - destruct (resolveConfig linux_host (caps_options "tabs") ∅) as [[cfg|e] st'] eqn:Hres.
    + exists cfg, st'. split; [reflexivity|].
      unfold sample_server.
      exact (createServer_resolved _ _ _ _ _ _ _ _ _ _ _ _ _ _ _ _ _ _ Hres).
    + exfalso.
      assert (returns (resolveConfig linux_host (caps_options "tabs") ∅).1 = true)
        as Hok by (vm_compute; reflexivity).
      rewrite Hres in Hok. discriminate Hok.
  - destruct (resolveConfig linux_host (caps_options nbsp_caps) ∅)
      as [[cfg|e] st'] eqn:Hres.
    + exists cfg, st'. split; [reflexivity|].
      unfold sample_server.
      exact (createServer_resolved _ _ _ _ _ _ _ _ _ _ _ _ _ _ _ _ _ _ Hres).
    + exfalso.
      assert (returns (resolveConfig linux_host (caps_options nbsp_caps) ∅).1 = true)
        as Hok by (vm_compute; reflexivity).
      rewrite Hres in Hok. discriminate Hok.
Defined.

(** ** outputFile *)

(** X16. [outputFile] puts the file under [config.outputDir] when that is
    a string and under the temporary directory when it is [undefined] or
    [null]; only the name is sanitized. When the directory exists, or it
    and the directories above it can be created, [outputFile] returns; the
    directory exists afterwards, nothing has been removed and nothing
    added but it and directories above it, and a later call for any name
    returns without changing the file system. When [outputFile] throws,
    what it throws is the error of creating the directory or one above it,
    which is still missing; directories further up may have been created.
    When the directory is missing under directories that exist and cannot
    be created, [outputFile] throws that error and changes nothing. *)
Theorem outputFile_directory h sanitizeForFilePath config name st dir :
  nullish config = false →
  (config.@"outputDir" = VStr dir ∨
   nullish (config.@"outputDir") = true ∧ dir = tmpdir h) →
  ((dir ∈ st ∨ (∀ x, x ∈ parents h dir ∨ x = dir → mkdir_error h x = None)) →
   ∃ st', outputFile h sanitizeForFilePath config name st
          = (Ok (path_join h [dir; sanitizeForFilePath name]), st') ∧
     dir ∈ st' ∧ st ⊆ st' ∧
     (∀ x, x ∈ st' → x ∈ st ∨ x = dir ∨ x ∈ parents h dir) ∧
     ∀ name', outputFile h sanitizeForFilePath config name' st'
              = (Ok (path_join h [dir; sanitizeForFilePath name']), st')) ∧
  (∀ e st', outputFile h sanitizeForFilePath config name st = (Throw e, st') →
     (dir ∉ st) ∧ st ⊆ st' ∧
     (∀ x, x ∈ st' → x ∈ st ∨ x = dir ∨ x ∈ parents h dir) ∧
     ∃ d, (d = dir ∨ d ∈ parents h dir) ∧ (d ∉ st') ∧ mkdir_error h d = Some e) ∧
  (∀ e, (dir ∉ st) → (∀ x, x ∈ parents h dir → x ∈ st) →
     mkdir_error h dir = Some e →
     outputFile h sanitizeForFilePath config name st = (Throw e, st)).
Proof.
  intros Hconfig Hdir.
  assert (∀ n st0, outputFile h sanitizeForFilePath config n st0
          = match mkdir h dir st0 with
            | (Ok _, st1) => (Ok (path_join h [dir; sanitizeForFilePath n]), st1)
            | (Throw e, st1) => (Throw e, st1)
            end) as Heq.
  { intros n st0. unfold outputFile, mbind, M_bind, lift.
    rewrite get_ok by done.
    destruct Hdir as [-> | [-> ->]]; simpl;
      by destruct (mkdir h _ st0) as [[[]|e] st1]. }
  split; [|split].
  - intros Hcan. destruct (mkdir_returns h dir st Hcan) as [st' Hmk].
    exists st'. rewrite Heq, Hmk. split; [done|].
    pose proof (mkdir_creates _ _ _ _ Hmk) as Hin.
    destruct (mkdir_state _ _ _ _ _ Hmk) as [Hsub Hadd].
    split; [done|]. split; [done|]. split; [done|].
    intros name'. by rewrite Heq, mkdir_existing.
  - intros e st'. rewrite Heq.
    destruct (mkdir h dir st) as [[[]|e'] st1] eqn:Hmk; [done|].
    intros [= <- <-].
    destruct (mkdir_state _ _ _ _ _ Hmk) as [Hsub Hadd].
    by destruct (mkdir_throws _ _ _ _ _ Hmk) as [Hin Hd].
  - intros e Hin Hparents He. rewrite Heq, (mkdir_denied _ _ _ _ Hin Hparents He). done.
Qed.

(** On the sample host the temporary directory is created from nothing;
    on a host where nothing can be created under [/srv], an output
    directory [/srv/out] makes [outputFile] throw, also when [/srv]
    exists. *)
Lemma outputFile_directory_witness :
  (∃ st', outputFile linux_host dash_slashes (VObj ∅) "a/b.png" ∅
          = (Ok "/tmp/a-b.png", st') ∧ "/tmp" ∈ st') ∧
  (∀ e st', outputFile readonly_host dash_slashes odd_file "a/b.png" ∅ = (Throw e, st') →
     ∃ d, (d = "/srv/out" ∨ d ∈ posix_parents "/srv/out") ∧
          mkdir_error readonly_host d = Some e) ∧
  outputFile readonly_host dash_slashes odd_file "a/b.png" {[ "/srv" ]}
  = (Throw (Error "EACCES: permission denied, mkdir '/srv/out'"), {[ "/srv" ]}).
Proof.
  split; [|split].
  - destruct (outputFile_directory linux_host dash_slashes (VObj ∅) "a/b.png" ∅ "/tmp")
      as (Hcreated & _ & _); [reflexivity | right; split; reflexivity |].
    destruct Hcreated as (st' & Hout & Hin & _); [by right|].
    exists st'. by split.
  - intros e st' Hout.
    destruct (outputFile_directory readonly_host dash_slashes odd_file "a/b.png" ∅
                "/srv/out") as (_ & Hthrown & _); [reflexivity | left; reflexivity |].
    destruct (Hthrown e st' Hout) as (_ & _ & _ & d & Hd & _ & He). by exists d.
  - destruct (outputFile_directory readonly_host dash_slashes odd_file "a/b.png"
                {[ "/srv" ]} "/srv/out") as (_ & _ & Hdenied);
      [reflexivity | left; reflexivity |].
    apply Hdenied; [|intros x ->%list_elem_of_singleton|reflexivity].
    + intros Hin%elem_of_singleton. discriminate Hin.
    + by apply elem_of_singleton.
Defined.

(** X17. The directory of [outputFile] comes from the config file alone:
    on a config that [resolveConfig] returned, [outputFile] does what it
    does on the loaded file, so without a config file (or without
    [outputDir] in it) the temporary directory is used; no CLI option
    changes that. *)
Theorem outputFile_resolved h sanitizeForFilePath cliOptions st cfg st' :
  resolveConfig h cliOptions st = (Ok cfg, st') →
  ∃ F, loadConfig h (config cliOptions) st = (Ok F, st) ∧
    (∀ name st0, outputFile h sanitizeForFilePath cfg name st0
                 = outputFile h sanitizeForFilePath F name st0) ∧
    (config cliOptions = None → cfg.@"outputDir" = VUndef).
Proof.
  intros Hres.
  pose proof Hres as (F & st1 & C & HF & _ & HFn & Hcfg)%resolveConfig_merged.
  pose proof Hres as (F' & st1' & C' & HF' & HC' & Htop & _)%resolveConfig_chain.
  assert (F' = F) as -> by congruence.
  pose proof (loadConfig_state _ _ _ _ _ HF) as ->.
  apply configFromCLIOptions_inv in HC' as (lo & d & -> & _).
  assert (cfg.@"outputDir" = F.@"outputDir") as Hout.
  { unfold prop. rewrite Htop by done. unfold first_present.
    rewrite cli_fragment_top, defaultConfig_top by done.
    by destruct (own_props F !! "outputDir"). }
  exists F. split; [done|]. split.
  - intros name st0. unfold outputFile.
    rewrite !get_ok, Hout; [done..|by subst cfg].
  - intros Hnone. rewrite Hout. rewrite Hnone in HF. by injection HF as <-.
Qed.

Lemma outputFile_resolved_witness :
  ∃ cfg st', resolveConfig odd_file_host (device_options "Pixel 5") ∅ = (Ok cfg, st') ∧
    outputFile odd_file_host dash_slashes cfg "page.pdf" st'
    = outputFile odd_file_host dash_slashes odd_file "page.pdf" st'.
Proof.
  destruct (resolveConfig odd_file_host (device_options "Pixel 5") ∅)
    as [[cfg|e] st'] eqn:Hres.
  - destruct (outputFile_resolved odd_file_host dash_slashes _ _ _ _ Hres)
      as (F & HF & Hsame & _).
    assert ((loadConfig odd_file_host (config (device_options "Pixel 5")) ∅).1
            = Ok odd_file) as HF1 by (vm_compute; reflexivity).
    rewrite HF in HF1. simpl in HF1. injection HF1 as ->.
    exists cfg, st'. split; [reflexivity|]. apply Hsame.
  - exfalso.
    assert (returns (resolveConfig odd_file_host (device_options "Pixel 5") ∅).1 = true)
      as Hok by (vm_compute; reflexivity).
    rewrite Hres in Hok. discriminate Hok.
Defined.

(** ** The reserved port and the failures, in full *)

(** X18. The resolved [launchOptions.webSocketPort]: for a browser of the
    chromium family it is the port that was allocated, whatever the config
    file holds there; for firefox and webkit the CLI fragment has no such
    key, so it is what the config file holds and absent without one. *)
Theorem resolveConfig_webSocketPort h cliOptions st cfg st' :
  resolveConfig h cliOptions st = (Ok cfg, st') →
  ((browser_switch (browser cliOptions)).1 = chromium →
   ∃ p, listen h = Ok p ∧ cfg.@"browser".@"launchOptions".@"webSocketPort" = VNum p) ∧
  ((browser_switch (browser cliOptions)).1 ≠ chromium →
   ∃ F st1, loadConfig h (config cliOptions) st = (Ok F, st1) ∧
     own_props (cfg.@"browser".@"launchOptions") !! "webSocketPort"
     = own_props (F.@"browser".@"launchOptions") !! "webSocketPort").
Proof.
  intros (F & st1 & C & HF & HC & _ & _ & Hlo)%resolveConfig_chain.
  apply configFromCLIOptions_inv in HC as (lo & d & -> & Hshape & _).
  rewrite cli_fragment_launchOptions in Hlo. split.
  - intros Hb. destruct Hshape as [(_ & p & Hp & ->)|[Hne _]]; [|done].
    exists p. split; [done|]. apply prop_lookup. rewrite Hlo by done.
    apply first_present_C. simpl. by rewrite lookup_insert_eq.
  - intros Hb. destruct Hshape as [[Heq _]|[_ ->]]; [done|].
    exists F, st1. split; [done|]. rewrite Hlo by done.
    unfold first_present.
    assert (own_props (VObj (cli_launchOptions cliOptions
                               (browser_switch (browser cliOptions)).2))
              !! "webSocketPort" = None) as ->.
    { unfold cli_launchOptions. simpl. by simplify_map_eq. }
    assert (own_props ((defaultConfig h).@"browser".@"launchOptions")
              !! "webSocketPort" = None) as -> by reflexivity.
    by destruct (own_props (F.@"browser".@"launchOptions") !! "webSocketPort").
Qed.

Lemma resolveConfig_webSocketPort_witness :
  (∃ cfg st', resolveConfig linux_host bare_options ∅ = (Ok cfg, st') ∧
     cfg.@"browser".@"launchOptions".@"webSocketPort" = VNum 40000) ∧
  (∃ cfg st', resolveConfig linux_host firefox_options ∅ = (Ok cfg, st') ∧
     ¬ has_key (cfg.@"browser".@"launchOptions") "webSocketPort").
Proof.
  split.
  - destruct (resolveConfig linux_host bare_options ∅) as [[cfg|e] st'] eqn:Hres.
    + destruct (proj1 (resolveConfig_webSocketPort _ _ _ _ _ Hres) eq_refl)
        as (p & Hp & Hport).
      injection Hp as <-. by exists cfg, st'.
    + exfalso.
      assert (returns (resolveConfig linux_host bare_options ∅).1 = true)
        as Hok by (vm_compute; reflexivity).
      rewrite Hres in Hok. discriminate Hok.
  - destruct (resolveConfig linux_host firefox_options ∅) as [[cfg|e] st'] eqn:Hres.
    + destruct (proj2 (resolveConfig_webSocketPort _ _ _ _ _ Hres) ltac:(discriminate))
        as (F & st1 & HF & Hport).
      injection HF as <- <-.
      exists cfg, st'. split; [reflexivity|]. apply not_has_key. by rewrite Hport.
    + exfalso.
      assert (returns (resolveConfig linux_host firefox_options ∅).1 = true)
        as Hok by (vm_compute; reflexivity).
      rewrite Hres in Hok. discriminate Hok.
Defined.

Lemma loadConfig_throws h configFile st e st' :
  loadConfig h configFile st = (Throw e, st') →
  st' = st ∧ ∃ path cause,
    configFile = Some path ∧ path ≠ "" ∧
    e = Error ("Failed to load config file: " +:+ path +:+ ", " +:+ exn_to_string cause) ∧
    (readFile h path = Throw cause ∨
     ∃ text, readFile h path = Ok text ∧ JSON_parse h text = Throw cause).
Proof.
  unfold loadConfig. destruct configFile as [f|]; [|done].
  destruct (String.eqb_spec f "") as [|Hf]; [done|].
  destruct (readFile h f) as [text|cause] eqn:Hread.
  - destruct (JSON_parse h text) as [v|cause] eqn:Hparse; [done|].
    intros [= <- <-]. split; [done|]. exists f, cause. eauto 10.
  - intros [= <- <-]. split; [done|]. exists f, cause. eauto 10.
Qed.

Lemma cache_directory_throws h e :
  cache_directory h = Throw e →
  e = Error ("Unsupported platform: " +:+ platform h) ∧
    platform h ≠ "linux" ∧ platform h ≠ "darwin" ∧ platform h ≠ "win32" ∨
  homedir h = Throw e.
Proof.
  unfold cache_directory.
  destruct (String.eqb_spec (platform h) "linux").
  { destruct (env_set h _); [done|]. destruct (homedir h); [done|]. intros [= <-]. by right. }
  destruct (String.eqb_spec (platform h) "darwin").
  { destruct (homedir h); [done|]. intros [= <-]. by right. }
  destruct (String.eqb_spec (platform h) "win32").
  { destruct (env_set h _); [done|]. destruct (homedir h); [done|]. intros [= <-]. by right. }
  intros [= <-]. by left.
Qed.

Lemma createUserDataDir_throws h browserName channel st e st' :
  createUserDataDir h browserName channel st = (Throw e, st') →
  st' = st ∧ cache_directory h = Throw e ∨
  ∃ dir, cache_directory h = Ok dir ∧
    mkdir h (path_join h [dir; "ms-playwright";
               "mcp-" +:+ default (browserName_str browserName) channel +:+ "-profile"]) st
    = (Throw e, st').
Proof.
  rewrite createUserDataDir_eq. destruct (cache_directory h) as [dir|e'].
  - simpl. destruct (mkdir h _ st) as [[[]|e'] st1] eqn:Hmk; [done|].
    intros [= <- <-]. right. by exists dir.
  - intros [= <- <-]. by left.
Qed.

Lemma configFromCLIOptions_throws h cliOptions st e st' :
  configFromCLIOptions h cliOptions st = (Throw e, st') →
  st' = st ∧ (browser_switch (browser cliOptions)).1 = chromium ∧ listen h = Throw e ∨
  userDataDir cliOptions = None ∧
    createUserDataDir h (browser_switch (browser cliOptions)).1
      (browser_switch (browser cliOptions)).2 st = (Throw e, st').
Proof.
  rewrite configFromCLIOptions_eq. simpl.
  case_bool_decide as Hb.
  - destruct (listen h) as [p|e0] eqn:Hp; simpl.
    2:{ intros [= <- <-]. by left. }
    destruct (userDataDir cliOptions) as [d|]; [done|].
    destruct (createUserDataDir h _ _ st) as [[d|e0] st2]; [done|].
    intros [= <- <-]. by right.
  - destruct (userDataDir cliOptions) as [d|]; [done|].
    destruct (createUserDataDir h _ _ st) as [[d|e0] st2]; [done|].
    intros [= <- <-]. by right.
Qed.

(** X19. Every way [resolveConfig] can throw. It throws the wrapped error
    of a config file that cannot be read or parsed; the error of the port
    allocation, for the chromium family; when it has to derive the profile
    directory, [Unsupported platform], the error of [os.homedir()] or the
    error of creating the profile directory or a directory above it; or a
    [TypeError] when the file holds [null]. Until the profile directory is
    being created the file system is as it was; a failing creation removes
    nothing and can leave directories above the profile directory behind;
    with a [null] file, the fragment of the CLI options has been built
    first, profile directory included. *)
Theorem resolveConfig_throws h cliOptions st e st' :
  resolveConfig h cliOptions st = (Throw e, st') →
  (st' = st ∧ ∃ path cause,
     config cliOptions = Some path ∧ path ≠ "" ∧
     e = Error ("Failed to load config file: " +:+ path +:+ ", " +:+ exn_to_string cause) ∧
     (readFile h path = Throw cause ∨
      ∃ text, readFile h path = Ok text ∧ JSON_parse h text = Throw cause)) ∨
  (st' = st ∧ (browser_switch (browser cliOptions)).1 = chromium ∧ listen h = Throw e) ∨
  (userDataDir cliOptions = None ∧
   (st' = st ∧
    (e = Error ("Unsupported platform: " +:+ platform h) ∧
       platform h ≠ "linux" ∧ platform h ≠ "darwin" ∧ platform h ≠ "win32" ∨
     homedir h = Throw e) ∨
    ∃ dir p d,
      cache_directory h = Ok dir ∧
      p = path_join h [dir; "ms-playwright";
            "mcp-" +:+ default (browserName_str (browser_switch (browser cliOptions)).1)
                         (browser_switch (browser cliOptions)).2 +:+ "-profile"] ∧
      (p ∉ st) ∧ (d = p ∨ d ∈ parents h p) ∧ (d ∉ st') ∧ mkdir_error h d = Some e ∧
      st ⊆ st' ∧ ∀ x, x ∈ st' → x ∈ st ∨ x = p ∨ x ∈ parents h p)) ∨
  (∃ F C, loadConfig h (config cliOptions) st = (Ok F, st) ∧ nullish F = true ∧
          configFromCLIOptions h cliOptions st = (Ok C, st') ∧
          exn_name e = "TypeError").
Proof.
  unfold resolveConfig, mbind at 1 2, M_bind.
  destruct (loadConfig h (config cliOptions) st) as [[F|e0] st1] eqn:HF.
  - pose proof (loadConfig_state _ _ _ _ _ HF) as ->.
    destruct (configFromCLIOptions h cliOptions st) as [[C|e0] st2] eqn:HC.
    + unfold lift. intros [= Hm <-]. right. right. right.
      pose proof HC as (lo & d & -> & _)%configFromCLIOptions_inv.
      destruct (nullish F) eqn:HFn.
      * exists F. eexists. split; [done|]. split; [done|]. split; [done|].
        unfold mergeConfig, get in Hm. rewrite HFn in Hm. by injection Hm as <-.
      * rewrite mergeConfig_merged in Hm by done. simpl in Hm.
        by rewrite mergeConfig_merged in Hm.
    + intros [= <- <-].
      apply configFromCLIOptions_throws in HC as [Hport|[Hnone Hdir]]; [right; by left|].
      right. right. left. split; [done|].
      apply createUserDataDir_throws in Hdir as [[-> Hcache]|(dir & Hcache & Hmk)].
      * left. split; [done|]. by apply cache_directory_throws.
      * right. destruct (mkdir_state _ _ _ _ _ Hmk) as [Hsub Hadd].
        destruct (mkdir_throws _ _ _ _ _ Hmk) as (Hin & d & Hd & Hd' & He).
        eexists dir, _, d. split; [done|]. split; [reflexivity|]. done.
  - intros [= <- <-]. left. by apply loadConfig_throws in HF.
Qed.

(** A missing config file on the sample host; and a host of which Node
    cannot tell the home directory. *)
Lemma resolveConfig_throws_witness :
  (∃ e, resolveConfig linux_host missing_file_options ∅ = (Throw e, ∅) ∧
     ∃ cause, readFile linux_host "missing.json" = Throw cause ∧
       e = Error ("Failed to load config file: missing.json, " +:+ exn_to_string cause)) ∧
  (∃ e, resolveConfig homeless_host bare_options ∅ = (Throw e, ∅) ∧
     homedir homeless_host = Throw e).
Proof.
  split.
  - assert (resolveConfig linux_host missing_file_options ∅
            = (Throw (Error "Failed to load config file: missing.json, Error: ENOENT: no such file or directory, open 'missing.json'"), ∅))
      as Hres by (vm_compute; reflexivity).
    eexists. split; [exact Hres|].
    destruct (resolveConfig_throws _ _ _ _ _ Hres)
      as [(_ & path & cause & Hpath & _ & He & Hcause)
         |[(_ & _ & Hl)
          |[(_ & [(_ & [(_ & Hp & _)|Hh])|(dir & p & d & _ & _ & _ & _ & _ & He & _)])
           |(F & C & HF & _)]]].
    + injection Hpath as <-. exists cause. split; [|exact He].
      destruct Hcause as [Hread|(text & Hread & _)];
        [exact Hread|vm_compute in Hread; discriminate Hread].
    + vm_compute in Hl. discriminate Hl.
    + by destruct Hp.
    + vm_compute in Hh. discriminate Hh.
    + simpl in He. discriminate He.
    + vm_compute in HF. discriminate HF.
  - assert (resolveConfig homeless_host bare_options ∅
            = (Throw (MkExn "SystemError"
                        "A system error occurred: uv_os_homedir returned ENOENT (no such file or directory)"
                        (Some "ERR_SYSTEM_ERROR")), ∅))
      as Hres by (vm_compute; reflexivity).
    eexists. split; [exact Hres|].
    destruct (resolveConfig_throws _ _ _ _ _ Hres)
      as [(_ & path & cause & Hpath & _)
         |[(_ & _ & Hl)
          |[(_ & [(_ & [(_ & Hp & _)|Hh])|(dir & p & d & Hc & _)])
           |(F & C & HF & HFn & _)]]].
    + discriminate Hpath.
    + vm_compute in Hl. discriminate Hl.
    + by destruct Hp.
    + exact Hh.
    + vm_compute in Hc. discriminate Hc.
    + vm_compute in HF. injection HF as <-. discriminate HFn.
Defined.

(** X20. Test workers do not share ports: for worker indices that are
    integers from [0] to below [2^50], where the arithmetic of the fixture
    is exact, the HTTP and HTTPS ports of a worker differ, and both differ
    from the two ports of any other worker. *)
Theorem workerServers_ports_apart (i j : Z) :
  (0 ≤ i < 2 ^ 50)%Z → (0 ≤ j < 2 ^ 50)%Z →
  i ≠ j →
  (workerServers_ports i).1 ≠ (workerServers_ports i).2 ∧
  (workerServers_ports i).1 ≠ (workerServers_ports j).1 ∧
  (workerServers_ports i).1 ≠ (workerServers_ports j).2 ∧
  (workerServers_ports i).2 ≠ (workerServers_ports j).1 ∧
  (workerServers_ports i).2 ≠ (workerServers_ports j).2.
Proof. unfold workerServers_ports. simpl. lia. Qed.

Lemma workerServers_ports_apart_witness :
  (workerServers_ports 0).2 ≠ (workerServers_ports 1).1.
Proof. apply (workerServers_ports_apart 0 1); lia. Defined.

(** ** Trimmed tags and shared tools *)

(** X21. The tags that [--caps] yields carry no white space around them:
    no tag of the list starts with a white-space character or ends with
    one, so [' tabs '] in the value selects the tools tagged [tabs]. *)
Theorem caps_tags_trimmed h cliOptions st C st' c :
  configFromCLIOptions h cliOptions st = (Ok C, st') →
  caps cliOptions = Some c →
  ∃ tags, C.@"capabilities" = VArr (VStr <$> tags) ∧
          ∀ tag, tag ∈ tags →
            starts_with_space tag = false ∧ ends_with_space tag = false.
Proof.
  intros (lo & d & -> & _)%configFromCLIOptions_inv Hc.
  exists (parse_caps c). rewrite cli_fragment_capabilities, Hc. split; [done|].
  intros tag (raw & -> & _)%list_elem_of_fmap. apply trim_trimmed.
Qed.

(** The sample value with a space, a no-break space and a line separator
    around its tags. *)
Lemma caps_tags_trimmed_witness :
  starts_with_space nbsp_caps = true ∧ ends_with_space nbsp_caps = true ∧
  ∃ C tags, configFromCLIOptions linux_host (caps_options nbsp_caps) ∅ = (Ok C, ∅) ∧
    C.@"capabilities" = VArr (VStr <$> tags) ∧
    ∀ tag, tag ∈ tags → starts_with_space tag = false ∧ ends_with_space tag = false.
Proof.
  split; [reflexivity|]. split; [reflexivity|].
  assert ((configFromCLIOptions linux_host (caps_options nbsp_caps) ∅).1
          = Ok (cli_fragment linux_host (caps_options nbsp_caps) chromium
                  (<["webSocketPort" := VNum 40000]>
                     (cli_launchOptions (caps_options nbsp_caps) (Some "chrome")))
                  "/tmp/profile")) as HC1 by (vm_compute; reflexivity).
  assert ((configFromCLIOptions linux_host (caps_options nbsp_caps) ∅).2 = ∅) as HC2
    by (vm_compute; reflexivity).
  destruct (configFromCLIOptions linux_host (caps_options nbsp_caps) ∅)
    as [r st'] eqn:HC.
  simpl in HC1, HC2. subst r st'.
  destruct (caps_tags_trimmed _ _ _ _ _ nbsp_caps HC eq_refl) as (tags & Hcaps & Htrim).
  eexists _, tags. split; [reflexivity|]. by split.
Defined.

Section Shared.
Context {Tool : Type} (capability : Tool → string).
Context (common dialogs files keyboard navigate tabs : bool → list Tool).
Context (console install network pdf snapshot screen : list Tool).

Local Abbreviation structural :=
  (snapshotTools common dialogs files keyboard navigate tabs
     console install network pdf snapshot).
Local Abbreviation visual :=
  (screenshotTools common dialogs files keyboard navigate tabs
     console install network pdf screen).
Local Abbreviation server :=
  (createServer capability common dialogs files keyboard navigate tabs
     console install network pdf snapshot screen).

Lemma createServer_typed (config : value) (capabilities : option (list string)) :
  nullish config = false →
  config.@"capabilities" = of_opt (λ l, VArr (VStr <$> l)) capabilities →
  server config
  = Ok (filter (λ tool, allowed capabilities (capability tool))
          (if truthy (config.@"vision") then visual else structural)).
Proof using Type.
  intros Hconfig Hcaps. unfold createServer.
  assert (match config with VUndef => VObj ∅ | _ => config end = config) as ->
    by by destruct config.
  rewrite !get_ok by done. simpl.
  apply filterM_filter. intros tool. rewrite Hcaps.
  destruct capabilities as [l|]; [|done].
  cbn [of_opt truthy negb].
  destruct (String.eqb_spec (capability tool) "core") as [Hcore|Hcore].
  - apply (f_equal Ok). symmetry. apply bool_decide_eq_true_2. by left.
  - rewrite includes_strings. apply (f_equal Ok), bool_decide_ext.
    split; [by right | by intros [?|?]].
Qed.

(** X22. The modules [console], [install], [network] and [pdf] are in both
    registries: for a config whose [capabilities] is [undefined] or an
    array of tags, a tool of one of them is exposed exactly when its tag
    passes the capability test, in vision mode and in snapshot mode
    alike. *)
Theorem shared_tools_in_both_modes (config : value) (capabilities : option (list string))
    (tool : Tool) :
  nullish config = false →
  config.@"capabilities" = of_opt (λ l, VArr (VStr <$> l)) capabilities →
  tool ∈ (console ++ install ++ network ++ pdf)%list →
  ∃ tools, server config = Ok tools ∧
    (tool ∈ tools ↔
     capabilities = None ∨ capability tool = "core" ∨
     ∃ l, capabilities = Some l ∧ capability tool ∈ l).
Proof using Type.
  intros Hconfig Hcaps Hshared.
  rewrite (createServer_typed config capabilities) by done.
  eexists. split; [reflexivity|]. rewrite list_elem_of_filter.
  assert (tool ∈ (if truthy (config.@"vision") then visual else structural)) as Hin.
  { rewrite !elem_of_app in Hshared.
    destruct (truthy (config.@"vision")); unfold screenshotTools, snapshotTools;
      rewrite !elem_of_app; tauto. }
  unfold allowed. destruct capabilities as [l|].
  - split.
    + intros [[Hcore|Hl] _]; eauto.
    + intros [Hnone|[Hcore|(l' & [= <-] & Hl)]]; [done|auto..].
  - split; [by left|done].
Qed.

End Shared.

Lemma shared_tools_in_both_modes_witness :
  (∃ tools, sample_server (VObj (<["vision" := VBool true]>
                                  {[ "capabilities" := VArr [VStr "pdf"] ]})) = Ok tools ∧
            ("browser_pdf_save", "pdf") ∈ tools) ∧
  (∃ tools, sample_server (VObj {[ "capabilities" := VArr [VStr "pdf"] ]}) = Ok tools ∧
            ("browser_pdf_save", "pdf") ∈ tools).
Proof.
  unfold sample_server. split.
  - destruct (shared_tools_in_both_modes snd sample_common sample_none sample_none
                sample_none sample_none sample_tabs [] [] [] sample_pdf [] []
                (VObj (<["vision" := VBool true]> {[ "capabilities" := VArr [VStr "pdf"] ]}))
                (Some ["pdf"]) ("browser_pdf_save", "pdf"))
      as (tools & Htools & Hin); [reflexivity | reflexivity | compute_done |].
    exists tools. split; [exact Htools|]. apply Hin. right. right.
    exists ["pdf"]. split; [reflexivity | compute_done].
  - destruct (shared_tools_in_both_modes snd sample_common sample_none sample_none
                sample_none sample_none sample_tabs [] [] [] sample_pdf [] []
                (VObj {[ "capabilities" := VArr [VStr "pdf"] ]})
                (Some ["pdf"]) ("browser_pdf_save", "pdf"))
      as (tools & Htools & Hin); [reflexivity | reflexivity | compute_done |].
    exists tools. split; [exact Htools|]. apply Hin. right. right.
    exists ["pdf"]. split; [reflexivity | compute_done].
Defined.

(** X23. When [resolveConfig] returns: the config file, if any, loads to a
    value other than [null]; the port allocation succeeds if the browser
    is of the chromium family; and [--user-data-dir] is given or the
    profile directory can be created. Nothing else is needed: no option
    value and no content of the file makes it throw then. *)
Theorem resolveConfig_returns h cliOptions st F d st' :
  loadConfig h (config cliOptions) st = (Ok F, st) →
  nullish F = false →
  ((browser_switch (browser cliOptions)).1 = chromium → ∃ p, listen h = Ok p) →
  (userDataDir cliOptions = Some d ∧ st' = st ∨
   userDataDir cliOptions = None ∧
   createUserDataDir h (browser_switch (browser cliOptions)).1
     (browser_switch (browser cliOptions)).2 st = (Ok d, st')) →
  ∃ cfg, resolveConfig h cliOptions st = (Ok cfg, st') ∧
         cfg.@"browser".@"userDataDir" = VStr d.
Proof.
  intros HF HFn Hport Hd.
  assert (∃ lo, configFromCLIOptions h cliOptions st
                = (Ok (cli_fragment h cliOptions (browser_switch (browser cliOptions)).1
                         lo d), st')) as [lo HC].
  { rewrite configFromCLIOptions_eq. simpl. case_bool_decide as Hb.
    - destruct (Hport Hb) as [p ->]. simpl. eexists.
      destruct Hd as [[-> ->]|[-> ->]]; reflexivity.
    - eexists. destruct Hd as [[-> ->]|[-> ->]]; reflexivity. }
  rewrite (resolveConfig_ok _ _ _ _ _ _ _ HF HC).
  rewrite mergeConfig_merged by done. simpl. rewrite mergeConfig_merged by done.
  eexists. split; [reflexivity|].
  rewrite merged_browser. unfold prop at 1. simpl.
  rewrite !lookup_insert_ne by done. rewrite spread2_eq, lookup_union_first.
  rewrite merged_browser. simpl. rewrite !lookup_insert_ne by done.
  rewrite spread2_eq, lookup_union_first.
  by rewrite cli_fragment_userDataDir.
Qed.

Lemma resolveConfig_returns_witness :
  ∃ cfg, resolveConfig freebsd_host profile_options ∅ = (Ok cfg, ∅) ∧
         cfg.@"browser".@"userDataDir" = VStr "/tmp/profile".
Proof.
  apply (resolveConfig_returns freebsd_host profile_options ∅ (VObj ∅) "/tmp/profile" ∅);
    [reflexivity | reflexivity | intros _; by exists 40000%Z | left; split; reflexivity].
Defined.
